(** * Eliza-Solana SDK: scoring, decision, rate limiting and dispatch

    A shallow embedding of the decision logic of the SDK
    (SentimentAnalyzer.ts, MessageReplyHandler.ts, MemeCoinCreator.ts,
    ElizaAgent.ts, TwitterBot.ts, SolanaManager.ts, ElizaSolanaSDK.ts)
    and of its utilities (helpers.ts, logger.ts), followed by the
    properties the specification states about it and by further
    properties of the code.

    Conventions of the embedding.
    - A JavaScript number is an exact rational, or one of NaN, +Infinity,
      -Infinity ([jsnum]); binary rounding and the sign of zero are not
      represented, except in calculatePercentage, whose result depends
      on the rounding and which takes it as a parameter.
    - A JavaScript string is its sequence of UTF-16 code units
      ([jsstring]), so [length] is [.length] and [take] is [substring(0,n)].
    - A value read from a collaborator is a [jsval]; reading a property and
      converting to a number follow ECMAScript and may throw.
    - The language model, the agent runtime, the platform client, the
      chain client, the clock and the conversions of strings and arrays to
      numbers form the environment [Env]: total functions of the number of
      interactions made so far, about which nothing is assumed.
    - Methods are computations [M A] over one [World] holding the fields
      of the objects; an exception leaves the world as it was when thrown. *)

From Stdlib Require Import ZArith QArith Qround Qabs Lqa String Ascii List Bool Lia.
From stdpp Require Import gmap.
Import ListNotations.
Local Open Scope Z_scope.
Set Warnings "-register-all".

(** ** Numbers *)

Inductive jsnum : Type :=
| Num (q : Q)
| NaN
| PosInf
| NegInf.

Definition Qltb (p q : Q) : bool := negb (Qle_bool q p).

(** [a < b]; any comparison with NaN is false. *)
Definition js_lt (a b : jsnum) : bool :=
  match a, b with
  | NaN, _ | _, NaN => false
  | Num p, Num q => Qltb p q
  | NegInf, NegInf => false
  | NegInf, _ => true
  | _, NegInf => false
  | PosInf, _ => false
  | Num _, PosInf => true
  end.

Definition js_gt (a b : jsnum) : bool := js_lt b a.

Definition js_neg (a : jsnum) : jsnum :=
  match a with
  | Num q => Num (- q)
  | NaN => NaN
  | PosInf => NegInf
  | NegInf => PosInf
  end.

Definition js_add (a b : jsnum) : jsnum :=
  match a, b with
  | NaN, _ | _, NaN => NaN
  | Num p, Num q => Num (p + q)
  | PosInf, NegInf | NegInf, PosInf => NaN
  | PosInf, _ | _, PosInf => PosInf
  | NegInf, _ | _, NegInf => NegInf
  end.

Definition js_sub (a b : jsnum) : jsnum := js_add a (js_neg b).

Definition Qsign_inf (q : Q) : jsnum :=
  if Qltb 0 q then PosInf else if Qltb q 0 then NegInf else NaN.

(** [a / b]: a division by zero does not throw, it yields an infinity or
    NaN. *)
Definition js_div (a b : jsnum) : jsnum :=
  match a, b with
  | NaN, _ | _, NaN => NaN
  | Num p, Num q => if Qeq_bool q 0 then Qsign_inf p else Num (p / q)
  | Num _, _ => Num 0
  | PosInf, Num q => if Qltb q 0 then NegInf else PosInf
  | NegInf, Num q => if Qltb q 0 then PosInf else NegInf
  | _, _ => NaN
  end.

(** [Math.min(a, b)] and [Math.max(a, b)] on numbers. *)
Definition Math_min (a b : jsnum) : jsnum :=
  match a, b with
  | NaN, _ | _, NaN => NaN
  | _, _ => if js_lt b a then b else a
  end.

Definition Math_max (a b : jsnum) : jsnum :=
  match a, b with
  | NaN, _ | _, NaN => NaN
  | _, _ => if js_lt a b then b else a
  end.

(** Truthiness of a number: false for 0 and NaN. *)
Definition num_truthy (a : jsnum) : bool :=
  match a with
  | Num q => negb (Qeq_bool q 0)
  | NaN => false
  | _ => true
  end.

Definition of_Z (z : Z) : jsnum := Num (inject_Z z).

(** The number lies in the closed interval [0, 1]. *)
Definition in_unit (a : jsnum) : Prop :=
  match a with
  | Num q => (0 <= q /\ q <= 1)%Q
  | _ => False
  end.

(** ** Strings *)

Definition jsstring : Type := list N.

(** A literal made of ASCII characters. *)
Definition str (s : string) : jsstring :=
  map N_of_ascii (list_ascii_of_string s).

Fixpoint startsWith (s prefix : jsstring) : bool :=
  match prefix, s with
  | [], _ => true
  | _ :: _, [] => false
  | c :: prefix', d :: s' => N.eqb c d && startsWith s' prefix'
  end.

(** [s.includes(sub)] *)
Fixpoint includes (s sub : jsstring) : bool :=
  startsWith s sub ||
  match s with
  | [] => false
  | _ :: s' => includes s' sub
  end.

Definition lower_unit (c : N) : N :=
  if (N.leb 65 c && N.leb c 90)%bool then (c + 32)%N else c.

Definition upper_unit (c : N) : N :=
  if (N.leb 97 c && N.leb c 122)%bool then (c - 32)%N else c.

(** [s.toLowerCase()] and [s.toUpperCase()]: the mapping of the letters
    A-Z and a-z; code units outside ASCII are kept as they are. The
    methods of the language map further characters (the Kelvin sign
    U+212A to k, for one): what is stated through these two functions is
    stated for ASCII texts, or of a test that the larger mapping only
    makes stricter. *)
Definition toLowerCase (s : jsstring) : jsstring := map lower_unit s.
Definition toUpperCase (s : jsstring) : jsstring := map upper_unit s.

(** [s.substring(0, n)] *)
Definition substring0 (n : nat) (s : jsstring) : jsstring := take n s.

(** The code points of a string, as a regular expression with the [u]
    flag reads them: a high surrogate followed by a low one is one code
    point. *)
Fixpoint codePoints (s : jsstring) : list N :=
  match s with
  | [] => []
  | c :: s' =>
      match s' with
      | d :: s'' =>
          if (N.leb 55296 c && N.leb c 56319 && N.leb 56320 d && N.leb d 57343)%bool
          then (65536 + (c - 55296) * 1024 + (d - 56320))%N :: codePoints s''
          else c :: codePoints s'
      | [] => [c]
      end
  end.

(** ** Values, exceptions *)

Inductive jsval : Type :=
| JUndefined
| JNull
| JBool (b : bool)
| JNum (x : jsnum)
| JStr (s : jsstring)
| JArr (items : list jsval)
| JObj (props : list (jsstring * jsval)).

Inductive outcome (A : Type) : Type :=
| Return (a : A)
| Throw (message : jsstring).
Arguments Return {A} a.
Arguments Throw {A} message.

(** ToBoolean *)
Definition truthy (v : jsval) : bool :=
  match v with
  | JUndefined | JNull => false
  | JBool b => b
  | JNum x => num_truthy x
  | JStr s => match s with [] => false | _ => true end
  | JArr _ | JObj _ => true
  end.

(** [a || b] *)
Definition js_or (a b : jsval) : jsval := if truthy a then a else b.

Fixpoint own_prop (props : list (jsstring * jsval)) (name : jsstring) : option jsval :=
  match props with
  | [] => None
  | (k, v) :: rest => if bool_decide (k = name) then Some v else own_prop rest name
  end.

Definition TypeError : jsstring := str "TypeError".

(** [v.name], for the property names the program reads (score, label,
    confidence, keywords, name, symbol, concept, actions, createToken,
    replyToTweet, analyzeMore, mood, topics, content, text), none of which
    is found on a prototype: undefined unless [v] is an object that has
    it; reading from null or undefined throws. *)
Definition get_prop (v : jsval) (name : string) : outcome jsval :=
  match v with
  | JUndefined | JNull => Throw TypeError
  | JObj props =>
      match own_prop props (str name) with
      | Some x => Return x
      | None => Return JUndefined
      end
  | _ => Return JUndefined
  end.

(** [v?.name] *)
Definition get_prop_opt (v : jsval) (name : string) : outcome jsval :=
  match v with
  | JUndefined | JNull => Return JUndefined
  | _ => get_prop v name
  end.

(** ** Records of types.ts *)

Record Metrics : Type := {
  likes : jsnum;
  retweets : jsnum;
  replies : jsnum;
  views : option jsnum              (* views?: number *)
}.

Record TwitterMessage : Type := {
  tweetId : jsstring;               (* id *)
  text : jsstring;
  authorId : jsstring;
  authorUsername : jsstring;
  createdAt : jsnum;                (* createdAt.getTime() *)
  metrics : Metrics;
  hashtags : list jsstring;
  mentions : list jsstring;
  isReply : bool;
  parentTweetId : option jsstring
}.

Record ReplyResult : Type := {
  success : bool;
  replyId : option jsstring;
  content : jsstring;
  error : option jsstring
}.

(** An error text; the one message that prints numbers keeps them as
    numbers. *)
Inductive errtext : Type :=
| Msg (s : jsstring)
| SentimentScoreTooLow (score minimum : jsnum).

Module TokenCreationResult.
Record t : Type := {
  success : bool;
  tokenAddress : option jsstring;
  transactionId : option jsstring;
  bondingCurveAddress : option jsval;
  error : option errtext
}.
(** [{ success: false, error }] *)
Definition failure (e : option errtext) : t :=
  {| success := false; tokenAddress := None; transactionId := None;
     bondingCurveAddress := None; error := e |}.
End TokenCreationResult.

Record MemeCoinMetadata : Type := {
  twitterContext : TwitterMessage;
  sentimentScore : jsnum;
  viralScore : jsnum;
  createdBy : jsstring;
  inspiration : jsstring
}.

Record MemeCoinData : Type := {
  name : jsstring;
  symbol : jsstring;
  description : jsstring;
  imageUrl : option jsstring;
  metadata : MemeCoinMetadata
}.

Record SDKConfig : Type := {
  maxRepliesPerHour : Z;            (* twitter.maxRepliesPerHour *)
  replyDelay : Z;                   (* twitter.replyDelay *)
  username : jsstring;              (* twitter.username *)
  minSentimentScore : jsnum;        (* memeCoin.minSentimentScore *)
  maxSupply : jsnum;                (* memeCoin.maxSupply *)
  initialLiquidity : jsnum          (* memeCoin.initialLiquidity *)
}.

(** ** Environment, world and computations *)

(** What the program asks of its collaborators. *)
Inductive Call : Type :=
| SentimentCompletion (text : jsstring)
| KeywordsCompletion (text : jsstring)
| TokenSuggestionCompletion (message : TwitterMessage)
| StructuredAnalysisCompletion (text : jsstring)
| RuntimeProcessActions (text : jsstring)
| BotReplyToTweet (original : jsstring) (replyContent : jsstring)
| ClientV2Reply (replyContent : jsstring) (original : jsstring)
| CreateTokenWithBondingCurve (symbol : jsstring) (totalSupply initialBuy : jsnum)
| SplCreateMint.

Record Env : Type := {
  (* Date.now() *)
  clock : nat -> Z;
  (* new Date().getHours() *)
  wall_hour : nat -> Z;
  (* JSON.parse(response.choices[0].message.content || '{}') after
     openai.chat.completions.create: the parsed value, or a rejection, a
     missing choice or a parse error *)
  completion : nat -> outcome jsval;
  (* runtime.processActions(...) *)
  processActions : nat -> outcome jsval;
  (* client.v2.reply(...): reply.data.id *)
  v2_reply : nat -> outcome jsstring;
  (* createMint ... initializeBondingCurve: mint.toString() and the
     bonding curve address *)
  spl_mint : nat -> outcome (jsstring * jsval);
  (* StringToNumber of ECMAScript, and the conversion of an array *)
  StringToNumber : jsstring -> jsnum;
  ArrayToNumber : list jsval -> outcome jsnum
}.

Record World : Type := {
  env : Env;
  tick : nat;                          (* interactions made so far *)
  calls : list Call;                   (* collaborator calls, latest first *)
  client : bool;                       (* TwitterBot.client is set *)
  payer : bool;                        (* SolanaManager.payer is set *)
  replyHistory : gmap jsstring Z;      (* MessageReplyHandler *)
  hourlyReplyCount : Z;
  lastHourReset : Z;
  processedTweets : gset jsstring      (* ElizaSolanaSDK *)
}.

Definition M (A : Type) : Type := World -> outcome A * World.

Definition ret {A} (a : A) : M A := fun w => (Return a, w).

Definition bind {A B} (c : M A) (k : A -> M B) : M B := fun w =>
  match c w with
  | (Return a, w') => k a w'
  | (Throw e, w') => (Throw e, w')
  end.

Definition throw {A} (e : jsstring) : M A := fun w => (Throw e, w).

Definition lift {A} (o : outcome A) : M A := fun w => (o, w).

(** [try { c } catch (error) { h error.message }] *)
Definition try_catch {A} (c : M A) (h : jsstring -> M A) : M A := fun w =>
  match c w with
  | (Return a, w') => (Return a, w')
  | (Throw e, w') => h e w'
  end.

Notation "'let!' x ':=' c 'in' k" := (bind c (fun x => k))
  (at level 10, x pattern, c at level 100, k at level 200).

Definition step (w : World) : World :=
  {| env := env w; tick := S (tick w); calls := calls w;
     client := client w; payer := payer w;
     replyHistory := replyHistory w; hourlyReplyCount := hourlyReplyCount w;
     lastHourReset := lastHourReset w; processedTweets := processedTweets w |}.

Definition record_call (c : Call) (w : World) : World :=
  {| env := env w; tick := tick w; calls := c :: calls w;
     client := client w; payer := payer w;
     replyHistory := replyHistory w; hourlyReplyCount := hourlyReplyCount w;
     lastHourReset := lastHourReset w; processedTweets := processedTweets w |}.

Definition set_tracking (h : gmap jsstring Z) (n : Z) (w : World) : World :=
  {| env := env w; tick := tick w; calls := calls w;
     client := client w; payer := payer w;
     replyHistory := h; hourlyReplyCount := n;
     lastHourReset := lastHourReset w; processedTweets := processedTweets w |}.

Definition set_window (n start : Z) (w : World) : World :=
  {| env := env w; tick := tick w; calls := calls w;
     client := client w; payer := payer w;
     replyHistory := replyHistory w; hourlyReplyCount := n;
     lastHourReset := start; processedTweets := processedTweets w |}.

Definition set_processed (s : gset jsstring) (w : World) : World :=
  {| env := env w; tick := tick w; calls := calls w;
     client := client w; payer := payer w;
     replyHistory := replyHistory w; hourlyReplyCount := hourlyReplyCount w;
     lastHourReset := lastHourReset w; processedTweets := s |}.

Definition get {A} (f : World -> A) : M A := fun w => (Return (f w), w).
Definition modify (f : World -> World) : M unit := fun w => (Return tt, f w).

(** [Date.now()] and [new Date().getHours()] *)
Definition Date_now : M Z := fun w => (Return (clock (env w) (tick w)), step w).
Definition getHours : M Z := fun w => (Return (wall_hour (env w) (tick w)), step w).

(** A call to a collaborator: recorded, then answered by the environment. *)
Definition external {A} (c : Call) (answer : Env -> nat -> outcome A) : M A :=
  fun w => (answer (env w) (tick w), record_call c (step w)).

(** ToNumber, as [Math.min] and [Math.max] apply it to an argument. An
    object converts through its [toString], which throws when the parsed
    object carries a property of that name (it is not callable). *)
Definition ToNumber (v : jsval) : M jsnum := fun w =>
  match v with
  | JUndefined => (Return NaN, w)
  | JNull => (Return (Num 0), w)
  | JBool b => (Return (if b then Num 1 else Num 0), w)
  | JNum x => (Return x, w)
  | JStr s => (Return (StringToNumber (env w) s), w)
  | JArr items => (ArrayToNumber (env w) items, w)
  | JObj props =>
      match own_prop props (str "toString") with
      | Some _ => (Throw TypeError, w)
      | None => (Return NaN, w)
      end
  end.

(** Whether ToString, as a template literal applies it to a value,
    returns: it throws for an object that carries a property [toString]
    (a parsed value is not callable, and [valueOf] gives the object
    back), and for an array with such an element, which [join] converts
    in turn. *)
Fixpoint stringifies (v : jsval) : bool :=
  match v with
  | JArr items => forallb stringifies items
  | JObj props =>
      match own_prop props (str "toString") with
      | Some _ => false
      | None => true
      end
  | _ => true
  end.

(** A template literal with the substitutions [values]. *)
Definition interpolate (values : list jsval) : outcome unit :=
  if forallb stringifies values then Return tt else Throw TypeError.

(** [Math.max(0, Math.min(1, x))] *)
Definition clamp (x : jsnum) : jsnum := Math_max (Num 0) (Math_min (Num 1) x).

(** [Math.max(0, Math.min(1, v))] for a value [v] of any type. *)
Definition clamp01 (v : jsval) : M jsnum :=
  let! x := ToNumber v in
  ret (clamp x).

Definition HOUR : Z := 60 * 60 * 1000.

(** ** TwitterBot.ts *)

Module TwitterBot.

Definition replyToTweet (originalTweet : TwitterMessage) (replyContent : jsstring)
  : M ReplyResult :=
  let! _ := modify (record_call (BotReplyToTweet (tweetId originalTweet) replyContent)) in
  let! ready := get client in
  if negb ready then throw (str "Twitter client not initialized")
  else
    try_catch
      (let! reply := external (ClientV2Reply replyContent (tweetId originalTweet)) v2_reply in
       ret {| success := true; replyId := Some reply;
              content := replyContent; error := None |})
      (fun message =>
       ret {| success := false; replyId := None;
              content := replyContent; error := Some message |}).

End TwitterBot.

(** ** MessageReplyHandler.ts *)

Module MessageReplyHandler.

Definition resetHourlyCounter : M unit :=
  let! now := Date_now in
  modify (set_window 0 now).

Definition canReply (config : SDKConfig) : M bool :=
  let! now := Date_now in
  let! start := get lastHourReset in
  let! _ := (if Z.ltb HOUR (now - start) then resetHourlyCounter else ret tt) in
  let! n := get hourlyReplyCount in
  ret (Z.ltb n (maxRepliesPerHour config)).

Definition hasRecentReply (userId : jsstring) : M bool :=
  let! history := get replyHistory in
  match history !! userId with
  | None => ret false
  | Some lastReply =>
      if Z.eqb lastReply 0 then ret false
      else
        let! now := Date_now in
        ret (Z.ltb (now - lastReply) HOUR)
  end.

Definition updateReplyTracking (userId : jsstring) : M unit :=
  let! now := Date_now in
  let! history := get replyHistory in
  let! n := get hourlyReplyCount in
  modify (set_tracking (<[userId := now]> history) (n + 1)).

(** N recorded replies: updateReplyTracking once per author, in order. *)
Fixpoint recordReplies (authors : list jsstring) : M unit :=
  match authors with
  | [] => ret tt
  | userId :: rest =>
      let! _ := updateReplyTracking userId in
      recordReplies rest
  end.

Definition formatReply (message : TwitterMessage) (content : jsstring) : jsstring :=
  let mention := str "@" ++ authorUsername message in
  let reply := if negb (includes content mention)
               then mention ++ str " " ++ content
               else content in
  if Nat.ltb 280 (length reply)
  then substring0 277 reply ++ str "..."
  else reply.

Definition replyToTweet (config : SDKConfig) (message : TwitterMessage)
  (replyContent : jsstring) : M ReplyResult :=
  try_catch
    (let! ok := canReply config in
     if negb ok then
       ret {| success := false; replyId := None; content := replyContent;
              error := Some (str "Rate limit exceeded") |}
     else
       let! recent := hasRecentReply (authorId message) in
       if recent then
         ret {| success := false; replyId := None; content := replyContent;
                error := Some (str "Recent reply to this user") |}
       else
         let formattedReply := formatReply message replyContent in
         let! result := TwitterBot.replyToTweet message formattedReply in
         let! _ := (if success result
                    then updateReplyTracking (authorId message)
                    else ret tt) in
         ret result)
    (fun message =>
     ret {| success := false; replyId := None; content := replyContent;
            error := Some message |}).

(** The statistics of getStats; the fields are evaluated in this order, so
    the count is read before canReply runs. *)
Module Stats.
Record t : Type := {
  hourlyReplies : Z;
  maxHourlyReplies : Z;
  recentInteractions : nat;
  canReply : bool
}.
End Stats.

Definition getStats (config : SDKConfig) : M Stats.t :=
  let! n := get hourlyReplyCount in
  let! history := get replyHistory in
  let! ok := canReply config in
  ret {| Stats.hourlyReplies := n;
         Stats.maxHourlyReplies := maxRepliesPerHour config;
         Stats.recentInteractions := size history;
         Stats.canReply := ok |}.

End MessageReplyHandler.

(** The hourly count that canReply leaves behind. *)
Definition countAfterCheck (w : World) : Z :=
  if Z.ltb HOUR (clock (env w) (tick w) - lastHourReset w) then 0
  else hourlyReplyCount w.

(** Specification: the reply history and the hourly count are the same in both worlds. *)
Definition tracking_kept (w w' : World) : Prop :=
  replyHistory w' = replyHistory w /\ hourlyReplyCount w' = hourlyReplyCount w.

(** ** SolanaManager.ts *)

Module SolanaManager.

(** createTokenWithBondingCurve. The chain operations its [try] awaits
    one after the other (createMint, getOrCreateAssociatedTokenAccount,
    mintTo and the bonding curve) are taken together as the one
    interaction [SplCreateMint], answered by the mint and the curve
    address, or by the error of the operation that throws; nothing is
    stated about their number. *)
Definition createTokenWithBondingCurve (symbol : jsstring) (totalSupply initialBuy : jsnum)
  : M TokenCreationResult.t :=
  let! _ := modify (record_call (CreateTokenWithBondingCurve symbol totalSupply initialBuy)) in
  let! ready := get payer in
  if negb ready then throw (str "No payer configured for token creation")
  else
    try_catch
      (let! (mint, bondingCurve) := external SplCreateMint spl_mint in
       ret {| TokenCreationResult.success := true;
              TokenCreationResult.tokenAddress := Some mint;
              TokenCreationResult.transactionId := Some (str "pending");
              TokenCreationResult.bondingCurveAddress := Some bondingCurve;
              TokenCreationResult.error := None |})
      (fun message =>
       ret (TokenCreationResult.failure (Some (Msg message)))).

End SolanaManager.

(** ** MemeCoinCreator.ts *)

Module MemeCoinCreator.

Record Validation : Type := {
  isValid : bool;
  validationError : option errtext
}.

Definition bannedWords : list jsstring :=
  [str "scam"; str "rug"; str "hack"; str "steal"].

(** [/^[A-Z]{3,6}$/.test(symbol)] *)
Definition symbolFormat (symbol : jsstring) : bool :=
  Nat.leb 3 (length symbol) && Nat.leb (length symbol) 6 &&
  forallb (fun c => N.leb 65 c && N.leb c 90) symbol.

(** The text the banned words are looked up in. *)
Definition bannedContent (data : MemeCoinData) : jsstring :=
  toLowerCase (name data ++ str " " ++ description data ++ str " " ++
               text (twitterContext (metadata data))).

(** [for (const word of bannedWords) if (content.includes(word)) return ...] *)
Fixpoint firstBanned (content : jsstring) (words : list jsstring) : option jsstring :=
  match words with
  | [] => None
  | word :: rest => if includes content word then Some word else firstBanned content rest
  end.

Definition validateMemeCoinData (config : SDKConfig) (data : MemeCoinData) : Validation :=
  if js_lt (sentimentScore (metadata data)) (minSentimentScore config) then
    {| isValid := false;
       validationError := Some (SentimentScoreTooLow (sentimentScore (metadata data))
                                                     (minSentimentScore config)) |}
  else if Nat.ltb (length (name data)) 3 || Nat.ltb 32 (length (name data)) then
    {| isValid := false;
       validationError := Some (Msg (str "Token name must be between 3 and 32 characters")) |}
  else if negb (symbolFormat (symbol data)) then
    {| isValid := false;
       validationError := Some (Msg (str "Token symbol must be 3-6 uppercase letters")) |}
  else
    match firstBanned (bannedContent data) bannedWords with
    | Some word =>
        {| isValid := false;
           validationError := Some (Msg (str "Contains banned content: " ++ word)) |}
    | None => {| isValid := true; validationError := None |}
    end.

(** Of the token parameters handed to the chain client the embedding
    keeps the symbol, the supply and the initial buy; the name and the
    metadata URI (formatTokenName, sanitizeContent, createMetadataUri,
    which reads the clock) only shape the request. *)
Definition createToken (config : SDKConfig) (memeCoinData : MemeCoinData)
  : M TokenCreationResult.t :=
  try_catch
    (let validation := validateMemeCoinData config memeCoinData in
     if negb (isValid validation) then
       ret (TokenCreationResult.failure (validationError validation))
     else
       let sanitizedSymbol := substring0 6 (toUpperCase (symbol memeCoinData)) in
       let! _ := Date_now in
       let! result := SolanaManager.createTokenWithBondingCurve
                        sanitizedSymbol (maxSupply config) (initialLiquidity config) in
       ret result)
    (fun message =>
     ret (TokenCreationResult.failure (Some (Msg message)))).

(** [/^[A-Z]{3,6}$/.test(symbol)]; the body of the [try] cannot throw. *)
Definition isTokenSymbolAvailable (symbol : jsstring) : bool := symbolFormat symbol.

(** [i.toString().padStart(2, '0')] for i from 1 to 99. *)
Definition pad2 (i : nat) : jsstring :=
  [(48 + N.of_nat (i / 10))%N; (48 + N.of_nat (i mod 10))%N].

(** [s.replace(/[^A-Z]/g, '')] *)
Definition lettersOnly (s : jsstring) : jsstring :=
  List.filter (fun c => N.leb 65 c && N.leb c 90) s.

(** The loop [for (i = 1; suggestions.length < count && i <= 99; i++)],
    [remaining] bounding the iterations left. *)
Fixpoint suggestLoop (base : jsstring) (count : Z) (remaining i : nat)
  (suggestions : list jsstring) : list jsstring :=
  match remaining with
  | O => suggestions
  | S remaining' =>
      if Z.ltb (Z.of_nat (length suggestions)) count && Nat.leb i 99 then
        let variant := base ++ pad2 i in
        suggestLoop base count remaining' (S i)
          (if Nat.leb (length variant) 6 && isTokenSymbolAvailable variant
           then suggestions ++ [variant] else suggestions)
      else suggestions
  end.

(** suggestTokenSymbols; [upper] is [String.prototype.toUpperCase], whose
    mapping of characters outside ASCII is left open. *)
Definition suggestTokenSymbols (upper : jsstring -> jsstring)
  (baseName : jsstring) (count : Z) : list jsstring :=
  let base := substring0 4 (lettersOnly (upper baseName)) in
  suggestLoop base count 99 1 [].

End MemeCoinCreator.

(** ** SentimentAnalyzer.ts *)

Module Sentiment.
Record t : Type := {
  score : jsnum;
  label : jsval;
  confidence : jsnum
}.
End Sentiment.

Module Viral.
Record t : Type := {
  score : jsnum;
  factors : list jsstring
}.
End Viral.

Module TokenSuggestion.
Record t : Type := {
  name : jsval;
  symbol : jsstring;
  concept : jsval
}.
End TokenSuggestion.

Record TrendAnalysis : Type := {
  keywords : jsval;
  sentiment : Sentiment.t;
  viralPotential : Viral.t;
  tokenSuggestion : option TokenSuggestion.t   (* absent when undefined or null *)
}.

Module SentimentAnalyzer.

Record ContentCharacteristics : Type := {
  hasEmojis : bool;
  hasHashtags : bool;
  hasMemeKeywords : bool;
  hasCallToAction : bool;
  isQuestion : bool
}.

(** The five blocks that [emojiRegex] names: U+1F600-1F64F, U+1F300-1F5FF,
    U+1F680-1F6FF, U+2600-26FF and U+2700-27BF. The source writes some of
    the escapes with a doubled backslash, which leaves the literal
    ill-formed as a pattern: see [emojiRegexAsWritten] below. The
    functions of this module are embedded with the test over the five
    blocks, the one the literal is written for; what is stated about
    them does not rest on the outcome of that test. *)
Definition emojiBlocks : list (N * N) :=
  [ (128512, 128591); (127744, 128511); (128640, 128767);
    (9728, 9983); (9984, 10175) ]%N.

Definition inBlock (c : N) (block : N * N) : bool :=
  N.leb (fst block) c && N.leb c (snd block).

(** The first class of the literal read as it is written,
    [\\u{1F600}-\u{1F64F}]: a backslash, the characters u { 1 F 6 0 0, and
    the range from } to U+1F64F. *)
Definition firstClassAsWritten : list (N * N) :=
  [ (92, 92); (117, 117); (123, 123); (49, 49); (70, 70); (54, 54); (48, 48);
    (125, 128591) ]%N.

(** [emojiRegex.test(s)] *)
Definition emojiRegex_test (s : jsstring) : bool :=
  existsb (fun c => existsb (inBlock c) emojiBlocks) (codePoints s).

Definition memeKeywords : list jsstring :=
  map str
    [ "lol"; "lmao"; "based"; "chad"; "gigachad"; "sigma"; "wagmi"; "ngmi";
      "diamond hands"; "paper hands"; "moon"; "lambo"; "hodl"; "ape";
      "degen"; "gm"; "gn"; "fren"; "pepe"; "wojak"; "cope"; "seethe" ]%string.

Definition ctaKeywords : list jsstring :=
  map str [ "retweet"; "share"; "follow"; "like"; "comment"; "join" ]%string.

Definition analyzeContentCharacteristics (message : TwitterMessage)
  : ContentCharacteristics :=
  let lowered := toLowerCase (text message) in
  {| hasEmojis := emojiRegex_test (text message);
     hasHashtags := Nat.ltb 0 (length (hashtags message));
     hasMemeKeywords := existsb (fun keyword => includes lowered keyword) memeKeywords;
     hasCallToAction := existsb (fun keyword => includes lowered keyword) ctaKeywords;
     isQuestion := includes (text message) (str "?") |}.

Definition peakHours : list Z := [6; 7; 8; 9; 12; 13; 19; 20; 21; 22].

Definition isInTrendingTime : M bool :=
  let! hour := getHours in
  ret (existsb (Z.eqb hour) peakHours).

Definition totalEngagement (m : Metrics) : jsnum :=
  js_add (js_add (likes m) (retweets m)) (replies m).

(** [views ? totalEngagement / views : 0] *)
Definition engagementRate (m : Metrics) : jsnum :=
  match views m with
  | Some v => if num_truthy v then js_div (totalEngagement m) v else Num 0
  | None => Num 0
  end.

(** [if (cond) { factors.push(factor); score += weight; }] *)
Definition fire (cond : bool) (factor : string) (weight : Q)
  (acc : jsnum * list jsstring) : jsnum * list jsstring :=
  if cond then (js_add (fst acc) (Num weight), snd acc ++ [str factor]) else acc.

(** The engagement and content factors, in the order of the source. *)
Definition engagementAndContent (message : TwitterMessage) : jsnum * list jsstring :=
  let m := metrics message in
  let contentAnalysis := analyzeContentCharacteristics message in
  let acc := (Num 0, []) in
  let acc := if js_gt (likes m) (Num 100) then fire true "High like count" 0.3 acc
             else fire (js_gt (likes m) (Num 10)) "Moderate engagement" 0.1 acc in
  let acc := fire (js_gt (retweets m) (Num 20)) "Strong retweet activity" 0.2 acc in
  let acc := fire (js_gt (engagementRate m) (Num 0.05)) "High engagement rate" 0.15 acc in
  let acc := fire (hasEmojis contentAnalysis) "Contains emojis" 0.1 acc in
  let acc := fire (hasHashtags contentAnalysis) "Uses trending hashtags" 0.15 acc in
  fire (hasMemeKeywords contentAnalysis) "Contains meme language" 0.15 acc.

Definition analyzeViralPotential (message : TwitterMessage) : M Viral.t :=
  try_catch
    (let acc := engagementAndContent message in
     let! now := Date_now in
     let hoursSincePost :=
       js_div (js_sub (of_Z now) (createdAt message)) (of_Z (1000 * 60 * 60)) in
     let acc := fire (js_lt hoursSincePost (Num 2) &&
                      js_gt (totalEngagement (metrics message)) (Num 50))
                     "Rapid early engagement" 0.2 acc in
     let! trending := isInTrendingTime in
     let acc := fire trending "Posted during peak hours" 0.1 acc in
     ret {| Viral.score := Math_min (Num 1) (Math_max (Num 0) (fst acc));
            Viral.factors := snd acc |})
    (fun _ => ret {| Viral.score := Num 0.3; Viral.factors := [str "Analysis error"] |}).

Definition neutralSentiment : Sentiment.t :=
  {| Sentiment.score := Num 0.5;
     Sentiment.label := JStr (str "neutral");
     Sentiment.confidence := Num 0.1 |}.

(** The body of the [try] of analyzeSentiment. *)
Definition analyzeSentiment_try (text : jsstring) : M Sentiment.t :=
  let! result := external (SentimentCompletion text) completion in
  let! s := lift (get_prop result "score") in
  let! score := clamp01 (js_or s (JNum (Num 0.5))) in
  let! l := lift (get_prop result "label") in
  let! c := lift (get_prop result "confidence") in
  let! confidence := clamp01 (js_or c (JNum (Num 0.5))) in
  ret {| Sentiment.score := score;
         Sentiment.label := js_or l (JStr (str "neutral"));
         Sentiment.confidence := confidence |}.

Definition analyzeSentiment (text : jsstring) : M Sentiment.t :=
  try_catch (analyzeSentiment_try text) (fun _ => ret neutralSentiment).

Definition extractKeywords (text : jsstring) : M jsval :=
  try_catch
    (let! result := external (KeywordsCompletion text) completion in
     let! k := lift (get_prop result "keywords") in
     ret (js_or k (JArr [])))
    (fun _ => ret (JArr [])).

Definition generateTokenSuggestion (message : TwitterMessage)
  : M (option TokenSuggestion.t) :=
  try_catch
    (let! result := external (TokenSuggestionCompletion message) completion in
     let! n := lift (get_prop result "name") in
     let! s := lift (get_prop result "symbol") in
     let! c := lift (get_prop result "concept") in
     if truthy n && truthy s && truthy c then
       match s with
       | JStr sym =>
           ret (Some {| TokenSuggestion.name := n;
                        TokenSuggestion.symbol := toUpperCase sym;
                        TokenSuggestion.concept := c |})
       | _ => throw TypeError       (* symbol.toUpperCase is not a function *)
       end
     else ret None)
    (fun _ => ret None).

Definition neutralAnalysis : TrendAnalysis :=
  {| keywords := JArr [];
     sentiment := neutralSentiment;
     viralPotential := {| Viral.score := Num 0.3; Viral.factors := [] |};
     tokenSuggestion := None |}.

(** The gate of the token suggestion. *)
Definition suggestionGate (s : Sentiment.t) (v : Viral.t) : bool :=
  js_gt (Sentiment.score s) (Num 0.6) && js_gt (Viral.score v) (Num 0.5).

Definition analyzeTrend (message : TwitterMessage) : M TrendAnalysis :=
  try_catch
    (let! sentimentResult := analyzeSentiment (text message) in
     let! viralResult := analyzeViralPotential message in
     let! keywords := extractKeywords (text message) in
     let! tokenSuggestion :=
       (if suggestionGate sentimentResult viralResult
        then generateTokenSuggestion message
        else ret None) in
     ret {| keywords := keywords;
            sentiment := sentimentResult;
            viralPotential := viralResult;
            tokenSuggestion := tokenSuggestion |})
    (fun _ => ret neutralAnalysis).

(** The loop of batchAnalyze. The pause between two analyses lets time
    pass, which the clock of the environment is free to show. *)
Fixpoint analyzeEach (messages : list TwitterMessage) (analyses : list TrendAnalysis)
  : M (list TrendAnalysis) :=
  match messages with
  | [] => ret analyses
  | message :: rest =>
      let! analyses :=
        try_catch
          (let! analysis := analyzeTrend message in
           ret (analyses ++ [analysis]))
          (fun _ => ret analyses) in
      analyzeEach rest analyses
  end.

(** [messages.slice(0, 10)] is the first ten messages. *)
Definition batchAnalyze (messages : list TwitterMessage) : M (list TrendAnalysis) :=
  analyzeEach (take 10 messages) [].

(** The literal [emojiRegex] as line 289 writes it, class by class; a
    class is a list of ranges, a single character being the range from
    itself to itself. Under the [u] flag [\\] is a backslash and
    [\u{...}] a code point, so that [\u{1F300}-\\] is the range from
    U+1F300 to the backslash, U+005C, and the characters u { 1 F 5 F F }
    that follow are members of the class. *)
Definition single (c : N) : N * N := (c, c).

Definition emojiRegexAsWritten : list (list (N * N)) :=
  [ (* [\\u{1F600}-\u{1F64F}] *)
    firstClassAsWritten;
    (* [\u{1F300}-\\u{1F5FF}] *)
    (127744, 92) :: map single [117; 123; 49; 70; 53; 70; 70; 125];
    (* [\\u{1F680}-\\u{1F6FF}] *)
    map single [92; 117; 123; 49; 70; 54; 56; 48] ++ (125, 92) ::
      map single [117; 123; 49; 70; 54; 70; 70; 125];
    (* [\u{2600}-\u{26FF}] *)
    [(9728, 9983)];
    (* [\u{2700}-\\u{27BF}] *)
    (9984, 92) :: map single [117; 123; 50; 55; 66; 70; 125] ]%N.

(** A class range is in order when its first character is not above its
    last; a pattern with a range out of order is no pattern: the literal
    is a SyntaxError. *)
Definition inOrder (range : N * N) : bool := N.leb (fst range) (snd range).

Definition rangesInOrder (classes : list (list (N * N))) : bool :=
  forallb (forallb inOrder) classes.

Definition SyntaxError : jsstring := str "SyntaxError".

(** [emojiRegex.test(s)] with the literal as it is written. *)
Definition emojiRegexAsWritten_test (s : jsstring) : outcome bool :=
  if rangesInOrder emojiRegexAsWritten
  then Return (existsb (fun c => existsb (existsb (inBlock c)) emojiRegexAsWritten)
                       (codePoints s))
  else Throw SyntaxError.

End SentimentAnalyzer.

(** ** ElizaAgent.ts *)

Record Actions : Type := {
  createToken : jsval;
  replyToTweet : jsval;
  analyzeMore : jsval
}.

Module ElizaResponse.
Record t : Type := {
  text : jsval;
  confidence : jsnum;
  mood : jsval;                     (* context.mood *)
  topics : jsval;                   (* context.topics *)
  actions : option Actions          (* actions? *)
}.
End ElizaResponse.

Module ElizaAgent.

Record StructuredAnalysis : Type := {
  confidence : jsnum;
  mood : jsval;
  topics : jsval;
  actions : Actions
}.

Definition defaultAnalysis : StructuredAnalysis :=
  {| confidence := Num 0.5;
     mood := JStr (str "neutral");
     topics := JArr [];
     actions := {| createToken := JBool false;
                   replyToTweet := JBool true;
                   analyzeMore := JBool false |} |}.

Definition getStructuredAnalysis (text : jsstring) : M StructuredAnalysis :=
  try_catch
    (let! analysis := external (StructuredAnalysisCompletion text) completion in
     let! c := lift (get_prop analysis "confidence") in
     let! confidence := clamp01 (js_or c (JNum (Num 0.5))) in
     let! m := lift (get_prop analysis "mood") in
     let! t := lift (get_prop analysis "topics") in
     let! a := lift (get_prop analysis "actions") in
     let! create := lift (get_prop_opt a "createToken") in
     let! reply := lift (get_prop_opt a "replyToTweet") in
     let! more := lift (get_prop_opt a "analyzeMore") in
     ret {| confidence := confidence;
            mood := js_or m (JStr (str "neutral"));
            topics := js_or t (JArr []);
            actions := {| createToken := js_or create (JBool false);
                          replyToTweet := js_or reply (JBool false);
                          analyzeMore := js_or more (JBool false) |} |})
    (fun _ => ret defaultAnalysis).

Definition confusedResponse : ElizaResponse.t :=
  {| ElizaResponse.text :=
       JStr (str "Hmm, something went wrong with my analysis. Let me try again! "
             ++ [240; 376; 164; 8221]%N);
     ElizaResponse.confidence := Num 0.1;
     ElizaResponse.mood := JStr (str "confused");
     ElizaResponse.topics := JArr [];
     ElizaResponse.actions := None |}.

Definition processMessage (text : jsstring) : M ElizaResponse.t :=
  try_catch
    (let! elizaResponse := external (RuntimeProcessActions text) processActions in
     let! structuredAnalysis := getStructuredAnalysis text in
     let! content := lift (get_prop elizaResponse "content") in
     let! t := lift (get_prop_opt content "text") in
     ret {| ElizaResponse.text :=
              js_or t (JStr (str "Interesting content! Let me analyze this further."));
            ElizaResponse.confidence := confidence structuredAnalysis;
            ElizaResponse.mood := mood structuredAnalysis;
            ElizaResponse.topics := topics structuredAnalysis;
            ElizaResponse.actions := Some (actions structuredAnalysis) |})
    (fun _ => ret confusedResponse).

End ElizaAgent.

(** ** ElizaSolanaSDK.ts *)

Inductive Reasoning : Type :=
| AlreadyProcessed                            (* 'Already processed' *)
| AIConfidence (confidence sentiment : jsnum) (* `AI confidence: .., Sentiment: ..` *)
| ErrorReason (message : jsstring).           (* `Error: ..` *)

(** The token concept of an analysis: a MemeCoinData whose name and
    description are whatever the language model suggested. *)
Module TokenConcept.
Record t : Type := {
  name : jsval;
  symbol : jsstring;
  description : jsval;
  metadata : MemeCoinMetadata
}.
End TokenConcept.

Module AIAnalysis.
Record t : Type := {
  shouldReply : jsval;
  shouldCreateToken : jsval;
  replyContent : option jsval;
  tokenConcept : option TokenConcept.t;
  confidence : jsnum;
  reasoning : Reasoning
}.
End AIAnalysis.

Module ElizaSolanaSDK.

Definition alreadyProcessed : AIAnalysis.t :=
  {| AIAnalysis.shouldReply := JBool false;
     AIAnalysis.shouldCreateToken := JBool false;
     AIAnalysis.replyContent := None;
     AIAnalysis.tokenConcept := None;
     AIAnalysis.confidence := Num 0;
     AIAnalysis.reasoning := AlreadyProcessed |}.

(** [elizaResponse.actions?.field || false] *)
Definition action (r : ElizaResponse.t) (field : Actions -> jsval) : jsval :=
  match ElizaResponse.actions r with
  | Some a => js_or (field a) (JBool false)
  | None => JBool false
  end.

(** The body of the [try] of processTwitterMessage. *)
Definition processTwitterMessage_try (config : SDKConfig) (message : TwitterMessage)
  : M AIAnalysis.t :=
  let! trendAnalysis := SentimentAnalyzer.analyzeTrend message in
  let! elizaResponse := ElizaAgent.processMessage (text message) in
  let shouldCreateToken := action elizaResponse createToken in
  let tokenConcept :=
    match tokenSuggestion trendAnalysis with
    | Some suggestion =>
        if truthy shouldCreateToken then
          Some {| TokenConcept.name := TokenSuggestion.name suggestion;
                  TokenConcept.symbol := TokenSuggestion.symbol suggestion;
                  TokenConcept.description := TokenSuggestion.concept suggestion;
                  TokenConcept.metadata :=
                    {| twitterContext := message;
                       sentimentScore := Sentiment.score (sentiment trendAnalysis);
                       viralScore := Viral.score (viralPotential trendAnalysis);
                       createdBy := username config;
                       inspiration := text message |} |}
        else None
    | None => None
    end in
  let shouldReply := action elizaResponse replyToTweet in
  let! seen := get processedTweets in
  let! _ := modify (set_processed ({[ tweetId message ]} ∪ seen)) in
  (* `Tweet analysis complete: Reply=${..}, Token=${..}` *)
  let! _ := lift (interpolate [shouldReply; shouldCreateToken]) in
  ret {| AIAnalysis.shouldReply := shouldReply;
         AIAnalysis.shouldCreateToken := shouldCreateToken;
         AIAnalysis.replyContent := Some (ElizaResponse.text elizaResponse);
         AIAnalysis.tokenConcept := tokenConcept;
         AIAnalysis.confidence := ElizaResponse.confidence elizaResponse;
         AIAnalysis.reasoning :=
           AIConfidence (ElizaResponse.confidence elizaResponse)
                        (Sentiment.score (sentiment trendAnalysis)) |}.

Definition processTwitterMessage (config : SDKConfig) (message : TwitterMessage)
  : M AIAnalysis.t :=
  let! seen := get processedTweets in
  if bool_decide (tweetId message ∈ seen) then ret alreadyProcessed
  else
    try_catch
      (processTwitterMessage_try config message)
      (fun message' =>
       ret {| AIAnalysis.shouldReply := JBool false;
              AIAnalysis.shouldCreateToken := JBool false;
              AIAnalysis.replyContent := None;
              AIAnalysis.tokenConcept := None;
              AIAnalysis.confidence := Num 0;
              AIAnalysis.reasoning := ErrorReason message' |}).

End ElizaSolanaSDK.

(** ** Notions used in the statements *)

(** A JSON number, boolean or null, or an absent field. *)
Definition plain (v : jsval) : Prop :=
  match v with
  | JUndefined | JNull | JBool _ | JNum _ => True
  | _ => False
  end.

(** A concept is rejected for its name, its symbol or a banned word, found
    in the lower-cased concatenation that the validation searches or, in
    any letter case, in one of the three texts. *)
Definition rejectable (data : MemeCoinData) : Prop :=
  (length (name data) < 3)%nat \/ (32 < length (name data))%nat \/
  MemeCoinCreator.symbolFormat (symbol data) = false \/
  (exists word,
      In word MemeCoinCreator.bannedWords /\
      includes (MemeCoinCreator.bannedContent data) word = true) \/
  (exists word field,
      In word MemeCoinCreator.bannedWords /\
      In field [name data; description data; text (twitterContext (metadata data))] /\
      includes (toLowerCase field) word = true).

(** The message of the scenario: 150 likes, 45 retweets, 23 replies, 2500
    views, the hashtag WAGMI, and a text with two emojis (U+1F48E and
    U+1F64C, as surrogate pairs). *)
Definition scenarioMetrics : Metrics :=
  {| likes := Num 150; retweets := Num 45; replies := Num 23; views := Some (Num 2500) |}.

Definition scenarioText : jsstring :=
  str "Diamond hands forever! " ++ [55357; 56462; 55357; 56908]%N ++ str " #WAGMI".

(** The computation leaves the set of processed tweets as it found it. *)
Definition keeps_processed {A} (c : M A) : Prop :=
  forall w, processedTweets (snd (c w)) = processedTweets w.

(** ** Worlds, messages and configurations for the examples *)

(** An environment given by its clock, the answers of the language model
    and the answers of the platform; the agent runtime and the chain are
    down. No example converts a string or an array to a number. *)
Definition exampleEnv (times : nat -> Z) (answers : nat -> outcome jsval)
  (posted : nat -> outcome jsstring) : Env :=
  {| clock := times;
     wall_hour := fun _ => 15;
     completion := answers;
     processActions := fun _ => Throw (str "runtime unavailable");
     v2_reply := posted;
     spl_mint := fun _ => Throw (str "rpc unavailable");
     StringToNumber := fun _ => NaN;
     ArrayToNumber := fun _ => Return NaN |}.

(** The objects as their constructors leave them, built at time 0, with
    both clients initialised. *)
Definition freshWorld (e : Env) : World :=
  {| env := e; tick := 0; calls := [];
     client := true; payer := true;
     replyHistory := ∅; hourlyReplyCount := 0; lastHourReset := 0;
     processedTweets := ∅ |}.

Definition exampleConfig (perHour : Z) : SDKConfig :=
  {| maxRepliesPerHour := perHour; replyDelay := 1000; username := str "launchbot";
     minSentimentScore := Num 0.6; maxSupply := Num 1000000000;
     initialLiquidity := Num 1 |}.

Definition exampleMessage (number author : string) (body : jsstring)
  (counts : Metrics) : TwitterMessage :=
  {| tweetId := str number; text := body;
     authorId := str author; authorUsername := str author;
     createdAt := Num 0; metrics := counts;
     hashtags := [str "WAGMI"]; mentions := [];
     isReply := false; parentTweetId := None |}.

Definition exampleCoin (coinName coinSymbol : string) : MemeCoinData :=
  {| name := str coinName; symbol := str coinSymbol;
     description := str "We are all going to make it";
     imageUrl := None;
     metadata := {| twitterContext := exampleMessage "1" "alice" scenarioText scenarioMetrics;
                    sentimentScore := Num 0.9; viralScore := Num 0.8;
                    createdBy := str "launchbot"; inspiration := scenarioText |} |}.

(** The language model is down. *)
Definition modelDown : nat -> outcome jsval := fun _ => Throw (str "timeout").

(** The platform accepts the first reply and fails from the third
    interaction on. *)
Definition postedThenFailing : nat -> outcome jsstring := fun k =>
  if Nat.ltb k 3 then Return (str "9001") else Throw (str "503").

(** ** Proof support *)

Ltac run :=
  unfold bind, ret, get, modify, lift, throw, try_catch, Date_now, getHours,
    external in *; simpl in *.

(** ** helpers.ts *)

(** Arrays and strings take integer positions, an integer being a [Z]. *)

(** A relative position of [slice]: counted from the end when negative,
    and kept within the array. *)
Definition relativeIndex (len : nat) (i : Z) : nat :=
  if Z.ltb i 0 then Z.to_nat (Z.max (Z.of_nat len + i) 0)
  else Nat.min (Z.to_nat i) len.

(** [array.slice(start, stop)] and [array.slice(start)] *)
Definition slice {A} (array : list A) (start stop : Z) : list A :=
  let k := relativeIndex (length array) start in
  let final := relativeIndex (length array) stop in
  take (final - k) (drop k array).

Definition sliceFrom {A} (array : list A) (start : Z) : list A :=
  drop (relativeIndex (length array) start) array.

(** [s.substring(0, n)] for an integer [n]: a negative [n] counts as 0. *)
Definition substringTo (n : Z) (s : jsstring) : jsstring := take (Z.to_nat n) s.

Module Helpers.

Definition truncateString (s : jsstring) (maxLength : Z) : jsstring :=
  if Z.leb (Z.of_nat (length s)) maxLength then s
  else substringTo (maxLength - 3) s ++ str "...".

(** The loop of chunkArray, [for (i = 0; i < array.length; i += size)];
    [None] when the iterations allowed do not bring it to its end. *)
Fixpoint chunkLoop {A} (iterations : nat) (array : list A) (size i : Z)
  (chunks : list (list A)) : option (list (list A)) :=
  if Z.ltb i (Z.of_nat (length array)) then
    match iterations with
    | O => None
    | S iterations' =>
        chunkLoop iterations' array size (i + size) (chunks ++ [slice array i (i + size)])
    end
  else Some chunks.

Definition chunkArray {A} (iterations : nat) (array : list A) (size : Z)
  : option (list (list A)) :=
  chunkLoop iterations array size 0 [].

(** [array.filter(item => { if (seen.has(key)) return false; seen.add(key);
    return true })]; keys are compared as a Set compares them, here by a
    decidable equality. *)
Fixpoint keepFirst {T K} `{EqDecision K} (keyFn : T -> K) (seen : list K)
  (array : list T) : list T :=
  match array with
  | [] => []
  | item :: rest =>
      if bool_decide (keyFn item ∈ seen) then keepFirst keyFn seen rest
      else item :: keepFirst keyFn (keyFn item :: seen) rest
  end.

(** removeDuplicates with a key function, and without one,
    [[...new Set(array)]]. *)
Definition removeDuplicatesBy {T K} `{EqDecision K} (keyFn : T -> K) (array : list T)
  : list T :=
  keepFirst keyFn [] array.

Definition removeDuplicates {T} `{EqDecision T} (array : list T) : list T :=
  keepFirst (fun item => item) [] array.

(** [\s]: the white space and line terminator characters of ECMAScript,
    each one code unit. *)
Definition isSpace (c : N) : bool :=
  existsb (N.eqb c)
    [9; 10; 11; 12; 13; 32; 160; 5760; 8232; 8233; 8239; 8287; 12288; 65279]%N ||
  (N.leb 8192 c && N.leb c 8202).

(** [\w]: letters, digits and the underscore. *)
Definition isWord (c : N) : bool :=
  (N.leb 48 c && N.leb c 57) || (N.leb 65 c && N.leb c 90) ||
  N.eqb c 95 || (N.leb 97 c && N.leb c 122).

(** [s.trim()] *)
Fixpoint trimStart (s : jsstring) : jsstring :=
  match s with
  | [] => []
  | c :: s' => if isSpace c then trimStart s' else s
  end.

Fixpoint trimEnd (s : jsstring) : jsstring :=
  match s with
  | [] => []
  | c :: s' =>
      match trimEnd s' with
      | [] => if isSpace c then [] else [c]
      | kept => c :: kept
      end
  end.

Definition trim (s : jsstring) : jsstring := trimEnd (trimStart s).

(** [s.replace(/\s+/g, ' ')]: every run of white space becomes one space;
    [inRun] tells that the previous character was white space. *)
Fixpoint collapseRuns (inRun : bool) (s : jsstring) : jsstring :=
  match s with
  | [] => []
  | c :: s' =>
      if isSpace c then
        if inRun then collapseRuns true s' else 32%N :: collapseRuns true s'
      else c :: collapseRuns false s'
  end.

Definition collapseSpaces (s : jsstring) : jsstring := collapseRuns false s.

(** The characters that [/[^\w\s-]/g] leaves. *)
Definition nameCharacter (c : N) : bool := isWord c || isSpace c || N.eqb c 45.

Definition formatTokenName (name : jsstring) : jsstring :=
  substring0 32 (collapseSpaces (List.filter nameCharacter (trim name))).

(** [s.replace(regex, text)] for a global regex that matches no empty
    string; the regex is given by the length of its match at the start of
    a string, if it matches there. [steps] bounds the positions visited. *)
Fixpoint replaceLoop (matchLength : jsstring -> option nat) (text : jsstring)
  (steps : nat) (s : jsstring) : jsstring :=
  match steps, s with
  | S steps', c :: s' =>
      match matchLength s with
      | Some n => text ++ replaceLoop matchLength text steps' (drop n s)
      | None => c :: replaceLoop matchLength text steps' s'
      end
  | _, _ => s
  end.

Definition replaceGlobal (matchLength : jsstring -> option nat) (text s : jsstring)
  : jsstring :=
  replaceLoop matchLength text (length s) s.

(** [new RegExp(word, 'gi')] for a word of letters: a letter of the
    pattern matches the characters with the same upper case; without the
    [u] flag no character outside ASCII matches an ASCII letter. *)
Fixpoint matchesIgnoreCase (word s : jsstring) : bool :=
  match word, s with
  | [], _ => true
  | _ :: _, [] => false
  | p :: word', c :: s' =>
      N.eqb (upper_unit p) (upper_unit c) && matchesIgnoreCase word' s'
  end.

Definition wordIgnoreCase (word s : jsstring) : option nat :=
  if matchesIgnoreCase word s then Some (length word) else None.

(** The length of the run of characters satisfying [p] at the start. *)
Fixpoint runLength (p : N -> bool) (s : jsstring) : nat :=
  match s with
  | [] => O
  | c :: s' => if p c then S (runLength p s') else O
  end.

(** [/\w{50,}/g]: a run of at least 50 word characters, taken whole. *)
Definition longWord (s : jsstring) : option nat :=
  let run := runLength isWord s in
  if Nat.leb 50 run then Some run else None.

Definition bannedWords : list jsstring :=
  [str "scam"; str "rug"; str "hack"; str "steal"; str "fraud"].

Definition sanitizeContent (content : jsstring) : jsstring :=
  let sanitized :=
    fold_left (fun sanitized word =>
                 replaceGlobal (wordIgnoreCase word) (str "[REMOVED]") sanitized)
              bannedWords content in
  let sanitized := trim (collapseSpaces sanitized) in
  let sanitized := replaceGlobal longWord (str "[LONG_WORD]") sanitized in
  substring0 500 sanitized.


(** [a * b] *)
Definition js_mul (a b : jsnum) : jsnum :=
  match a, b with
  | NaN, _ | _, NaN => NaN
  | Num p, Num q => Num (p * q)%Q
  | Num p, PosInf | PosInf, Num p => Qsign_inf p
  | Num p, NegInf | NegInf, Num p => js_neg (Qsign_inf p)
  | PosInf, PosInf | NegInf, NegInf => PosInf
  | PosInf, NegInf | NegInf, PosInf => NegInf
  end.

(** [Math.round(x)]: the nearest integer, a half going up. *)
Definition Math_round (x : jsnum) : jsnum :=
  match x with
  | Num q => of_Z (Qfloor (q + (1 # 2))%Q)
  | _ => x
  end.

(** [total === 0] *)
Definition isZero (x : jsnum) : bool :=
  match x with
  | Num q => Qeq_bool q 0
  | _ => false
  end.

(** The arithmetic of the source is that of doubles: the result of [/]
    and of [*] is the exact result rounded to a double. [rnd] is that
    rounding of a rational; an overflow to an infinity is not
    represented. *)
Definition rounded (rnd : Q -> Q) (x : jsnum) : jsnum :=
  match x with
  | Num q => Num (rnd q)
  | _ => x
  end.

(** [Math.round((value / total) * 100 * 100) / 100] *)
Definition calculatePercentage (rnd : Q -> Q) (value total : jsnum) : jsnum :=
  if isZero total then Num 0
  else
    let ratio := rounded rnd (js_div value total) in
    let percent := rounded rnd (js_mul ratio (Num 100)) in
    let scaled := rounded rnd (js_mul percent (Num 100)) in
    rounded rnd (js_div (Math_round scaled) (Num 100)).

(** The double nearest to a rational, ties going to the even significand,
    for a rational in the range of the normal doubles: a significand of
    53 bits, scaled by the power of two that [e] is the exponent of. *)
Definition binary64 (q : Q) : Q :=
  if Qeq_bool q 0 then 0%Q
  else
    let a := Qabs q in
    let guess := Z.log2 (Qnum a) - Z.log2 (Zpos (Qden a)) in
    let e := if Qle_bool (2 ^ guess) a then guess else guess - 1 in
    let ulp := (2 ^ (e - 52))%Q in
    let scaled := (a / ulp)%Q in
    let below := Qfloor scaled in
    let nearest :=
      match (scaled - inject_Z below ?= 1 # 2)%Q with
      | Lt => below
      | Gt => below + 1
      | Eq => if Z.even below then below else below + 1
      end in
    ((if Qle_bool 0 q then 1 else - (1)) * inject_Z nearest * ulp)%Q.

(** The characters that [/[^A-Z\s]/g] leaves. *)
Definition symbolCharacter (c : N) : bool := (N.leb 65 c && N.leb c 90) || isSpace c.

(** [s.split(/\s+/)]: the pieces between the runs of white space, the
    empty ones at the two ends included. *)
Fixpoint splitRuns (inRun : bool) (current s : jsstring) : list jsstring :=
  match s with
  | [] => [current]
  | c :: s' =>
      if isSpace c then
        if inRun then splitRuns true current s'
        else current :: splitRuns true [] s'
      else splitRuns false (current ++ [c]) s'
  end.

Definition splitSpaces (s : jsstring) : list jsstring := splitRuns false [] s.

(** [n.toString()] for a natural number [n]. *)
Fixpoint decimalLoop (digits n : nat) (written : jsstring) : jsstring :=
  match digits with
  | O => written
  | S digits' =>
      let written := (48 + N.of_nat (n mod 10))%N :: written in
      if Nat.eqb (n / 10) 0 then written else decimalLoop digits' (n / 10) written
  end.

Definition decimal (n : nat) : jsstring := decimalLoop (S n) n [].

(** The words of generateTokenSymbol; [upper] is
    [String.prototype.toUpperCase]. *)
Definition symbolWords (upper : jsstring -> jsstring) (text : jsstring) : list jsstring :=
  List.filter (fun word => Nat.ltb 0 (length word))
    (splitSpaces (List.filter symbolCharacter (upper text))).

(** generateTokenSymbol; [random] is the value of [Math.random()], which
    is not negative. *)
Definition generateTokenSymbol (upper : jsstring -> jsstring) (random : Q)
  (text : jsstring) : jsstring :=
  let words := symbolWords upper text in
  match words with
  | [] => str "MEME" ++ decimal (Z.to_nat (Qfloor (random * 100)%Q))
  | first :: _ =>
      let symbol := concat (map (take 1) words) in
      let symbol := if Nat.ltb 6 (length symbol) then substring0 6 first else symbol in
      if Nat.ltb (length symbol) 3 then
        let firstWord := match first with [] => str "MEME" | _ => first end in
        substring0 (Nat.min 6 (Nat.max 3 (length firstWord))) firstWord
      else symbol
  end.

(** retry. [fn] answers the call number k (from 0) with a value or with
    the error it throws. The outcome is the value returned or the value
    thrown, [None] being [undefined]; [attempts] counts the calls of
    [fn], [delays] lists the pauses taken, in milliseconds. *)
Module Retried.
Record t (A E : Type) : Type := {
  outcome : A + option E;
  attempts : nat;
  delays : list Z
}.
Arguments outcome {A E} _.
Arguments attempts {A E} _.
Arguments delays {A E} _.
End Retried.

(** The loop [for (attempt = 1; attempt <= maxAttempts; attempt++)];
    [None] when the iterations allowed do not bring it to its end. *)
Fixpoint retryLoop {A E} (fn : nat -> A + E) (maxAttempts baseDelay : Z)
  (iterations : nat) (attempt : Z) (lastError : option E) (made : nat)
  (slept : list Z) : option (Retried.t A E) :=
  if Z.leb attempt maxAttempts then
    match iterations with
    | O => None
    | S iterations' =>
        match fn made with
        | inl value =>
            Some {| Retried.outcome := inl value; Retried.attempts := S made;
                    Retried.delays := slept |}
        | inr error =>
            if Z.eqb attempt maxAttempts then
              Some {| Retried.outcome := inr (Some error); Retried.attempts := S made;
                      Retried.delays := slept |}
            else
              let delay := baseDelay * 2 ^ (attempt - 1) in
              retryLoop fn maxAttempts baseDelay iterations' (attempt + 1) (Some error)
                (S made) (slept ++ [delay])
        end
    end
  else Some {| Retried.outcome := inr lastError; Retried.attempts := made;
               Retried.delays := slept |}.

Definition retry {A E} (iterations : nat) (fn : nat -> A + E)
  (maxAttempts baseDelay : Z) : option (Retried.t A E) :=
  retryLoop fn maxAttempts baseDelay iterations 1 None O [].

(** The fields of SDKConfig that validateConfig reads. *)
Module Config.
Record t : Type := {
  modelProvider : jsstring;         (* eliza.modelProvider *)
  temperature : jsnum;              (* eliza.temperature *)
  programId : jsstring;             (* solana.programId *)
  cluster : jsstring;               (* solana.cluster *)
  username : jsstring;              (* twitter.username *)
  password : jsstring;              (* twitter.password *)
  maxRepliesPerHour : jsnum;        (* twitter.maxRepliesPerHour *)
  minSentimentScore : jsnum;        (* memeCoin.minSentimentScore *)
  maxSupply : jsnum                 (* memeCoin.maxSupply *)
}.
End Config.

(** [!s] for a string. *)
Definition isEmpty (s : jsstring) : bool :=
  match s with
  | [] => true
  | _ => false
  end.

(** [x < low || x > high] *)
Definition outside (x : jsnum) (low high : Z) : bool :=
  js_lt x (of_Z low) || js_gt x (of_Z high).

Definition clusters : list jsstring := [str "devnet"; str "mainnet-beta"; str "testnet"].

Definition validateConfig (config : Config.t) : outcome unit :=
  if isEmpty (Config.modelProvider config) then
    Throw (str "Eliza model provider is required")
  else if outside (Config.temperature config) 0 1 then
    Throw (str "Eliza temperature must be between 0 and 1")
  else if isEmpty (Config.programId config) then
    Throw (str "Solana program ID is required")
  else if negb (existsb (fun name => bool_decide (name = Config.cluster config)) clusters) then
    Throw (str "Invalid Solana cluster")
  else if isEmpty (Config.username config) || isEmpty (Config.password config) then
    Throw (str "Twitter credentials are required")
  else if outside (Config.maxRepliesPerHour config) 1 100 then
    Throw (str "Max replies per hour must be between 1 and 100")
  else if outside (Config.minSentimentScore config) 0 1 then
    Throw (str "Min sentiment score must be between 0 and 1")
  else if outside (Config.maxSupply config) 1000000 1000000000000 then
    Throw (str "Max supply must be between 1M and 1T")
  else Return tt.

End Helpers.

(** ** logger.ts *)

Module Logger.

Inductive LogLevel : Type := DEBUG | INFO | WARN | ERROR.

(** The number of a level, [DEBUG = 0] to [ERROR = 3]. *)
Definition rank (level : LogLevel) : Z :=
  match level with
  | DEBUG => 0
  | INFO => 1
  | WARN => 2
  | ERROR => 3
  end.

Definition sameLevel (a b : LogLevel) : bool := Z.eqb (rank a) (rank b).

(** An entry; its level stands for the name [LogLevel[level]]. *)
Record LogEntry : Type := {
  timestamp : jsstring;
  level : LogLevel;
  message : jsstring;
  data : jsval
}.

(** The fields of the logger. *)
Record t : Type := {
  logLevel : LogLevel;
  logs : list LogEntry
}.

Definition maxLogs : Z := 1000.

(** [log(level, message, data)]; [now] is [new Date().toISOString()].
    What is written to the console is not kept. *)
Definition log (now : jsstring) (level : LogLevel) (message : jsstring) (data : jsval)
  (logger : t) : t :=
  if Z.ltb (rank level) (rank (logLevel logger)) then logger
  else
    let entry := {| timestamp := now; level := level; message := message; data := data |} in
    let logs := logs logger ++ [entry] in
    let logs := if Z.ltb maxLogs (Z.of_nat (length logs))
                then sliceFrom logs (- maxLogs) else logs in
    {| logLevel := logLevel logger; logs := logs |}.

Definition getRecentLogs (count : Z) (logger : t) : list LogEntry :=
  sliceFrom (logs logger) (- count).

Definition getLogsByLevel (level : LogLevel) (count : Z) (logger : t) : list LogEntry :=
  sliceFrom (List.filter (fun log => sameLevel (Logger.level log) level) (logs logger))
            (- count).

Definition clearLogs (logger : t) : t :=
  {| logLevel := logLevel logger; logs := [] |}.

Definition setLogLevel (level : LogLevel) (logger : t) : t :=
  {| logLevel := level; logs := logs logger |}.

Module Stats.
Record t : Type := {
  totalLogs : nat;
  debugCount : nat;
  infoCount : nat;
  warnCount : nat;
  errorCount : nat
}.
End Stats.

(** The body of the [forEach] of getStats. *)
Definition count (counts : Stats.t) (log : LogEntry) : Stats.t :=
  match level log with
  | DEBUG => {| Stats.totalLogs := Stats.totalLogs counts;
                Stats.debugCount := S (Stats.debugCount counts);
                Stats.infoCount := Stats.infoCount counts;
                Stats.warnCount := Stats.warnCount counts;
                Stats.errorCount := Stats.errorCount counts |}
  | INFO => {| Stats.totalLogs := Stats.totalLogs counts;
               Stats.debugCount := Stats.debugCount counts;
               Stats.infoCount := S (Stats.infoCount counts);
               Stats.warnCount := Stats.warnCount counts;
               Stats.errorCount := Stats.errorCount counts |}
  | WARN => {| Stats.totalLogs := Stats.totalLogs counts;
               Stats.debugCount := Stats.debugCount counts;
               Stats.infoCount := Stats.infoCount counts;
               Stats.warnCount := S (Stats.warnCount counts);
               Stats.errorCount := Stats.errorCount counts |}
  | ERROR => {| Stats.totalLogs := Stats.totalLogs counts;
                Stats.debugCount := Stats.debugCount counts;
                Stats.infoCount := Stats.infoCount counts;
                Stats.warnCount := Stats.warnCount counts;
                Stats.errorCount := S (Stats.errorCount counts) |}
  end.

Definition getStats (logger : t) : Stats.t :=
  fold_left count (logs logger)
    {| Stats.totalLogs := length (logs logger);
       Stats.debugCount := 0; Stats.infoCount := 0;
       Stats.warnCount := 0; Stats.errorCount := 0 |}.

End Logger.

(** ** Notions used in the further statements *)

(** A word written in the letters a to z. *)
Definition lowerLetters (w : jsstring) : Prop := Forall (fun c => (97 <= c <= 122)%N) w.

(** The word does not occur in the text, in any letter case. *)
Definition absent (w text : jsstring) : Prop := includes (toLowerCase text) w = false.

(** The computation leaves the environment as it found it. *)
Definition keeps_env {A} (c : M A) : Prop :=
  forall w, env (snd (c w)) = env w.

(** An environment whose agent runtime answers, the language model and
    the platform being down. *)
Definition runtimeOnly (answer : jsval) : Env :=
  {| clock := fun _ => 0;
     wall_hour := fun _ => 15;
     completion := modelDown;
     processActions := fun _ => Return answer;
     v2_reply := fun _ => Throw (str "503");
     spl_mint := fun _ => Throw (str "rpc unavailable");
     StringToNumber := fun _ => NaN;
     ArrayToNumber := fun _ => Return NaN |}.

(** The number is NaN or lies between the two integers, both included. *)
Definition nan_or_between (low high : Z) (x : jsnum) : Prop :=
  x = NaN \/ exists q, x = Num q /\ (inject_Z low <= q /\ q <= inject_Z high)%Q.

(** A text of ASCII characters. On such a text [toLowerCase] and
    [toUpperCase] are the mappings of the letters A-Z and a-z and nothing
    else, as this embedding has them for every text. *)
Definition ascii (s : jsstring) : Prop := forallb (fun c => N.ltb c 128) s = true.

(** ** Worlds and answers for the further examples *)

(** Alice was replied to at time 1000; the clock shows 2000. *)
Definition repliedWorld : World :=
  set_tracking (<[str "alice" := 1000]> ∅) 1
    (freshWorld (exampleEnv (fun _ => 2000) modelDown postedThenFailing)).

(** The objects as their constructors leave them, before
    TwitterBot.initialize has set the client. *)
Definition uninitialisedWorld (e : Env) : World :=
  {| env := e; tick := 0; calls := [];
     client := false; payer := true;
     replyHistory := ∅; hourlyReplyCount := 0; lastHourReset := 0;
     processedTweets := ∅ |}.

(** The answer {"content": {"text": "gm fren"}} of the agent runtime. *)
Definition runtimeAnswer : jsval :=
  JObj [(str "content", JObj [(str "text", JStr (str "gm fren"))])].



(** A configuration whose numbers are all NaN. *)
Definition nanConfig : Helpers.Config.t :=
  {| Helpers.Config.modelProvider := str "openai";
     Helpers.Config.temperature := NaN;
     Helpers.Config.programId := str "11111111111111111111111111111111";
     Helpers.Config.cluster := str "devnet";
     Helpers.Config.username := str "launchbot";
     Helpers.Config.password := str "secret";
     Helpers.Config.maxRepliesPerHour := NaN;
     Helpers.Config.minSentimentScore := NaN;
     Helpers.Config.maxSupply := NaN |}.

(** A function that fails twice and then returns the number of the call. *)
Definition thirdTimeLucky : nat -> nat + jsstring := fun k =>
  if Nat.ltb k 2 then inr (str "503") else inl k.

(** A concept whose texts are ASCII. *)
Definition plainCoin : MemeCoinData :=
  {| name := str "Wagmi Coin"; symbol := str "WAGMI";
     description := str "We are all going to make it";
     imageUrl := None;
     metadata := {| twitterContext :=
                      exampleMessage "1" "alice" (str "Diamond hands forever! #WAGMI")
                                     scenarioMetrics;
                    sentimentScore := Num 0.9; viralScore := Num 0.8;
                    createdBy := str "launchbot";
                    inspiration := str "Diamond hands forever! #WAGMI" |} |}.

(** * Properties *)

(** ** MessageReplyHandler: formatting *)

(** C7. formatReply prefixes "@authorUsername " when the content does not
    already include the mention. A reply that then has more than 280 code
    units becomes its first 277 code units followed by the three units
    "...", 280 in all; a reply of at most 280 units goes out as it is. *)
Theorem formatReply_mention_and_truncation (message : TwitterMessage) (content : jsstring) :
  let mention := str "@" ++ authorUsername message in
  let reply := if includes content mention then content
               else mention ++ str " " ++ content in
  (includes content mention = false ->
   (length (mention ++ str " " ++ content) <= 280)%nat ->
     MessageReplyHandler.formatReply message content = mention ++ str " " ++ content) /\
  (includes content mention = true ->
   (length content <= 280)%nat ->
     MessageReplyHandler.formatReply message content = content) /\
  ((280 < length reply)%nat ->
     MessageReplyHandler.formatReply message content = take 277 reply ++ str "..." /\
     length (take 277 reply) = 277%nat /\
     length (MessageReplyHandler.formatReply message content) = 280%nat).
Proof.
  intros mention reply.
  assert (Hf : MessageReplyHandler.formatReply message content =
               if Nat.ltb 280 (length reply)
               then substring0 277 reply ++ str "..." else reply).
  { unfold MessageReplyHandler.formatReply, reply, mention.
    destruct (includes content (str "@" ++ authorUsername message)); reflexivity. }
  split; [| split].
  - intros Hno Hlen. rewrite Hf. unfold reply. rewrite Hno.
    destruct (Nat.ltb_spec 280 (length (mention ++ str " " ++ content))); [lia | reflexivity].
  - intros Hyes Hlen. rewrite Hf. unfold reply. rewrite Hyes.
    destruct (Nat.ltb_spec 280 (length content)); [lia | reflexivity].
  - intros Hlong. rewrite Hf. pose proof Hlong as Hb. apply Nat.ltb_lt in Hb. rewrite Hb.
    split; [reflexivity |]. split; [apply length_take_le; lia |].
    unfold substring0. rewrite length_app, length_take_le by lia. reflexivity.
Qed.

(** ** MessageReplyHandler: rate limiting *)

Lemma resetHourlyCounter_run (w : World) :
  MessageReplyHandler.resetHourlyCounter w =
  (Return tt, set_window 0 (clock (env w) (tick w)) (step w)).
Proof. reflexivity. Qed.

Lemma updateReplyTracking_run (userId : jsstring) (w : World) :
  MessageReplyHandler.updateReplyTracking userId w =
  (Return tt,
   set_tracking (<[userId := clock (env w) (tick w)]> (replyHistory w))
                (hourlyReplyCount w + 1) (step w)).
Proof. reflexivity. Qed.

(** Within the window canReply only reads the clock. *)
Lemma canReply_within (config : SDKConfig) (w : World) :
  clock (env w) (tick w) - lastHourReset w <= HOUR ->
  MessageReplyHandler.canReply config w =
  (Return (Z.ltb (hourlyReplyCount w) (maxRepliesPerHour config)), step w).
Proof.
  intros H. unfold MessageReplyHandler.canReply. run.
  destruct (Z.ltb_spec HOUR (clock (env w) (tick w) - lastHourReset w)); [lia | reflexivity].
Qed.

(** Past the window canReply resets the counter and restarts the window. *)
Lemma canReply_elapsed (config : SDKConfig) (w : World) :
  HOUR < clock (env w) (tick w) - lastHourReset w ->
  MessageReplyHandler.canReply config w =
  (Return (Z.ltb 0 (maxRepliesPerHour config)),
   set_window 0 (clock (env w) (S (tick w))) (step (step w))).
Proof.
  intros H. unfold MessageReplyHandler.canReply. run.
  destruct (Z.ltb_spec HOUR (clock (env w) (tick w) - lastHourReset w)); [reflexivity | lia].
Qed.

(** [recordReplies authors]: one updateReplyTracking per author, in order. *)
Lemma recordReplies_count (authors : list jsstring) (w : World) :
  exists w',
    MessageReplyHandler.recordReplies authors w = (Return tt, w') /\
    hourlyReplyCount w' = hourlyReplyCount w + Z.of_nat (length authors) /\
    lastHourReset w' = lastHourReset w /\
    env w' = env w.
Proof.
  revert w. induction authors as [| a rest IH]; intros w.
  - exists w. simpl. repeat split; try reflexivity. lia.
  - simpl. unfold bind. rewrite updateReplyTracking_run.
    destruct (IH (set_tracking (<[a := clock (env w) (tick w)]> (replyHistory w))
                               (hourlyReplyCount w + 1) (step w)))
      as (w' & Hrun & Hcount & Hreset & Henv).
    exists w'. rewrite Hrun. repeat split; try assumption.
    rewrite Hcount. simpl hourlyReplyCount. lia.
Qed.

(** C3. canReply answers whether the hourly count, after the
    lazy reset, is below maxRepliesPerHour = N. After N recorded replies
    since the window start, an attempt made no more than one hour after
    the window start is refused. Once more than one hour has passed since
    the window start, the next call resets the counter, restarts the
    window and, N being at least 1, answers true. *)
Theorem canReply_fixed_window (config : SDKConfig) (w : World) :
  let N := maxRepliesPerHour config in
  1 <= N ->
  (exists b w', MessageReplyHandler.canReply config w = (Return b, w') /\
                (b = true <-> hourlyReplyCount w' < N)) /\
  (forall authors w1,
     hourlyReplyCount w = 0 ->
     Z.of_nat (length authors) = N ->
     MessageReplyHandler.recordReplies authors w = (Return tt, w1) ->
     clock (env w1) (tick w1) - lastHourReset w <= HOUR ->
     MessageReplyHandler.canReply config w1 = (Return false, step w1)) /\
  (HOUR < clock (env w) (tick w) - lastHourReset w ->
     exists w', MessageReplyHandler.canReply config w = (Return true, w') /\
                hourlyReplyCount w' = 0 /\
                lastHourReset w' = clock (env w) (S (tick w))).
Proof.
  intros N HN. repeat split.
  - destruct (Z.le_gt_cases (clock (env w) (tick w) - lastHourReset w) HOUR) as [Hin | Hout].
    + eexists _, _. split; [apply canReply_within; assumption |].
      simpl. fold N. apply Z.ltb_lt.
    + eexists _, _. split; [apply canReply_elapsed; lia |].
      simpl. fold N. apply Z.ltb_lt.
  - intros authors w1 H0 Hlen Hrun Hin.
    destruct (recordReplies_count authors w) as (w' & Hrun' & Hcount & Hreset & _).
    rewrite Hrun in Hrun'. injection Hrun' as <-.
    rewrite canReply_within by (rewrite Hreset; assumption).
    f_equal. f_equal. apply Z.ltb_ge. fold N. lia.
  - intros Hout. eexists. split.
    + rewrite canReply_elapsed by assumption.
      f_equal. f_equal. apply Z.ltb_lt. fold N. lia.
    + split; reflexivity.
Qed.

(** ** MessageReplyHandler: recording a reply *)


Lemma canReply_run (config : SDKConfig) (w : World) :
  exists w',
    MessageReplyHandler.canReply config w =
      (Return (Z.ltb (countAfterCheck w) (maxRepliesPerHour config)), w') /\
    replyHistory w' = replyHistory w /\
    hourlyReplyCount w' = countAfterCheck w.
Proof.
  unfold countAfterCheck.
  destruct (Z.ltb_spec HOUR (clock (env w) (tick w) - lastHourReset w)).
  - rewrite canReply_elapsed by assumption. eexists. repeat split.
  - rewrite canReply_within by assumption. eexists. repeat split.
Qed.

Lemma hasRecentReply_run (userId : jsstring) (w : World) :
  exists b w',
    MessageReplyHandler.hasRecentReply userId w = (Return b, w') /\ tracking_kept w w'.
Proof.
  unfold MessageReplyHandler.hasRecentReply, tracking_kept. run.
  destruct (replyHistory w !! userId) as [lastReply |]; simpl.
  - destruct (Z.eqb lastReply 0); simpl; eexists _, _; repeat split.
  - eexists _, _; repeat split.
Qed.

Lemma bot_replyToTweet_run (message : TwitterMessage) (replyContent : jsstring) (w : World) :
  exists o w',
    TwitterBot.replyToTweet message replyContent w = (o, w') /\ tracking_kept w w'.
Proof.
  unfold TwitterBot.replyToTweet, tracking_kept. run.
  destruct (client w); simpl.
  - destruct (v2_reply (env w) (tick w)); simpl; eexists _, _; repeat split.
  - eexists _, _; repeat split.
Qed.

(** C4. replyToTweet never throws. It records a reply (sets
    replyHistory[authorId] and increments hourlyReplyCount) only when the
    dispatch reports success. On a rate-limited, recently-replied, thrown
    or failed dispatch replyHistory is unchanged and hourlyReplyCount is
    what canReply left: unchanged within the window, 0 after the lazy
    reset; it is never incremented, so a failed dispatch consumes no
    budget. *)
Theorem replyToTweet_records_on_success_only
  (config : SDKConfig) (message : TwitterMessage) (replyContent : jsstring) (w : World) :
  exists r w',
    MessageReplyHandler.replyToTweet config message replyContent w = (Return r, w') /\
    (success r = false ->
       replyHistory w' = replyHistory w /\
       hourlyReplyCount w' = countAfterCheck w /\
       (0 <= hourlyReplyCount w -> hourlyReplyCount w' <= hourlyReplyCount w)) /\
    (success r = true ->
       (exists now, replyHistory w' = <[authorId message := now]> (replyHistory w)) /\
       hourlyReplyCount w' = countAfterCheck w + 1).
Proof.
  assert (Hle : 0 <= hourlyReplyCount w -> countAfterCheck w <= hourlyReplyCount w).
  { unfold countAfterCheck. destruct (Z.ltb _ _); lia. }
  unfold MessageReplyHandler.replyToTweet, try_catch, bind.
  destruct (canReply_run config w) as (w1 & -> & Hh1 & Hc1).
  destruct (Z.ltb (countAfterCheck w) (maxRepliesPerHour config)); simpl.
  2: { eexists _, _. split; [reflexivity |]. simpl. split; [| discriminate].
       intros _. rewrite Hh1, Hc1. auto. }
  destruct (hasRecentReply_run (authorId message) w1) as (recent & w2 & -> & Hh2 & Hc2).
  destruct recent.
  { eexists _, _. split; [reflexivity |]. simpl. split; [| discriminate].
    intros _. rewrite Hh2, Hc2, Hh1, Hc1. auto. }
  destruct (bot_replyToTweet_run message
              (MessageReplyHandler.formatReply message replyContent) w2)
    as (o & w3 & -> & Hh3 & Hc3).
  destruct o as [result | e].
  2: { eexists _, _. split; [reflexivity |]. simpl. split; [| discriminate].
       intros _. rewrite Hh3, Hc3, Hh2, Hc2, Hh1, Hc1. auto. }
  destruct (success result) eqn:Hs.
  - rewrite updateReplyTracking_run. unfold ret.
    eexists _, _. split; [reflexivity |]. rewrite Hs. split; [discriminate |].
    intros _. simpl. rewrite Hh3, Hc3, Hh2, Hc2, Hh1, Hc1. split; [eexists|]; reflexivity.
  - unfold ret. eexists _, _. split; [reflexivity |]. rewrite Hs. split; [| discriminate].
    intros _. rewrite Hh3, Hc3, Hh2, Hc2, Hh1, Hc1. auto.
Qed.

(** ** MemeCoinCreator: validation before minting *)

Lemma startsWith_app (s rest sub : jsstring) :
  startsWith s sub = true -> startsWith (s ++ rest) sub = true.
Proof.
  revert s. induction sub as [| c sub IH]; intros s.
  { intros _. destruct (s ++ rest); reflexivity. }
  destruct s as [| d s]; simpl; [discriminate |].
  intros H. apply andb_true_iff in H as [-> H]. simpl. auto.
Qed.

Lemma includes_app_l (s rest sub : jsstring) :
  includes s sub = true -> includes (s ++ rest) sub = true.
Proof.
  induction s as [| d s IH]; simpl.
  - rewrite orb_false_r. destruct sub; [| discriminate].
    intros _. destruct rest; reflexivity.
  - intros H. apply orb_true_iff in H as [H | H].
    + apply (startsWith_app (d :: s) rest) in H. simpl in H. rewrite H. reflexivity.
    + rewrite (IH H). apply orb_true_r.
Qed.

Lemma includes_app_r (before s sub : jsstring) :
  includes s sub = true -> includes (before ++ s) sub = true.
Proof.
  intros H. induction before as [| d before IH]; simpl; [assumption |].
  rewrite IH. apply orb_true_r.
Qed.

Lemma firstBanned_found (content : jsstring) (words : list jsstring) (word : jsstring) :
  In word words -> includes content word = true ->
  exists found, MemeCoinCreator.firstBanned content words = Some found.
Proof.
  induction words as [| w words IH]; simpl; [easy |].
  intros [-> | Hin] Hinc.
  - rewrite Hinc. eauto.
  - destruct (includes content w); eauto.
Qed.

(** A banned word found in one of the three texts, whatever its case, is
    found in the text that validateMemeCoinData searches. *)
Lemma banned_in_field (data : MemeCoinData) (field word : jsstring) :
  In field [name data; description data; text (twitterContext (metadata data))] ->
  includes (toLowerCase field) word = true ->
  includes (MemeCoinCreator.bannedContent data) word = true.
Proof.
  unfold MemeCoinCreator.bannedContent, toLowerCase.
  rewrite !map_app. simpl.
  intros [<- | [<- | [<- | []]]] H.
  - now apply includes_app_l.
  - apply includes_app_r, (includes_app_r (map lower_unit (str " "))).
    now apply includes_app_l.
  - apply includes_app_r, (includes_app_r (map lower_unit (str " "))).
    apply includes_app_r, (includes_app_r (map lower_unit (str " "))). assumption.
Qed.

Lemma symbolFormat_spec (symbol : jsstring) :
  MemeCoinCreator.symbolFormat symbol = true <->
  (3 <= length symbol <= 6)%nat /\ Forall (fun c => (65 <= c <= 90)%N) symbol.
Proof.
  unfold MemeCoinCreator.symbolFormat.
  rewrite !andb_true_iff, forallb_forall, Forall_forall, !Nat.leb_le.
  split.
  - intros [[H3 H6] Hall]. split; [lia |]. intros c Hc.
    apply list_elem_of_In, Hall in Hc.
    apply andb_true_iff in Hc as [Ha Hz]. apply N.leb_le in Ha, Hz. lia.
  - intros [[H3 H6] Hall]. repeat split; try assumption. intros c Hc.
    apply list_elem_of_In, Hall in Hc.
    apply andb_true_iff. split; apply N.leb_le; lia.
Qed.

Lemma createToken_invalid (config : SDKConfig) (data : MemeCoinData) (w : World) :
  MemeCoinCreator.isValid (MemeCoinCreator.validateMemeCoinData config data) = false ->
  MemeCoinCreator.createToken config data w =
  (Return (TokenCreationResult.failure
             (MemeCoinCreator.validationError
                (MemeCoinCreator.validateMemeCoinData config data))), w).
Proof.
  intros H. unfold MemeCoinCreator.createToken, try_catch. rewrite H. reflexivity.
Qed.

Lemma validation_error_present (config : SDKConfig) (data : MemeCoinData) :
  js_lt (sentimentScore (metadata data)) (minSentimentScore config) = false ->
  MemeCoinCreator.isValid (MemeCoinCreator.validateMemeCoinData config data) = false ->
  exists s, MemeCoinCreator.validationError
              (MemeCoinCreator.validateMemeCoinData config data) = Some (Msg s).
Proof.
  unfold MemeCoinCreator.validateMemeCoinData. intros ->.
  repeat (match goal with
          | |- context [if ?c then _ else _] => destruct c
          | |- context [match ?c with Some _ => _ | None => _ end] => destruct c
          end; simpl; eauto).
  discriminate.
Qed.

Lemma rejectable_invalid (config : SDKConfig) (data : MemeCoinData) :
  rejectable data ->
  MemeCoinCreator.isValid (MemeCoinCreator.validateMemeCoinData config data) = false.
Proof.
  intros Hrej. unfold MemeCoinCreator.validateMemeCoinData.
  destruct (js_lt _ _); [reflexivity |].
  destruct (Nat.ltb_spec (length (name data)) 3); [reflexivity |].
  destruct (Nat.ltb_spec 32 (length (name data))); [reflexivity |]. cbv [orb].
  destruct (MemeCoinCreator.symbolFormat (symbol data)) eqn:Hsym; [| reflexivity].
  cbv [negb].
  destruct Hrej as [H1 | [H1 | [H1 | [(word & Hw & Hinc) | (word & field & Hw & Hf & Hinc)]]]];
    [lia | lia | congruence | | apply (banned_in_field data) in Hinc; [| assumption]].
  - destruct (firstBanned_found _ _ _ Hw Hinc) as [found ->]. reflexivity.
  -
  destruct (firstBanned_found _ _ _ Hw Hinc) as [found ->]. reflexivity.
Qed.

(** C8. For a concept that passes the minimum-sentiment check: when the
    name is shorter than 3 or longer than 32, or the symbol does not match
    ^[A-Z]{3,6}$, or the lower-cased concatenation of name, description
    and source text (joined by single spaces) contains a banned word, in
    particular when one of the three contains it in any letter case,
    createToken returns a structured failure carrying an error message
    and leaves the world untouched: no collaborator is called. Whenever
    createToken does call a collaborator, validation has passed. "AB"
    fails the symbol format, "WAGMI" meets it, and "scam" is banned. *)
Theorem createToken_validates_before_mint
  (config : SDKConfig) (data : MemeCoinData) (w : World) :
  js_lt (sentimentScore (metadata data)) (minSentimentScore config) = false ->
  (rejectable data ->
     exists s,
       MemeCoinCreator.createToken config data w =
       (Return (TokenCreationResult.failure (Some (Msg s))), w)) /\
  (forall o w',
     MemeCoinCreator.createToken config data w = (o, w') ->
     calls w' <> calls w ->
     MemeCoinCreator.isValid (MemeCoinCreator.validateMemeCoinData config data) = true) /\
  MemeCoinCreator.symbolFormat (str "AB") = false /\
  MemeCoinCreator.symbolFormat (str "WAGMI") = true /\
  In (str "scam") MemeCoinCreator.bannedWords.
Proof.
  intros Hscore. repeat split.
  - intros Hrej. apply (rejectable_invalid config) in Hrej.
    destruct (validation_error_present config data Hscore Hrej) as [s Hs].
    exists s. rewrite createToken_invalid by assumption. now rewrite Hs.
  - intros o w' Hrun Hcalls.
    destruct (MemeCoinCreator.isValid (MemeCoinCreator.validateMemeCoinData config data))
      eqn:Hv; [reflexivity |].
    rewrite createToken_invalid in Hrun by assumption.
    injection Hrun as _ <-. now contradiction Hcalls.
  - simpl. auto.
Qed.

(** ** SentimentAnalyzer: sentiment *)

Lemma Qltb_lt (p q : Q) : Qltb p q = true <-> (p < q)%Q.
Proof.
  unfold Qltb. rewrite negb_true_iff. split.
  - intros H. apply Qnot_le_lt. intros Hle. apply Qle_bool_iff in Hle. congruence.
  - intros H. destruct (Qle_bool q p) eqn:E; [| reflexivity].
    apply Qle_bool_iff in E. exfalso. apply (Qlt_not_le _ _ H E).
Qed.

Lemma Qltb_ge (p q : Q) : Qltb p q = false <-> (q <= p)%Q.
Proof.
  unfold Qltb. rewrite negb_false_iff. apply Qle_bool_iff.
Qed.

(** Clamping yields a number of [0, 1] unless it is given NaN. *)
Lemma clamp_in_unit (x : jsnum) : x <> NaN -> in_unit (clamp x).
Proof.
  intros Hx. destruct x as [q | | |]; [| congruence | |].
  - unfold clamp, Math_min, Math_max, js_lt.
    destruct (Qltb q 1) eqn:H1.
    + destruct (Qltb 0 q) eqn:H0; simpl.
      * apply Qltb_lt in H1, H0. split; apply Qlt_le_weak; assumption.
      * split; [apply Qle_refl | discriminate].
    + simpl. split; discriminate.
  - simpl. split; discriminate.
  - simpl. split; [apply Qle_refl | discriminate].
Qed.

(** Clamping yields 0 only from a negative number. *)
Lemma clamp_zero (x : jsnum) (q : Q) :
  clamp x = Num q -> (q == 0)%Q -> num_truthy x = true -> js_lt x (Num 0) = true.
Proof.
  destruct x as [p | | |]; unfold clamp, Math_min, Math_max, js_lt; simpl.
  - destruct (Qltb p 1) eqn:H1.
    + destruct (Qltb 0 p) eqn:H0.
      * intros [= <-] Hq Ht. apply Qltb_lt in H0. rewrite Hq in H0.
        exfalso. apply (Qlt_irrefl _ H0).
      * intros _ _ Ht. apply Qltb_ge in H0. apply negb_true_iff in Ht.
        apply Qltb_lt. apply Qle_lt_or_eq in H0 as [H0 | H0]; [assumption |].
        apply Qeq_bool_iff in H0. congruence.
    + simpl. intros [= <-] Hq. discriminate Hq.
  - discriminate.
  - intros [= <-] Hq. discriminate Hq.
  - reflexivity.
Qed.

Lemma ToNumber_world (v : jsval) (w : World) : snd (ToNumber v w) = w.
Proof.
  destruct v as [| | b | x | s | items | props]; simpl; try reflexivity.
  destruct (own_prop props (str "toString")); reflexivity.
Qed.

Lemma ToNumber_env (v : jsval) (w w' : World) :
  env w' = env w -> fst (ToNumber v w') = fst (ToNumber v w).
Proof.
  intros H. destruct v as [| | b | x | s | items | props]; simpl;
    try reflexivity; try now rewrite H.
  destruct (own_prop props (str "toString")); reflexivity.
Qed.

Lemma clamp01_run (v : jsval) (w : World) :
  clamp01 v w =
  match fst (ToNumber v w) with
  | Return x => (Return (clamp x), w)
  | Throw e => (Throw e, w)
  end.
Proof.
  unfold clamp01, bind, ret. pose proof (ToNumber_world v w) as Hw.
  destruct (ToNumber v w) as [[x | e] w']; simpl in *; now subst.
Qed.

(** How the [try] of analyzeSentiment ends: it returns only when the
    completion arrived, both fields could be read and both conversions
    went through, and then with the clamped conversions. *)
Lemma analyzeSentiment_try_inv (text : jsstring) (w : World) (r : Sentiment.t) (w' : World) :
  SentimentAnalyzer.analyzeSentiment_try text w = (Return r, w') ->
  exists result s l c x y,
    completion (env w) (tick w) = Return result /\
    get_prop result "score" = Return s /\
    get_prop result "label" = Return l /\
    get_prop result "confidence" = Return c /\
    fst (ToNumber (js_or s (JNum (Num 0.5))) w) = Return x /\
    fst (ToNumber (js_or c (JNum (Num 0.5))) w) = Return y /\
    r = {| Sentiment.score := clamp x;
           Sentiment.label := js_or l (JStr (str "neutral"));
           Sentiment.confidence := clamp y |}.
Proof.
  unfold SentimentAnalyzer.analyzeSentiment_try, bind, external, lift.
  set (w1 := record_call (SentimentCompletion text) (step w)).
  assert (He : env w1 = env w) by reflexivity.
  destruct (completion (env w) (tick w)) as [result | e] eqn:Hc; [| discriminate].
  destruct (get_prop result "score") as [s | e] eqn:Hs; [| discriminate].
  rewrite clamp01_run, (ToNumber_env _ w w1 He).
  destruct (fst (ToNumber (js_or s (JNum (Num 0.5))) w)) as [x | e] eqn:Hx; [| discriminate].
  destruct (get_prop result "label") as [l | e] eqn:Hl; [| discriminate].
  destruct (get_prop result "confidence") as [c | e] eqn:Hcf; [| discriminate].
  rewrite clamp01_run, (ToNumber_env _ w w1 He).
  destruct (fst (ToNumber (js_or c (JNum (Num 0.5))) w)) as [y | e] eqn:Hy; [| discriminate].
  unfold ret. intros [= <- <-]. exists result, s, l, c, x, y. repeat split; assumption || reflexivity.
Qed.

Lemma analyzeSentiment_returns (text : jsstring) (w : World) :
  exists r w',
    SentimentAnalyzer.analyzeSentiment text w = (Return r, w') /\
    ((exists w1, SentimentAnalyzer.analyzeSentiment_try text w = (Return r, w1)) \/
     ((exists e w1, SentimentAnalyzer.analyzeSentiment_try text w = (Throw e, w1)) /\
       r = SentimentAnalyzer.neutralSentiment)).
Proof.
  unfold SentimentAnalyzer.analyzeSentiment, try_catch.
  destruct (SentimentAnalyzer.analyzeSentiment_try text w) as [[r | e] w1].
  - exists r, w1. split; [reflexivity |]. left. eauto.
  - eexists _, _. split; [reflexivity |]. right. split; [eauto | reflexivity].
Qed.

Lemma neutralSentiment_in_unit :
  in_unit (Sentiment.score SentimentAnalyzer.neutralSentiment) /\
  in_unit (Sentiment.confidence SentimentAnalyzer.neutralSentiment).
Proof. simpl. repeat split; discriminate. Qed.

Lemma plain_number (v : jsval) (w : World) (x : jsnum) :
  plain v -> fst (ToNumber (js_or v (JNum (Num 0.5))) w) = Return x -> x <> NaN.
Proof.
  unfold js_or. destruct v as [| | b | n | | |]; simpl; try easy.
  - intros _ [= <-]. discriminate.
  - intros _ [= <-]. discriminate.
  - destruct b; simpl; intros _ [= <-]; discriminate.
  - destruct (num_truthy n) eqn:Ht; simpl; intros _ [= <-]; [| discriminate].
    destruct n; simpl in Ht; congruence.
Qed.

(** C5. analyzeSentiment never throws. Its score and its
    confidence are each NaN or a number of [0, 1]; they are numbers of
    [0, 1] whenever the collaborator's fields are JSON numbers, booleans,
    null or absent, whatever their size. When the collaborator call fails
    the result is exactly {score: 0.5, label: 'neutral', confidence: 0.1}. *)
Theorem analyzeSentiment_clamps_or_falls_back (text : jsstring) (w : World) :
  exists r w',
    SentimentAnalyzer.analyzeSentiment text w = (Return r, w') /\
    (Sentiment.score r = NaN \/ in_unit (Sentiment.score r)) /\
    (Sentiment.confidence r = NaN \/ in_unit (Sentiment.confidence r)) /\
    (forall e, completion (env w) (tick w) = Throw e ->
               r = SentimentAnalyzer.neutralSentiment) /\
    (forall result,
       completion (env w) (tick w) = Return result ->
       (forall s, get_prop result "score" = Return s -> plain s) ->
       (forall c, get_prop result "confidence" = Return c -> plain c) ->
       in_unit (Sentiment.score r) /\ in_unit (Sentiment.confidence r)).
Proof.
  destruct (analyzeSentiment_returns text w) as (r & w' & Hrun & Hcase).
  exists r, w'. split; [assumption |].
  destruct Hcase as [[w1 Htry] | [_ ->]].
  - apply analyzeSentiment_try_inv in Htry
      as (result & s & l & c & x & y & Hc & Hs & Hl & Hcf & Hx & Hy & ->).
    simpl. split; [| split; [| split; [| intros result' Hc' Hps Hpc; split]]].
    + destruct x; try (right; apply clamp_in_unit; discriminate). now left.
    + destruct y; try (right; apply clamp_in_unit; discriminate). now left.
    + intros e He. congruence.
    + apply clamp_in_unit. apply (plain_number s w); [| assumption].
      rewrite Hc in Hc'. injection Hc' as <-. auto.
    + apply clamp_in_unit. apply (plain_number c w); [| assumption].
      rewrite Hc in Hc'. injection Hc' as <-. auto.
  - pose proof neutralSentiment_in_unit as [Hs Hc].
    split; [now right | split; [now right | split; [reflexivity | now split]]].
Qed.

Lemma clamp_zero_source (x : jsnum) (q : Q) :
  clamp x = Num q -> (q == 0)%Q -> x <> NaN /\ js_lt (Num 0) x = false.
Proof.
  destruct x as [p | | |]; unfold clamp, Math_min, Math_max, js_lt; simpl.
  - destruct (Qltb p 1) eqn:H1.
    + destruct (Qltb 0 p) eqn:H0.
      * intros [= <-] Hq. apply Qltb_lt in H0. rewrite Hq in H0.
        exfalso. apply (Qlt_irrefl _ H0).
      * intros _ _. split; [discriminate | reflexivity].
    + simpl. intros [= <-] Hq. discriminate Hq.
  - discriminate.
  - intros [= <-] Hq. discriminate Hq.
  - intros _ _. split; [discriminate | reflexivity].
Qed.

Lemma default_or_converted (v : jsval) (w : World) (x : jsnum) (q : Q) :
  fst (ToNumber (js_or v (JNum (Num 0.5))) w) = Return x ->
  (truthy v = false -> clamp x = Num 0.5) /\
  (clamp x = Num q -> (q == 0)%Q ->
     truthy v = true /\
     fst (ToNumber v w) = Return x /\
     js_lt (Num 0) x = false /\
     (forall n, v = JNum n -> js_lt n (Num 0) = true)).
Proof.
  unfold js_or. destruct (truthy v) eqn:Ht.
  - intros Hx. split; [discriminate |]. intros Hq Hz.
    destruct (clamp_zero_source x q Hq Hz) as [Hnan Hle].
    repeat split; try assumption.
    intros n ->. simpl in Hx. injection Hx as ->. simpl in Ht.
    apply (clamp_zero x q); assumption.
  - simpl. intros [= <-]. split; [reflexivity |].
    intros [= <-] Hz. discriminate Hz.
Qed.

(** Reading a property throws on null and undefined only. *)
Lemma get_prop_returns (v : jsval) (name : string) :
  v <> JUndefined -> v <> JNull -> exists x, get_prop v name = Return x.
Proof.
  intros Hu Hn. destruct v as [| | b | n | s | items | props]; simpl; eauto; try congruence.
  destruct (own_prop props (str name)); eauto.
Qed.

Lemma get_prop_again (v : jsval) (name name' : string) (x : jsval) :
  get_prop v name = Return x -> exists y, get_prop v name' = Return y.
Proof. intros H. apply get_prop_returns; intros ->; discriminate H. Qed.

Lemma get_prop_opt_returns (v : jsval) (name : string) :
  exists x, get_prop_opt v name = Return x.
Proof.
  destruct v as [| | b | n | s | items | props]; simpl; eauto.
  destruct (own_prop props (str name)); eauto.
Qed.

(** What the [try] of analyzeSentiment comes to once the completion has
    arrived: the first read or conversion that throws ends it. *)
Lemma analyzeSentiment_try_outcome (text : jsstring) (w : World) (result : jsval) :
  completion (env w) (tick w) = Return result ->
  fst (SentimentAnalyzer.analyzeSentiment_try text w) =
  match get_prop result "score" with
  | Throw e => Throw e
  | Return s =>
      match fst (ToNumber (js_or s (JNum (Num 0.5))) w) with
      | Throw e => Throw e
      | Return x =>
          match get_prop result "label", get_prop result "confidence" with
          | Throw e, _ => Throw e
          | Return _, Throw e => Throw e
          | Return l, Return c =>
              match fst (ToNumber (js_or c (JNum (Num 0.5))) w) with
              | Throw e => Throw e
              | Return y =>
                  Return {| Sentiment.score := clamp x;
                            Sentiment.label := js_or l (JStr (str "neutral"));
                            Sentiment.confidence := clamp y |}
              end
          end
      end
  end.
Proof.
  intros Hc. unfold SentimentAnalyzer.analyzeSentiment_try, bind, external, lift.
  set (w1 := record_call (SentimentCompletion text) (step w)).
  assert (He : env w1 = env w) by reflexivity.
  rewrite Hc.
  destruct (get_prop result "score") as [s | e]; [| reflexivity].
  rewrite clamp01_run, (ToNumber_env _ w w1 He).
  destruct (fst (ToNumber (js_or s (JNum (Num 0.5))) w)) as [x | e]; [| reflexivity].
  destruct (get_prop result "label") as [l | e]; [| reflexivity].
  destruct (get_prop result "confidence") as [c | e]; [| reflexivity].
  rewrite clamp01_run, (ToNumber_env _ w w1 He).
  destruct (fst (ToNumber (js_or c (JNum (Num 0.5))) w)) as [y | e]; reflexivity.
Qed.

Lemma analyzeSentiment_result (text : jsstring) (w : World) :
  fst (SentimentAnalyzer.analyzeSentiment text w) =
  Return match fst (SentimentAnalyzer.analyzeSentiment_try text w) with
         | Return r => r
         | Throw _ => SentimentAnalyzer.neutralSentiment
         end.
Proof.
  unfold SentimentAnalyzer.analyzeSentiment, try_catch, ret.
  destruct (SentimentAnalyzer.analyzeSentiment_try text w) as [[r | e] w1]; reflexivity.
Qed.

(** C10. When the completion arrives, analyzeSentiment returns. If
    reading a field or converting it to a number throws, the result is
    the fallback {score 0.5, 'neutral', confidence 0.1}. A falsy score
    field (0, absent, null, false, the empty string) gives the score 0.5,
    so a reported score of exactly 0 comes out as 0.5; a falsy confidence
    gives the confidence 0.5 when the score converts, and the 0.1 of the
    fallback when the conversion of the score throws. The returned score
    (or confidence) is 0 only for a truthy field whose numeric value is
    not above 0: a negative number, clamped up to 0, or a value that is
    not a number and converts to 0 or below. *)
Theorem analyzeSentiment_default_on_falsy
  (text : jsstring) (w : World) (result : jsval) :
  completion (env w) (tick w) = Return result ->
  let default := JNum (Num 0.5) in
  exists r w',
    SentimentAnalyzer.analyzeSentiment text w = (Return r, w') /\
    (forall e,
       get_prop result "score" = Throw e \/
       (exists s, get_prop result "score" = Return s /\
                  fst (ToNumber (js_or s default) w) = Throw e) \/
       (exists c, get_prop result "confidence" = Return c /\
                  fst (ToNumber (js_or c default) w) = Throw e) ->
       r = SentimentAnalyzer.neutralSentiment) /\
    (forall s, get_prop result "score" = Return s -> truthy s = false ->
       Sentiment.score r = Num 0.5) /\
    (forall s c,
       get_prop result "score" = Return s ->
       get_prop result "confidence" = Return c -> truthy c = false ->
       (forall x, fst (ToNumber (js_or s default) w) = Return x ->
          Sentiment.confidence r = Num 0.5) /\
       (forall e, fst (ToNumber (js_or s default) w) = Throw e ->
          Sentiment.confidence r = Num 0.1)) /\
    (forall q, Sentiment.score r = Num q -> (q == 0)%Q ->
       exists s x,
         get_prop result "score" = Return s /\ truthy s = true /\
         fst (ToNumber s w) = Return x /\ js_lt (Num 0) x = false /\
         (forall n, s = JNum n -> js_lt n (Num 0) = true)) /\
    (forall q, Sentiment.confidence r = Num q -> (q == 0)%Q ->
       exists c y,
         get_prop result "confidence" = Return c /\ truthy c = true /\
         fst (ToNumber c w) = Return y /\ js_lt (Num 0) y = false /\
         (forall n, c = JNum n -> js_lt n (Num 0) = true)).
Proof.
  intros Hc default.
  destruct (analyzeSentiment_returns text w) as (r & w' & Hrun & _).
  exists r, w'. split; [exact Hrun |].
  pose proof (analyzeSentiment_result text w) as Hr.
  rewrite Hrun, (analyzeSentiment_try_outcome text w result Hc) in Hr.
  simpl fst in Hr. injection Hr as ->. fold default.
  assert (Hfallback : Sentiment.score SentimentAnalyzer.neutralSentiment = Num 0.5 /\
                      Sentiment.confidence SentimentAnalyzer.neutralSentiment = Num 0.1)
    by (split; reflexivity).
  destruct Hfallback as [Hfs Hfc].
  assert (Hnz : forall q, Num 0.5 = Num q \/ Num 0.1 = Num q -> (q == 0)%Q -> False).
  { intros q [[= <-] | [= <-]] Hq; discriminate Hq. }
  destruct (get_prop result "score") as [s | e] eqn:Hs.
  2: { split; [reflexivity |]. split; [discriminate |]. split; [discriminate |].
       split; intros q Hq Hz; exfalso; apply (Hnz q); auto. }
  destruct (get_prop_again result "score" "label" s Hs) as [l ->].
  destruct (get_prop_again result "score" "confidence" s Hs) as [c ->].
  destruct (fst (ToNumber (js_or s default) w)) as [x | e] eqn:Hx.
  2: { split; [reflexivity |]. split.
       { intros s' [= <-] Ht. reflexivity. }
       split.
       { intros s' c' [= <-] [= <-] Ht. split; [intros x H; congruence | reflexivity]. }
       split; intros q Hq Hz; exfalso; apply (Hnz q); auto. }
  destruct (fst (ToNumber (js_or c default) w)) as [y | e] eqn:Hy.
  2: { split; [reflexivity |]. split.
       { intros s' [= <-] Ht. reflexivity. }
       split.
       { intros s' c' [= <-] [= <-] Ht. exfalso.
         unfold js_or in Hy. rewrite Ht in Hy. discriminate Hy. }
       split; intros q Hq Hz; exfalso; apply (Hnz q); auto. }
  cbn [Sentiment.score Sentiment.confidence].
  destruct (default_or_converted s w x 0 Hx) as [Hsf _].
  destruct (default_or_converted c w y 0 Hy) as [Hcf _].
  split.
  { intros e [H | [(s' & [= <-] & H) | (c' & [= <-] & H)]]; congruence. }
  split.
  { intros s' [= <-] Ht. now apply Hsf. }
  split.
  { intros s' c' [= <-] [= <-] Ht. split; [intros _ _; now apply Hcf | intros e H; congruence]. }
  split.
  - intros q Hq Hz. destruct (default_or_converted s w x q Hx) as [_ H].
    destruct (H Hq Hz) as (Ht & Hn & Hle & Hneg). exists s, x. auto.
  - intros q Hq Hz. destruct (default_or_converted c w y q Hy) as [_ H].
    destruct (H Hq Hz) as (Ht & Hn & Hle & Hneg). exists c, y. auto.
Qed.

(** ** SentimentAnalyzer: viral potential *)

Lemma In_fire (cond : bool) (factor : string) (weight : Q)
  (acc : jsnum * list jsstring) (f : jsstring) :
  In f (snd (SentimentAnalyzer.fire cond factor weight acc)) <->
  In f (snd acc) \/ (cond = true /\ f = str factor).
Proof.
  unfold SentimentAnalyzer.fire. destruct cond; simpl.
  - rewrite in_app_iff. simpl. intuition congruence.
  - intuition congruence.
Qed.

(** The [try] of analyzeViralPotential runs to its end: it reads the clock
    and the hour, and calls no collaborator. *)
Lemma analyzeViralPotential_run (message : TwitterMessage) (w : World) :
  SentimentAnalyzer.analyzeViralPotential message w =
  (Return
     (let acc := SentimentAnalyzer.engagementAndContent message in
      let hoursSincePost :=
        js_div (js_sub (of_Z (clock (env w) (tick w))) (createdAt message))
               (of_Z (1000 * 60 * 60)) in
      let acc := SentimentAnalyzer.fire
                   (js_lt hoursSincePost (Num 2) &&
                    js_gt (SentimentAnalyzer.totalEngagement (metrics message)) (Num 50))
                   "Rapid early engagement" 0.2 acc in
      let acc := SentimentAnalyzer.fire
                   (existsb (Z.eqb (wall_hour (env w) (S (tick w))))
                            SentimentAnalyzer.peakHours)
                   "Posted during peak hours" 0.1 acc in
      {| Viral.score := Math_min (Num 1) (Math_max (Num 0) (fst acc));
         Viral.factors := snd acc |}),
   step (step w)).
Proof. reflexivity. Qed.

(** 'High engagement rate' is among the factors exactly when the rate
    exceeds 0.05. *)
Lemma engagement_rate_factor (message : TwitterMessage) (w : World) (r : Viral.t) (w' : World) :
  SentimentAnalyzer.analyzeViralPotential message w = (Return r, w') ->
  In (str "High engagement rate") (Viral.factors r) <->
  js_gt (SentimentAnalyzer.engagementRate (metrics message)) (Num 0.05) = true.
Proof.
  rewrite analyzeViralPotential_run. intros [= <- _]. simpl Viral.factors.
  unfold SentimentAnalyzer.engagementAndContent.
  rewrite !In_fire.
  destruct (js_gt (likes (metrics message)) (Num 100)); rewrite !In_fire; simpl;
    intuition (try discriminate; auto).
Qed.

(** Dividing by zero would show: the quotient is an infinity or NaN. *)
Lemma js_div_zero (a : jsnum) (q : Q) :
  (q == 0)%Q -> forall p, js_div a (Num q) <> Num p.
Proof.
  intros Hq p. apply Qeq_bool_iff in Hq.
  destruct a as [r | | |]; simpl; try discriminate.
  - rewrite Hq. unfold Qsign_inf. destruct (Qltb 0 r); [discriminate |].
    destruct (Qltb r 0); discriminate.
  - destruct (Qltb q 0); discriminate.
  - destruct (Qltb q 0); discriminate.
Qed.

(** C9. When views is 0 or absent the engagement rate is the number 0 and
    no division takes place (a division by zero would have produced an
    infinity or NaN); the 'High engagement rate' contribution does not
    fire. In general the division is made only by a views count that is
    neither 0 nor NaN, and the other division of analyzeViralPotential,
    for the age in hours, is by the constant 3 600 000. *)
Theorem engagementRate_guards_zero_views (message : TwitterMessage) (w : World) :
  let m := metrics message in
  (SentimentAnalyzer.engagementRate m = Num 0 \/
   exists v, views m = Some v /\ num_truthy v = true /\
             SentimentAnalyzer.engagementRate m =
             js_div (SentimentAnalyzer.totalEngagement m) v) /\
  (views m = None \/ (exists q, views m = Some (Num q) /\ (q == 0)%Q) ->
   SentimentAnalyzer.engagementRate m = Num 0 /\
   js_gt (SentimentAnalyzer.engagementRate m) (Num 0.05) = false /\
   (forall v p, views m = Some v -> js_div (SentimentAnalyzer.totalEngagement m) v <> Num p) /\
   num_truthy (of_Z (1000 * 60 * 60)) = true /\
   exists r w',
     SentimentAnalyzer.analyzeViralPotential message w = (Return r, w') /\
     ~ In (str "High engagement rate") (Viral.factors r)).
Proof.
  intros m. split.
  - unfold SentimentAnalyzer.engagementRate.
    destruct (views m) as [v |]; [| now left].
    destruct (num_truthy v) eqn:Ht; [| now left].
    right. exists v. auto.
  - intros Hv.
    assert (Hrate : SentimentAnalyzer.engagementRate m = Num 0).
    { unfold SentimentAnalyzer.engagementRate.
      destruct Hv as [-> | (q & -> & Hq)]; [reflexivity |].
      simpl. apply Qeq_bool_iff in Hq. now rewrite Hq. }
    split; [assumption |]. split; [now rewrite Hrate |]. split.
    + intros v p Hsome. destruct Hv as [Hnone | (q & Hq & Hz)]; [congruence |].
      rewrite Hq in Hsome. injection Hsome as <-. now apply js_div_zero.
    + split; [reflexivity |]. eexists _, _. split; [apply analyzeViralPotential_run |].
      rewrite (engagement_rate_factor message w _ _ (analyzeViralPotential_run message w)).
      fold m. rewrite Hrate. discriminate.
Qed.

(** The two emojis of the scenario lie in the blocks U+1F300-1F5FF and
    U+1F600-1F64F; they are also accepted by the first class of the
    literal taken as it is written. *)
Lemma scenarioText_has_emojis :
  SentimentAnalyzer.emojiRegex_test scenarioText = true /\
  existsb (fun c => existsb (SentimentAnalyzer.inBlock c)
                            SentimentAnalyzer.firstClassAsWritten)
          (codePoints scenarioText) = true.
Proof. split; vm_compute; reflexivity. Qed.

(** C6. The literal of the emoji test, as the source writes it, is not a
    pattern: with the doubled backslashes three of its class ranges run
    backwards, from U+1F300, from the closing brace and from U+2700 down
    to the backslash. The test as written therefore gives no answer, for
    the text of the scenario and for every other text: it is a
    SyntaxError, and 'Contains emojis' cannot come from it. The five
    blocks the literal is written for do contain the two emojis of the
    scenario. *)
Theorem emojiRegex_as_written_rejected :
  SentimentAnalyzer.emojiRegexAsWritten_test scenarioText =
    Throw SentimentAnalyzer.SyntaxError /\
  (forall text,
     SentimentAnalyzer.emojiRegexAsWritten_test text = Throw SentimentAnalyzer.SyntaxError) /\
  List.filter (fun range => negb (SentimentAnalyzer.inOrder range))
              (concat SentimentAnalyzer.emojiRegexAsWritten) =
    [(127744, 92); (125, 92); (9984, 92)]%N /\
  SentimentAnalyzer.emojiRegex_test scenarioText = true.
Proof.
  assert (Hbad : SentimentAnalyzer.rangesInOrder SentimentAnalyzer.emojiRegexAsWritten = false)
    by (vm_compute; reflexivity).
  unfold SentimentAnalyzer.emojiRegexAsWritten_test. rewrite Hbad.
  split; [reflexivity |]. split; [reflexivity |].
  split; [vm_compute; reflexivity | apply scenarioText_has_emojis].
Qed.

(** ** SentimentAnalyzer: the trend analysis and its gate *)

(** A [try] whose handler returns a value always returns, in the world the
    body left. *)
Lemma try_catch_ret_run {A} (c : M A) (a0 : A) (w w1 : World) :
  snd (c w) = w1 -> exists a, try_catch c (fun _ => ret a0) w = (Return a, w1).
Proof.
  unfold try_catch, ret. destruct (c w) as [[a | e] w']; simpl; intros ->; eauto.
Qed.

Lemma analyzeSentiment_try_world (text : jsstring) (w : World) :
  snd (SentimentAnalyzer.analyzeSentiment_try text w) =
  record_call (SentimentCompletion text) (step w).
Proof.
  unfold SentimentAnalyzer.analyzeSentiment_try, bind, external, lift, ret.
  destruct (completion (env w) (tick w)) as [result | e]; [| reflexivity].
  destruct (get_prop result "score") as [s | e]; [| reflexivity].
  rewrite clamp01_run.
  destruct (fst (ToNumber _ _)) as [x | e]; [| reflexivity].
  destruct (get_prop result "label") as [l | e]; [| reflexivity].
  destruct (get_prop result "confidence") as [c | e]; [| reflexivity].
  rewrite clamp01_run.
  destruct (fst (ToNumber _ _)) as [y | e]; reflexivity.
Qed.

Lemma analyzeSentiment_run (text : jsstring) (w : World) :
  exists r, SentimentAnalyzer.analyzeSentiment text w =
            (Return r, record_call (SentimentCompletion text) (step w)).
Proof. apply try_catch_ret_run, analyzeSentiment_try_world. Qed.

Lemma extractKeywords_run (text : jsstring) (w : World) :
  exists k, SentimentAnalyzer.extractKeywords text w =
            (Return k, record_call (KeywordsCompletion text) (step w)).
Proof.
  apply try_catch_ret_run. unfold bind, external, lift, ret.
  destruct (completion (env w) (tick w)) as [result | e]; [| reflexivity].
  destruct (get_prop result "keywords"); reflexivity.
Qed.

Lemma generateTokenSuggestion_run (message : TwitterMessage) (w : World) :
  exists suggestion,
    SentimentAnalyzer.generateTokenSuggestion message w =
    (Return suggestion, record_call (TokenSuggestionCompletion message) (step w)).
Proof.
  apply try_catch_ret_run. unfold bind, external, lift, ret, throw.
  destruct (completion (env w) (tick w)) as [result | e]; [| reflexivity].
  destruct (get_prop result "name") as [n | e]; [| reflexivity].
  destruct (get_prop result "symbol") as [s | e]; [| reflexivity].
  destruct (get_prop result "concept") as [c | e]; [| reflexivity].
  destruct (truthy n && truthy s && truthy c); [| reflexivity].
  destruct s; reflexivity.
Qed.

(** The course of analyzeTrend: sentiment, viral potential, keywords, and
    the token suggestion when the gate is open. *)
Lemma analyzeTrend_run (message : TwitterMessage) (w : World) :
  exists ta w',
    SentimentAnalyzer.analyzeTrend message w = (Return ta, w') /\
    let asked := [KeywordsCompletion (text message); SentimentCompletion (text message)] in
    if SentimentAnalyzer.suggestionGate (sentiment ta) (viralPotential ta)
    then calls w' = TokenSuggestionCompletion message :: asked ++ calls w
    else tokenSuggestion ta = None /\ calls w' = asked ++ calls w.
Proof.
  unfold SentimentAnalyzer.analyzeTrend, try_catch, bind.
  destruct (analyzeSentiment_run (text message) w) as [s ->].
  rewrite analyzeViralPotential_run.
  match goal with
  | |- context [SentimentAnalyzer.extractKeywords ?t ?w2] =>
      destruct (extractKeywords_run t w2) as [k ->]
  end.
  match goal with
  | |- context [SentimentAnalyzer.suggestionGate s ?v] =>
      set (viral := v); destruct (SentimentAnalyzer.suggestionGate s viral) eqn:Hgate
  end.
  - match goal with
    | |- context [SentimentAnalyzer.generateTokenSuggestion message ?w3] =>
        destruct (generateTokenSuggestion_run message w3) as [suggestion ->]
    end.
    eexists _, _. split; [reflexivity |]. simpl. rewrite Hgate. reflexivity.
  - eexists _, _. split; [reflexivity |]. simpl. rewrite Hgate. split; reflexivity.
Qed.

(** C2. analyzeTrend never throws. A token suggestion is present only if
    sentiment.score > 0.6 and viralPotential.score > 0.5. When the gate
    fails, analyzeTrend has asked the language model for the sentiment and
    the keywords only: generateTokenSuggestion is not called. When the
    gate passes, it is called. *)
Theorem analyzeTrend_gates_token_suggestion (message : TwitterMessage) (w : World) :
  exists ta w',
    SentimentAnalyzer.analyzeTrend message w = (Return ta, w') /\
    (tokenSuggestion ta <> None ->
       js_gt (Sentiment.score (sentiment ta)) (Num 0.6) = true /\
       js_gt (Viral.score (viralPotential ta)) (Num 0.5) = true) /\
    (js_gt (Sentiment.score (sentiment ta)) (Num 0.6) = false \/
     js_gt (Viral.score (viralPotential ta)) (Num 0.5) = false ->
       tokenSuggestion ta = None /\
       calls w' = [KeywordsCompletion (text message);
                   SentimentCompletion (text message)] ++ calls w /\
       ~ In (TokenSuggestionCompletion message) (firstn 2 (calls w'))) /\
    (js_gt (Sentiment.score (sentiment ta)) (Num 0.6) = true ->
     js_gt (Viral.score (viralPotential ta)) (Num 0.5) = true ->
       calls w' = TokenSuggestionCompletion message ::
                  [KeywordsCompletion (text message);
                   SentimentCompletion (text message)] ++ calls w).
Proof.
  destruct (analyzeTrend_run message w) as (ta & w' & Hrun & Hgate).
  exists ta, w'. split; [assumption |].
  unfold SentimentAnalyzer.suggestionGate in Hgate. cbv zeta in Hgate.
  destruct (js_gt (Sentiment.score (sentiment ta)) (Num 0.6));
    destruct (js_gt (Viral.score (viralPotential ta)) (Num 0.5)); simpl in Hgate.
  - split; [auto |]. split; [intros [H | H]; discriminate H | auto].
  - destruct Hgate as [Hnone Hcalls]. split; [congruence |]. split; [| discriminate].
    intros _. rewrite Hcalls. repeat split; auto. simpl. intros [H | [H | []]]; discriminate H.
  - destruct Hgate as [Hnone Hcalls]. split; [congruence |]. split; [| discriminate].
    intros _. rewrite Hcalls. repeat split; auto. simpl. intros [H | [H | []]]; discriminate H.
  - destruct Hgate as [Hnone Hcalls]. split; [congruence |]. split; [| discriminate].
    intros _. rewrite Hcalls. repeat split; auto. simpl. intros [H | [H | []]]; discriminate H.
Qed.

(** ** ElizaSolanaSDK: the processed set *)

Lemma keeps_ret {A} (a : A) : keeps_processed (ret a).
Proof. intros w. reflexivity. Qed.

Lemma keeps_throw {A} (e : jsstring) : keeps_processed (@throw A e).
Proof. intros w. reflexivity. Qed.

Lemma keeps_lift {A} (o : outcome A) : keeps_processed (lift o).
Proof. intros w. reflexivity. Qed.

Lemma keeps_external {A} (c : Call) (answer : Env -> nat -> outcome A) :
  keeps_processed (external c answer).
Proof. intros w. reflexivity. Qed.

Lemma keeps_Date_now : keeps_processed Date_now.
Proof. intros w. reflexivity. Qed.

Lemma keeps_getHours : keeps_processed getHours.
Proof. intros w. reflexivity. Qed.

Lemma keeps_bind {A B} (c : M A) (k : A -> M B) :
  keeps_processed c -> (forall a, keeps_processed (k a)) -> keeps_processed (bind c k).
Proof.
  intros Hc Hk w. unfold bind. specialize (Hc w).
  destruct (c w) as [[a | e] w1]; simpl in *; [| assumption].
  rewrite Hk. assumption.
Qed.

Lemma keeps_try_catch {A} (c : M A) (h : jsstring -> M A) :
  keeps_processed c -> (forall e, keeps_processed (h e)) -> keeps_processed (try_catch c h).
Proof.
  intros Hc Hh w. unfold try_catch. specialize (Hc w).
  destruct (c w) as [[a | e] w1]; simpl in *; [assumption |].
  rewrite Hh. assumption.
Qed.

Lemma keeps_clamp01 (v : jsval) : keeps_processed (clamp01 v).
Proof.
  intros w. rewrite clamp01_run. destruct (fst (ToNumber v w)); reflexivity.
Qed.

Create HintDb keeps.
#[local] Hint Resolve keeps_ret keeps_throw keeps_lift keeps_external keeps_Date_now
  keeps_getHours keeps_clamp01 keeps_bind keeps_try_catch : keeps.
#[local] Hint Extern 2 (keeps_processed (if ?b then _ else _)) => destruct b : keeps.
#[local] Hint Extern 2 (keeps_processed (match ?x with _ => _ end)) => destruct x : keeps.

Lemma keeps_analyzeTrend (message : TwitterMessage) :
  keeps_processed (SentimentAnalyzer.analyzeTrend message).
Proof.
  unfold SentimentAnalyzer.analyzeTrend, SentimentAnalyzer.analyzeSentiment,
    SentimentAnalyzer.analyzeSentiment_try, SentimentAnalyzer.analyzeViralPotential,
    SentimentAnalyzer.isInTrendingTime, SentimentAnalyzer.extractKeywords,
    SentimentAnalyzer.generateTokenSuggestion.
  auto 30 with keeps.
Qed.

Lemma keeps_processMessage (text : jsstring) :
  keeps_processed (ElizaAgent.processMessage text).
Proof.
  unfold ElizaAgent.processMessage, ElizaAgent.getStructuredAnalysis.
  auto 30 with keeps.
Qed.

Lemma processMessage_returns (text : jsstring) (w : World) :
  exists r, ElizaAgent.processMessage text w =
            (Return r, snd (ElizaAgent.processMessage text w)).
Proof.
  unfold ElizaAgent.processMessage, try_catch, ret.
  match goal with |- context [bind ?c ?k w] => destruct (bind c k w) as [[r | e] w1] end;
    simpl; eauto.
Qed.

(** A message whose id is in the processed set is answered at once: no
    collaborator is called and the world does not change. *)
Lemma processTwitterMessage_seen (config : SDKConfig) (message : TwitterMessage) (w : World) :
  tweetId message ∈ processedTweets w ->
  ElizaSolanaSDK.processTwitterMessage config message w =
  (Return ElizaSolanaSDK.alreadyProcessed, w).
Proof.
  intros Hin. unfold ElizaSolanaSDK.processTwitterMessage, bind, get.
  rewrite bool_decide_eq_true_2 by assumption. reflexivity.
Qed.

(** The [try] of processTwitterMessage records the id, whether it then
    runs to its end or throws at the log line that follows the recording. *)
Lemma processTwitterMessage_try_records (config : SDKConfig) (message : TwitterMessage) (w : World) :
  exists o w',
    ElizaSolanaSDK.processTwitterMessage_try config message w = (o, w') /\
    processedTweets w' = {[ tweetId message ]} ∪ processedTweets w.
Proof.
  unfold ElizaSolanaSDK.processTwitterMessage_try, bind.
  pose proof (keeps_analyzeTrend message w) as Hk1.
  destruct (analyzeTrend_run message w) as (ta & w1 & Hrun & _).
  rewrite Hrun in *. simpl in Hk1.
  pose proof (keeps_processMessage (text message) w1) as Hk2.
  destruct (processMessage_returns (text message) w1) as [r Hr].
  rewrite Hr. unfold get, modify, ret, lift.
  destruct (interpolate _); (eexists _, _; split; [reflexivity |]);
    simpl; rewrite Hk2, Hk1; reflexivity.
Qed.

(** C1. After a call of processTwitterMessage the message id is in the
    processed set, which only grows; a second call with the same id
    (whatever the rest of the message and whatever the collaborators
    would answer) returns shouldReply = false, shouldCreateToken = false,
    confidence 0, 'Already processed', without calling a collaborator or
    changing the world; and so does every later call, in any world whose
    processed set holds the id. *)
Theorem processTwitterMessage_at_most_once
  (config : SDKConfig) (first second : TwitterMessage) (w : World) :
  tweetId second = tweetId first ->
  exists a w1,
    ElizaSolanaSDK.processTwitterMessage config first w = (Return a, w1) /\
    tweetId first ∈ processedTweets w1 /\
    processedTweets w ⊆ processedTweets w1 /\
    ElizaSolanaSDK.processTwitterMessage config second w1 =
      (Return ElizaSolanaSDK.alreadyProcessed, w1) /\
    AIAnalysis.shouldReply ElizaSolanaSDK.alreadyProcessed = JBool false /\
    AIAnalysis.shouldCreateToken ElizaSolanaSDK.alreadyProcessed = JBool false /\
    AIAnalysis.confidence ElizaSolanaSDK.alreadyProcessed = Num 0 /\
    (forall later, tweetId first ∈ processedTweets later ->
       ElizaSolanaSDK.processTwitterMessage config second later =
         (Return ElizaSolanaSDK.alreadyProcessed, later)).
Proof.
  intros Hid.
  assert (Hseen : forall later, tweetId first ∈ processedTweets later ->
            ElizaSolanaSDK.processTwitterMessage config second later =
              (Return ElizaSolanaSDK.alreadyProcessed, later)).
  { intros later Hin. apply processTwitterMessage_seen. now rewrite Hid. }
  destruct (decide (tweetId first ∈ processedTweets w)) as [Hin | Hnew].
  - exists ElizaSolanaSDK.alreadyProcessed, w.
    rewrite processTwitterMessage_seen by assumption. repeat split; auto.
  - unfold ElizaSolanaSDK.processTwitterMessage at 1. unfold bind at 1. unfold get.
    rewrite bool_decide_eq_false_2 by assumption. unfold try_catch.
    destruct (processTwitterMessage_try_records config first w) as (o & w1 & -> & Hset).
    assert (Hin : tweetId first ∈ processedTweets w1).
    { rewrite Hset. apply elem_of_union. left. now apply elem_of_singleton. }
    destruct o as [a | e]; (eexists _, w1; split; [reflexivity |]);
      repeat split; auto; rewrite Hset; apply union_subseteq_r.
Qed.

(** ** The statements at concrete inputs *)

(** A message seen twice: the second call, with another text and with the
    language model down, is answered 'Already processed'. *)
Lemma processTwitterMessage_at_most_once_witness :
  let first := exampleMessage "42" "alice" scenarioText scenarioMetrics in
  let second := exampleMessage "42" "alice" (str "gm") scenarioMetrics in
  let w := freshWorld (exampleEnv (fun _ => 5000) modelDown postedThenFailing) in
  tweetId second = tweetId first /\
  exists a w1,
    ElizaSolanaSDK.processTwitterMessage (exampleConfig 10) first w = (Return a, w1) /\
    tweetId first ∈ processedTweets w1 /\
    ElizaSolanaSDK.processTwitterMessage (exampleConfig 10) second w1 =
      (Return ElizaSolanaSDK.alreadyProcessed, w1).
Proof.
  intros first second w. split; [reflexivity |].
  destruct (processTwitterMessage_at_most_once (exampleConfig 10) first second w eq_refl)
    as (a & w1 & Hrun & Hin & _ & Hagain & _).
  exists a, w1. auto.
Defined.

(** A reply of 305 units is cut to 280; a short reply that already
    mentions its author is returned as it is. *)
Lemma formatReply_mention_and_truncation_witness :
  let message := exampleMessage "7" "bob" scenarioText scenarioMetrics in
  let long := replicate 300 97%N in
  includes long (str "@" ++ authorUsername message) = false /\
  (280 < length (str "@" ++ authorUsername message ++ str " " ++ long))%nat /\
  length (MessageReplyHandler.formatReply message long) = 280%nat /\
  MessageReplyHandler.formatReply message (str "thanks @bob") = str "thanks @bob".
Proof.
  intros message long.
  assert (Hnot : includes long (str "@" ++ authorUsername message) = false)
    by (vm_compute; reflexivity).
  assert (Hlong : (280 < length (str "@" ++ authorUsername message ++ str " " ++ long))%nat)
    by (apply Nat.ltb_lt; vm_compute; reflexivity).
  split; [exact Hnot |]. split; [exact Hlong |].
  destruct (formatReply_mention_and_truncation message long) as (_ & _ & Hcut).
  destruct (formatReply_mention_and_truncation message (str "thanks @bob")) as (_ & Hkeep & _).
  split.
  - rewrite Hnot in Hcut. apply Hcut. exact Hlong.
  - apply Hkeep; [vm_compute; reflexivity |]. apply Nat.leb_le. vm_compute. reflexivity.
Defined.

(** With maxRepliesPerHour = 1 and the window started at 0: a reply is
    recorded at 3 599 000 ms, and an attempt 1 001 ms later, past the end
    of the window, finds canReply() = true again, although the recorded
    reply is well within the last hour. *)
Lemma canReply_rolling_hour_counterexample :
  let config := exampleConfig 1 in
  let times := fun k : nat => match k with O => 3599000 | _ => 3600001 end in
  let w := freshWorld (exampleEnv times modelDown postedThenFailing) in
  let w1 := snd (MessageReplyHandler.recordReplies [str "alice"] w) in
  hourlyReplyCount w1 = maxRepliesPerHour config /\
  replyHistory w1 !! str "alice" = Some 3599000 /\
  clock (env w1) (tick w1) - 3599000 < HOUR /\
  fst (MessageReplyHandler.canReply config w1) = Return true.
Proof.
  vm_compute. repeat split; reflexivity.
Qed.

(** One reply allowed per hour: after one recorded reply an attempt inside
    the window is refused; in a world whose window started more than an
    hour ago the attempt is allowed and the count is back to 0. *)
Lemma canReply_fixed_window_witness :
  let config := exampleConfig 1 in
  let inside := freshWorld (exampleEnv (fun _ => 1800000) modelDown postedThenFailing) in
  let past := freshWorld (exampleEnv (fun _ => 3600001) modelDown postedThenFailing) in
  1 <= maxRepliesPerHour config /\
  (exists w1,
     MessageReplyHandler.recordReplies [str "alice"] inside = (Return tt, w1) /\
     MessageReplyHandler.canReply config w1 = (Return false, step w1)) /\
  (exists w',
     MessageReplyHandler.canReply config past = (Return true, w') /\
     hourlyReplyCount w' = 0).
Proof.
  intros config inside past.
  assert (HN : 1 <= maxRepliesPerHour config) by (vm_compute; discriminate).
  split; [exact HN |]. split.
  - destruct (canReply_fixed_window config inside HN) as (_ & Hfull & _).
    eexists. split; [reflexivity |].
    apply (Hfull [str "alice"]).
    + reflexivity.
    + reflexivity.
    + reflexivity.
    + vm_compute. discriminate.
  - destruct (canReply_fixed_window config past HN) as (_ & _ & Hreset).
    destruct Hreset as (w' & Hrun & Hcount & _).
    + vm_compute. reflexivity.
    + exists w'. split; assumption.
Defined.

(** A reply to alice is sent at 1 000 ms and recorded; more than an hour
    later a reply to bob fails at the platform, and the hourly count has
    changed all the same, from 1 to 0. *)
Lemma replyToTweet_failed_dispatch_counterexample :
  let config := exampleConfig 10 in
  let times := fun k : nat => if Nat.ltb k 3 then 1000 else 3700000 in
  let w := freshWorld (exampleEnv times modelDown postedThenFailing) in
  let alice := exampleMessage "1" "alice" scenarioText scenarioMetrics in
  let bob := exampleMessage "2" "bob" scenarioText scenarioMetrics in
  let first := MessageReplyHandler.replyToTweet config alice (str "gm") w in
  let second := MessageReplyHandler.replyToTweet config bob (str "gm") (snd first) in
  (exists r1, fst first = Return r1 /\ success r1 = true) /\
  hourlyReplyCount (snd first) = 1 /\
  (exists r2, fst second = Return r2 /\ success r2 = false /\
              error r2 = Some (str "503")) /\
  hourlyReplyCount (snd second) = 0 /\
  hourlyReplyCount (snd second) <> hourlyReplyCount (snd first).
Proof.
  intros config times w alice bob first second.
  split; [eexists; split; [vm_compute; reflexivity | reflexivity] |].
  split; [vm_compute; reflexivity |].
  split; [eexists; split; [vm_compute; reflexivity | split; reflexivity] |].
  split; [vm_compute; reflexivity |].
  vm_compute. discriminate.
Qed.

(** Inside the window a reply that fails at the platform leaves the
    history and the count as they were; a reply that goes through is
    recorded. *)
Lemma replyToTweet_records_on_success_only_witness :
  let config := exampleConfig 10 in
  let down := freshWorld (exampleEnv (fun _ => 1000) modelDown (fun _ => Throw (str "503"))) in
  let up := freshWorld (exampleEnv (fun _ => 1000) modelDown postedThenFailing) in
  let alice := exampleMessage "1" "alice" scenarioText scenarioMetrics in
  (exists r w',
     MessageReplyHandler.replyToTweet config alice (str "gm") down = (Return r, w') /\
     success r = false /\
     replyHistory w' = replyHistory down /\
     hourlyReplyCount w' = hourlyReplyCount down) /\
  (exists r w',
     MessageReplyHandler.replyToTweet config alice (str "gm") up = (Return r, w') /\
     success r = true /\
     hourlyReplyCount w' = 1).
Proof.
  intros config down up alice. split.
  - destruct (replyToTweet_records_on_success_only config alice (str "gm") down)
      as (r & w' & Hrun & Hfail & _).
    assert (Hs : success r = false).
    { pose proof Hrun as E. vm_compute in E. injection E as <- _. reflexivity. }
    destruct (Hfail Hs) as (Hh & Hc & _).
    exists r, w'. repeat split; assumption.
  - destruct (replyToTweet_records_on_success_only config alice (str "gm") up)
      as (r & w' & Hrun & _ & Hok).
    assert (Hs : success r = true).
    { pose proof Hrun as E. vm_compute in E. injection E as <- _. reflexivity. }
    destruct (Hok Hs) as (_ & Hc).
    exists r, w'. repeat split; assumption.
Defined.

(** The language model answers {"score": {}, "confidence": 0.9}: the
    object is truthy, converts to NaN, and NaN passes through Math.min and
    Math.max; the returned score is NaN, which is not in [0, 1]. *)
Lemma analyzeSentiment_object_score_counterexample :
  let answer := JObj [(str "score", JObj []); (str "confidence", JNum (Num 0.9))] in
  let w := freshWorld (exampleEnv (fun _ => 1000) (fun _ => Return answer) postedThenFailing) in
  exists r,
    fst (SentimentAnalyzer.analyzeSentiment (str "gm") w) = Return r /\
    Sentiment.score r = NaN /\
    ~ in_unit (Sentiment.score r).
Proof.
  intros answer w. eexists. split; [vm_compute; reflexivity |].
  split; [reflexivity |]. simpl. tauto.
Qed.

(** Numbers far outside [0, 1] come back as 1 and 0; with the language
    model down the result is the neutral one. *)
Lemma analyzeSentiment_clamps_or_falls_back_witness :
  let answer := JObj [(str "score", JNum (Num 7)); (str "confidence", JNum (Num (-3)))] in
  let up := freshWorld (exampleEnv (fun _ => 1000) (fun _ => Return answer) postedThenFailing) in
  let down := freshWorld (exampleEnv (fun _ => 1000) modelDown postedThenFailing) in
  (exists r w',
     SentimentAnalyzer.analyzeSentiment (str "gm") up = (Return r, w') /\
     in_unit (Sentiment.score r) /\ in_unit (Sentiment.confidence r)) /\
  (exists w',
     SentimentAnalyzer.analyzeSentiment (str "gm") down =
     (Return SentimentAnalyzer.neutralSentiment, w')).
Proof.
  intros answer up down. split.
  - destruct (analyzeSentiment_clamps_or_falls_back (str "gm") up)
      as (r & w' & Hrun & _ & _ & _ & Hplain).
    exists r, w'. split; [exact Hrun |].
    apply (Hplain answer).
    + reflexivity.
    + intros s Hs. vm_compute in Hs. injection Hs as <-. exact I.
    + intros c Hc. vm_compute in Hc. injection Hc as <-. exact I.
  - destruct (analyzeSentiment_clamps_or_falls_back (str "gm") down)
      as (r & w' & Hrun & _ & _ & Hdown & _).
    exists w'. rewrite Hrun. f_equal. f_equal. apply (Hdown (str "timeout")). reflexivity.
Defined.

(** The language model answers {"score": -1, "confidence": -0.5}: the
    call succeeds, both values are truthy, and both are clamped up to 0. *)
Lemma analyzeSentiment_negative_score_counterexample :
  let answer := JObj [(str "score", JNum (Num (-1))); (str "confidence", JNum (Num (-0.5)))] in
  let w := freshWorld (exampleEnv (fun _ => 1000) (fun _ => Return answer) postedThenFailing) in
  exists r,
    fst (SentimentAnalyzer.analyzeSentiment_try (str "gm") w) = Return r /\
    Sentiment.score r = Num 0 /\
    Sentiment.confidence r = Num 0.
Proof.
  intros answer w. eexists. split; [vm_compute; reflexivity |].
  split; reflexivity.
Qed.

(** The language model answers {"score": 0}: the score comes back as 0.5,
    and so does the absent confidence. It answers {"score": {"toString":
    1}}: the conversion of the score throws, and the result is the
    fallback, with confidence 0.1. *)
Lemma analyzeSentiment_default_on_falsy_witness :
  let zero := JObj [(str "score", JNum (Num 0))] in
  let odd := JObj [(str "score", JObj [(str "toString", JNum (Num 1))])] in
  let world answer :=
    freshWorld (exampleEnv (fun _ => 1000) (fun _ => Return answer) postedThenFailing) in
  (exists r w',
     SentimentAnalyzer.analyzeSentiment (str "gm") (world zero) = (Return r, w') /\
     Sentiment.score r = Num 0.5 /\ Sentiment.confidence r = Num 0.5) /\
  (exists r w',
     SentimentAnalyzer.analyzeSentiment (str "gm") (world odd) = (Return r, w') /\
     Sentiment.score r = Num 0.5 /\ Sentiment.confidence r = Num 0.1).
Proof.
  intros zero odd world. split.
  - destruct (analyzeSentiment_default_on_falsy (str "gm") (world zero) zero eq_refl)
      as (r & w' & Hrun & _ & Hscore & Hconf & _).
    exists r, w'. split; [exact Hrun |]. split.
    + apply (Hscore (JNum (Num 0))); reflexivity.
    + destruct (Hconf (JNum (Num 0)) JUndefined eq_refl eq_refl eq_refl) as [Hhalf _].
      apply (Hhalf (Num 0.5)). reflexivity.
  - destruct (analyzeSentiment_default_on_falsy (str "gm") (world odd) odd eq_refl)
      as (r & w' & Hrun & Hthrown & _ & Hconf & _).
    exists r, w'. split; [exact Hrun |]. split.
    + rewrite (Hthrown TypeError); [reflexivity |]. right. left.
      exists (JObj [(str "toString", JNum (Num 1))]). split; reflexivity.
    + destruct (Hconf (JObj [(str "toString", JNum (Num 1))]) JUndefined
                  eq_refl eq_refl eq_refl) as [_ Hfallback].
      apply (Hfallback TypeError). reflexivity.
Defined.

(** With the language model down the sentiment is the neutral 0.5, the
    gate fails, and only the sentiment and the keywords were asked for. *)
Lemma analyzeTrend_gates_token_suggestion_witness :
  let message := exampleMessage "1" "alice" scenarioText scenarioMetrics in
  let w := freshWorld (exampleEnv (fun _ => 1000) modelDown postedThenFailing) in
  exists ta w',
    SentimentAnalyzer.analyzeTrend message w = (Return ta, w') /\
    js_gt (Sentiment.score (sentiment ta)) (Num 0.6) = false /\
    tokenSuggestion ta = None /\
    calls w' = [KeywordsCompletion (text message); SentimentCompletion (text message)].
Proof.
  intros message w.
  destruct (analyzeTrend_gates_token_suggestion message w)
    as (ta & w' & Hrun & _ & Hclosed & _).
  assert (Hs : js_gt (Sentiment.score (sentiment ta)) (Num 0.6) = false).
  { pose proof Hrun as E. vm_compute in E. injection E as <- _. reflexivity. }
  destruct (Hclosed (or_introl Hs)) as (Hnone & Hcalls & _).
  exists ta, w'. repeat split; assumption.
Defined.

(** The symbol "AB" and the word "SCAM" in the name are both refused
    before any collaborator is called; the concept "WAGMI" goes on to the
    chain client. *)
Lemma createToken_validates_before_mint_witness :
  let config := exampleConfig 10 in
  let w := freshWorld (exampleEnv (fun _ => 1000) modelDown postedThenFailing) in
  js_lt (sentimentScore (metadata (exampleCoin "Wagmi Coin" "AB")))
        (minSentimentScore config) = false /\
  (exists s,
     MemeCoinCreator.createToken config (exampleCoin "Wagmi Coin" "AB") w =
     (Return (TokenCreationResult.failure (Some (Msg s))), w)) /\
  (exists s,
     MemeCoinCreator.createToken config (exampleCoin "Not a SCAM" "WAGMI") w =
     (Return (TokenCreationResult.failure (Some (Msg s))), w)) /\
  MemeCoinCreator.isValid
    (MemeCoinCreator.validateMemeCoinData config (exampleCoin "Wagmi Coin" "WAGMI")) = true /\
  calls (snd (MemeCoinCreator.createToken config (exampleCoin "Wagmi Coin" "WAGMI") w)) =
    [SplCreateMint; CreateTokenWithBondingCurve (str "WAGMI") (Num 1000000000) (Num 1)].
Proof.
  intros config w. split; [reflexivity |]. split; [| split; [| split]].
  - destruct (createToken_validates_before_mint config (exampleCoin "Wagmi Coin" "AB") w eq_refl)
      as (Hreject & _).
    apply Hreject. right. right. left. reflexivity.
  - destruct (createToken_validates_before_mint config (exampleCoin "Not a SCAM" "WAGMI") w eq_refl)
      as (Hreject & _).
    apply Hreject. right. right. right. right.
    exists (str "scam"), (str "Not a SCAM"). split; [left; reflexivity |].
    split; [left; reflexivity |]. reflexivity.
  - destruct (createToken_validates_before_mint config (exampleCoin "Wagmi Coin" "WAGMI") w eq_refl)
      as (_ & Hcalled & _).
    apply (Hcalled (fst (MemeCoinCreator.createToken config (exampleCoin "Wagmi Coin" "WAGMI") w))
                   (snd (MemeCoinCreator.createToken config (exampleCoin "Wagmi Coin" "WAGMI") w))).
    + reflexivity.
    + vm_compute. discriminate.
  - reflexivity.
Defined.

(** A message without a views count, and one with views = 0: the rate is
    0 and 'High engagement rate' is not among the factors. *)
Lemma engagementRate_guards_zero_views_witness :
  let absent := {| likes := Num 150; retweets := Num 45; replies := Num 23; views := None |} in
  let zero := {| likes := Num 150; retweets := Num 45; replies := Num 23;
                 views := Some (Num 0) |} in
  let w := freshWorld (exampleEnv (fun _ => 1000) modelDown postedThenFailing) in
  (exists r w',
     SentimentAnalyzer.analyzeViralPotential
       (exampleMessage "1" "alice" scenarioText absent) w = (Return r, w') /\
     ~ In (str "High engagement rate") (Viral.factors r)) /\
  (SentimentAnalyzer.engagementRate zero = Num 0 /\
   exists r w',
     SentimentAnalyzer.analyzeViralPotential
       (exampleMessage "1" "alice" scenarioText zero) w = (Return r, w') /\
     ~ In (str "High engagement rate") (Viral.factors r)).
Proof.
  intros absent zero w. split.
  - destruct (engagementRate_guards_zero_views
                (exampleMessage "1" "alice" scenarioText absent) w) as (_ & Hzero).
    destruct Hzero as (_ & _ & _ & _ & Hrun); [left; reflexivity | exact Hrun].
  - destruct (engagementRate_guards_zero_views
                (exampleMessage "1" "alice" scenarioText zero) w) as (_ & Hzero).
    destruct Hzero as (Hrate & _ & _ & _ & Hrun).
    + right. exists 0%Q. split; reflexivity.
    + split; [exact Hrate | exact Hrun].
Defined.

(** * Further properties *)

(** ** MessageReplyHandler: cooldown, statistics, formatting *)

(** hasRecentReply answers true exactly when a reply to the user is on
    record with a timestamp other than 0 and less than an hour old. *)
Lemma hasRecentReply_spec (userId : jsstring) (w : World) :
  exists b w',
    MessageReplyHandler.hasRecentReply userId w = (Return b, w') /\
    calls w' = calls w /\
    (b = true <->
     exists t, replyHistory w !! userId = Some t /\ t <> 0 /\
               clock (env w) (tick w) - t < HOUR).
Proof.
  unfold MessageReplyHandler.hasRecentReply. run.
  destruct (replyHistory w !! userId) as [t |]; simpl.
  - destruct (Z.eqb_spec t 0) as [-> | Hne]; simpl.
    + eexists _, _. repeat split; try discriminate.
      intros (t & [= <-] & Hne & _). now contradiction Hne.
    + eexists _, _. split; [reflexivity |]. split; [reflexivity |]. simpl. split.
      * intros Hb. apply Z.ltb_lt in Hb. eauto.
      * intros (t' & [= <-] & _ & Hlt). now apply Z.ltb_lt.
  - eexists _, _. repeat split; try discriminate.
    intros (t & Hsome & _). discriminate Hsome.
Qed.

(** X1. After updateReplyTracking(u) has recorded the time t, the next
    hasRecentReply(u) is true exactly while less than an hour has passed
    since t, provided t is not 0; a reply recorded at time 0 is not seen
    at all. The record of any other user is as before. *)
Theorem cooldown_after_recorded_reply (userId : jsstring) (w : World) :
  let t := clock (env w) (tick w) in
  let w1 := snd (MessageReplyHandler.updateReplyTracking userId w) in
  replyHistory w1 !! userId = Some t /\
  (forall other, other <> userId -> replyHistory w1 !! other = replyHistory w !! other) /\
  (t <> 0 ->
     fst (MessageReplyHandler.hasRecentReply userId w1) =
     Return (Z.ltb (clock (env w1) (tick w1) - t) HOUR)) /\
  (t = 0 -> fst (MessageReplyHandler.hasRecentReply userId w1) = Return false).
Proof.
  intros t w1. unfold w1. rewrite updateReplyTracking_run. simpl snd.
  split; [apply lookup_insert_eq |]. split.
  { intros other Hne. simpl. now apply lookup_insert_ne. }
  unfold MessageReplyHandler.hasRecentReply. run.
  rewrite lookup_insert_eq. fold t. split.
  - intros Hne. destruct (Z.eqb_spec t 0); [contradiction | reflexivity].
  - intros ->. reflexivity.
Qed.

(** X2. A reply to an author who was replied to less than an hour ago (by
    every reading of the clock the call may take) is not sent: replyToTweet
    reports a failure, 'Rate limit exceeded' or 'Recent reply to this
    user', echoes the content it was given, and the platform is not
    called. *)
Theorem replyToTweet_refuses_recent_author
  (config : SDKConfig) (message : TwitterMessage) (replyContent : jsstring)
  (w : World) (t : Z) :
  replyHistory w !! authorId message = Some t ->
  t <> 0 ->
  (forall k, clock (env w) k - t < HOUR) ->
  exists r w',
    MessageReplyHandler.replyToTweet config message replyContent w = (Return r, w') /\
    success r = false /\
    content r = replyContent /\
    (error r = Some (str "Rate limit exceeded") \/
     error r = Some (str "Recent reply to this user")) /\
    calls w' = calls w /\
    replyHistory w' = replyHistory w.
Proof.
  intros Hsome Hne Hrecent.
  unfold MessageReplyHandler.replyToTweet, try_catch, bind.
  destruct (canReply_run config w) as (w1 & Hcan & Hh1 & Hc1).
  assert (Hw1 : env w1 = env w /\ calls w1 = calls w).
  { destruct (Z.ltb_spec HOUR (clock (env w) (tick w) - lastHourReset w)) as [Hout | Hin].
    - rewrite canReply_elapsed in Hcan by assumption. injection Hcan as _ <-. split; reflexivity.
    - rewrite canReply_within in Hcan by assumption. injection Hcan as _ <-. split; reflexivity. }
  destruct Hw1 as [He1 Hk1]. rewrite Hcan.
  destruct (Z.ltb (countAfterCheck w) (maxRepliesPerHour config)); simpl.
  2: { eexists _, _. split; [reflexivity |]. simpl. repeat split; auto. }
  destruct (hasRecentReply_spec (authorId message) w1) as (b & w2 & Hrun & Hk2 & Hb).
  assert (Hh2 : replyHistory w2 = replyHistory w1).
  { destruct (hasRecentReply_run (authorId message) w1) as (b' & w2' & Hrun' & Hkept & _).
    rewrite Hrun in Hrun'. now injection Hrun' as _ <-. }
  rewrite Hrun.
  assert (b = true) as ->.
  { apply Hb. exists t. rewrite Hh1, He1. auto. }
  eexists _, _. split; [reflexivity |]. simpl.
  repeat split; auto; congruence.
Qed.

(** X3. getStats reads the hourly count before it calls canReply. Inside
    the window the two agree and nothing is changed. Once the window has
    elapsed, getStats reports the old count next to the canReply of a
    fresh window, and leaves the counter reset to 0: asking for the
    statistics changes them. *)
Theorem getStats_reads_before_reset (config : SDKConfig) (w : World) :
  exists s w',
    MessageReplyHandler.getStats config w = (Return s, w') /\
    MessageReplyHandler.Stats.hourlyReplies s = hourlyReplyCount w /\
    MessageReplyHandler.Stats.recentInteractions s = size (replyHistory w) /\
    (clock (env w) (tick w) - lastHourReset w <= HOUR ->
       MessageReplyHandler.Stats.canReply s =
         Z.ltb (MessageReplyHandler.Stats.hourlyReplies s) (maxRepliesPerHour config) /\
       hourlyReplyCount w' = hourlyReplyCount w /\
       lastHourReset w' = lastHourReset w) /\
    (HOUR < clock (env w) (tick w) - lastHourReset w ->
       MessageReplyHandler.Stats.canReply s = Z.ltb 0 (maxRepliesPerHour config) /\
       hourlyReplyCount w' = 0 /\
       lastHourReset w' = clock (env w) (S (tick w))).
Proof.
  unfold MessageReplyHandler.getStats, bind, get, ret.
  destruct (Z.le_gt_cases (clock (env w) (tick w) - lastHourReset w) HOUR) as [Hin | Hout].
  - rewrite canReply_within by assumption.
    eexists _, _. split; [reflexivity |]. simpl. repeat split; auto; lia.
  - rewrite canReply_elapsed by lia.
    eexists _, _. split; [reflexivity |]. simpl. repeat split; auto; lia.
Qed.

Lemma startsWith_prefix (p rest : jsstring) : startsWith (p ++ rest) p = true.
Proof.
  induction p as [| c p IH]; simpl.
  - destruct rest; reflexivity.
  - now rewrite N.eqb_refl, IH.
Qed.

(** X4. Whatever the content, the formatted reply has at most 280 code
    units. When the mention had to be added and "@username " fits in 277
    units, the reply begins with it, also after truncation. *)
Theorem formatReply_bound_and_address (message : TwitterMessage) (content : jsstring) :
  let mention := str "@" ++ authorUsername message in
  (length (MessageReplyHandler.formatReply message content) <= 280)%nat /\
  (includes content mention = false ->
   (length (mention ++ str " ") <= 277)%nat ->
   startsWith (MessageReplyHandler.formatReply message content) (mention ++ str " ") = true).
Proof.
  intros mention. unfold MessageReplyHandler.formatReply. fold mention. split.
  - destruct (Nat.ltb_spec 280 (length (if negb (includes content mention)
                                         then mention ++ str " " ++ content else content)))
      as [Hlong | Hshort]; [| exact Hshort].
    unfold substring0. rewrite length_app, length_take_le by lia. simpl. lia.
  - intros Hno Hfit. rewrite Hno. simpl negb. cbv iota.
    replace (mention ++ str " " ++ content) with ((mention ++ str " ") ++ content)
      by now rewrite <- app_assoc.
    destruct (Nat.ltb 280 (length ((mention ++ str " ") ++ content))).
    + unfold substring0. rewrite take_app_ge by lia.
      rewrite <- app_assoc. apply startsWith_prefix.
    + apply startsWith_prefix.
Qed.

(** ** MemeCoinCreator and SolanaManager: the way to the chain *)

Lemma upper_of_capitals (s : jsstring) :
  forallb (fun c => N.leb 65 c && N.leb c 90) s = true -> toUpperCase s = s.
Proof.
  induction s as [| c s IH]; simpl; [reflexivity |].
  intros H. apply andb_true_iff in H as [Hc Hs].
  rewrite (IH Hs). f_equal. unfold upper_unit.
  apply andb_true_iff in Hc as [Ha Hz]. apply N.leb_le in Ha, Hz.
  destruct (N.leb_spec 97 c); [lia | reflexivity].
Qed.

(** A symbol that passed the format check goes through the sanitising
    [toUpperCase().substring(0, 6)] unchanged. *)
Lemma sanitized_symbol_id (symbol : jsstring) :
  MemeCoinCreator.symbolFormat symbol = true ->
  substring0 6 (toUpperCase symbol) = symbol.
Proof.
  unfold MemeCoinCreator.symbolFormat. intros H.
  apply andb_true_iff in H as [H Hcap]. apply andb_true_iff in H as [_ Hlen].
  apply Nat.leb_le in Hlen. rewrite (upper_of_capitals _ Hcap).
  unfold substring0. apply take_ge. lia.
Qed.

(** X5. createToken never throws. Data that the validation refuses give
    {success: false} with nothing called and nothing changed. For data
    that pass it, with a name, a description and a tweet text of ASCII
    characters, the first call is createTokenWithBondingCurve with the
    validated symbol itself, the configured supply and the configured
    initial buy. Without a payer that call throws before it reaches the
    chain, and createToken turns the exception into {success: false,
    error: 'No payer configured for token creation'}; with a payer a
    success carries a token address and the transactionId 'pending', and
    a failure carries the message of an error. *)
Theorem createToken_never_throws (config : SDKConfig) (data : MemeCoinData) (w : World) :
  let request := CreateTokenWithBondingCurve (symbol data) (maxSupply config)
                                             (initialLiquidity config) in
  exists r w',
    MemeCoinCreator.createToken config data w = (Return r, w') /\
    (MemeCoinCreator.isValid (MemeCoinCreator.validateMemeCoinData config data) = false ->
       TokenCreationResult.success r = false /\ w' = w) /\
    (MemeCoinCreator.isValid (MemeCoinCreator.validateMemeCoinData config data) = true ->
     ascii (name data) -> ascii (description data) ->
     ascii (text (twitterContext (metadata data))) ->
       (exists chain, calls w' = chain ++ request :: calls w) /\
       (payer w = false ->
          r = TokenCreationResult.failure
                (Some (Msg (str "No payer configured for token creation"))) /\
          calls w' = request :: calls w) /\
       (payer w = true ->
          (TokenCreationResult.success r = true ->
             TokenCreationResult.transactionId r = Some (str "pending") /\
             exists mint, TokenCreationResult.tokenAddress r = Some mint) /\
          (TokenCreationResult.success r = false ->
             exists e, TokenCreationResult.error r = Some (Msg e)))).
Proof.
  intros request.
  destruct (MemeCoinCreator.isValid (MemeCoinCreator.validateMemeCoinData config data))
    eqn:Hvalid.
  2: { rewrite createToken_invalid by assumption. eexists _, _.
       split; [reflexivity |]. repeat split; discriminate. }
  assert (Hsym : substring0 6 (toUpperCase (symbol data)) = symbol data).
  { apply sanitized_symbol_id.
    unfold MemeCoinCreator.validateMemeCoinData in Hvalid.
    destruct (js_lt _ _); [discriminate |].
    destruct (_ || _); [discriminate |].
    destruct (MemeCoinCreator.symbolFormat (symbol data)); [reflexivity | discriminate]. }
  unfold MemeCoinCreator.createToken, SolanaManager.createTokenWithBondingCurve.
  rewrite Hvalid, Hsym. run. fold request.
  destruct (payer w) eqn:Hpayer; simpl.
  - destruct (spl_mint (env w) (S (tick w))) as [[mint curve] | e] eqn:Hmint; simpl;
      (eexists _, _; split; [reflexivity |]; simpl;
       split; [discriminate |]; intros _ _ _ _;
       split; [exists [SplCreateMint]; reflexivity |];
       split; [discriminate |]; intros _;
       split; [intros H | intros H]; try discriminate H; eauto).
  - eexists _, _. split; [reflexivity |]. simpl.
    split; [discriminate |]. intros _ _ _ _.
    split; [exists []; reflexivity |]. split; [split; reflexivity | discriminate].
Qed.

Lemma variant_refused (base : jsstring) (i : nat) :
  MemeCoinCreator.isTokenSymbolAvailable (base ++ MemeCoinCreator.pad2 i) = false.
Proof.
  unfold MemeCoinCreator.isTokenSymbolAvailable, MemeCoinCreator.symbolFormat.
  apply andb_false_iff. right. rewrite forallb_app. apply andb_false_iff. right.
  unfold MemeCoinCreator.pad2. cbn [forallb].
  assert (H : (i mod 10 < 10)%nat) by (apply Nat.mod_upper_bound; discriminate).
  assert (Hlow : N.leb 65 (48 + N.of_nat (i mod 10)) = false) by (apply N.leb_gt; lia).
  rewrite Hlow. cbn [andb]. apply andb_false_r.
Qed.

Lemma suggestLoop_nothing (base : jsstring) (count : Z) (remaining i : nat) :
  MemeCoinCreator.suggestLoop base count remaining i [] = [].
Proof.
  revert i. induction remaining as [| n IH]; intros i; simpl; [reflexivity |].
  destruct (_ && Nat.leb i 99); [| reflexivity].
  rewrite variant_refused, andb_false_r. apply IH.
Qed.

(** X6. suggestTokenSymbols suggests nothing, whatever the base name and
    the count: every candidate ends in two digits, and the availability
    check accepts capital letters only. *)
Theorem suggestTokenSymbols_empty (upper : jsstring -> jsstring)
  (baseName : jsstring) (count : Z) :
  MemeCoinCreator.suggestTokenSymbols upper baseName count = [].
Proof. unfold MemeCoinCreator.suggestTokenSymbols. apply suggestLoop_nothing. Qed.

(** ** MessageReplyHandler: a platform client that is not initialised *)

Lemma canReply_client (config : SDKConfig) (w : World) :
  exists ok w1,
    MessageReplyHandler.canReply config w = (Return ok, w1) /\
    client w1 = client w /\ calls w1 = calls w /\ replyHistory w1 = replyHistory w.
Proof.
  destruct (Z.ltb_spec HOUR (clock (env w) (tick w) - lastHourReset w)) as [Hout | Hin].
  - rewrite canReply_elapsed by assumption. eexists _, _. repeat split.
  - rewrite canReply_within by assumption. eexists _, _. repeat split.
Qed.

Lemma hasRecentReply_client (userId : jsstring) (w : World) :
  exists recent w1,
    MessageReplyHandler.hasRecentReply userId w = (Return recent, w1) /\
    client w1 = client w /\ calls w1 = calls w /\ replyHistory w1 = replyHistory w.
Proof.
  unfold MessageReplyHandler.hasRecentReply. run.
  destruct (replyHistory w !! userId) as [lastReply |]; simpl.
  - destruct (Z.eqb lastReply 0); simpl; eexists _, _; repeat split.
  - eexists _, _; repeat split.
Qed.

(** X7. With the platform client not initialised, replyToTweet does not
    throw: it reports a failure with the content it was given, the error
    being the rate limit, the recent reply, or 'Twitter client not
    initialized', and the platform is never asked to post. *)
Theorem replyToTweet_without_client
  (config : SDKConfig) (message : TwitterMessage) (replyContent : jsstring) (w : World) :
  client w = false ->
  exists r w',
    MessageReplyHandler.replyToTweet config message replyContent w = (Return r, w') /\
    success r = false /\
    replyId r = None /\
    content r = replyContent /\
    (error r = Some (str "Rate limit exceeded") \/
     error r = Some (str "Recent reply to this user") \/
     error r = Some (str "Twitter client not initialized")) /\
    (calls w' = calls w \/
     calls w' = BotReplyToTweet (tweetId message)
                  (MessageReplyHandler.formatReply message replyContent) :: calls w) /\
    replyHistory w' = replyHistory w.
Proof.
  intros Hclient.
  unfold MessageReplyHandler.replyToTweet, try_catch, bind.
  destruct (canReply_client config w) as (ok & w1 & -> & Hc1 & Hk1 & Hh1).
  destruct ok; cbn [negb].
  2: { eexists _, _. split; [reflexivity |]. simpl.
       split; [reflexivity |]. split; [reflexivity |]. split; [reflexivity |].
       split; [auto |]. split; [left; congruence | congruence]. }
  destruct (hasRecentReply_client (authorId message) w1)
    as (recent & w2 & -> & Hc2 & Hk2 & Hh2).
  destruct recent.
  { eexists _, _. split; [reflexivity |]. simpl.
    split; [reflexivity |]. split; [reflexivity |]. split; [reflexivity |].
    split; [auto |]. split; [left; congruence | congruence]. }
  unfold TwitterBot.replyToTweet, bind, modify, get. cbn [client record_call].
  rewrite Hc2, Hc1, Hclient. cbn [negb]. unfold throw, ret.
  eexists _, _. split; [reflexivity |]. simpl.
  split; [reflexivity |]. split; [reflexivity |]. split; [reflexivity |].
  split; [auto |]. split; [right; congruence | congruence].
Qed.

(** ** helpers.ts: truncation, chunks, duplicates *)

(** X8. truncateString returns a string that fits as it is. A longer one
    is cut to exactly maxLength units, the last three being "...",
    provided maxLength is at least 3; for a smaller maxLength the result is
    the bare "...", three units, which is longer than asked for. *)
Theorem truncateString_length (s : jsstring) (maxLength : Z) :
  (Z.of_nat (length s) <= maxLength -> Helpers.truncateString s maxLength = s) /\
  (maxLength < Z.of_nat (length s) -> 3 <= maxLength ->
     Helpers.truncateString s maxLength = take (Z.to_nat (maxLength - 3)) s ++ str "..." /\
     Z.of_nat (length (Helpers.truncateString s maxLength)) = maxLength) /\
  (maxLength < Z.of_nat (length s) -> maxLength < 3 ->
     Helpers.truncateString s maxLength = str "..." /\
     maxLength < Z.of_nat (length (Helpers.truncateString s maxLength))).
Proof.
  unfold Helpers.truncateString, substringTo. repeat split.
  - intros H. apply Z.leb_le in H. now rewrite H.
  - destruct (Z.leb_spec (Z.of_nat (length s)) maxLength); [lia | reflexivity].
  - destruct (Z.leb_spec (Z.of_nat (length s)) maxLength); [lia |].
    rewrite length_app, length_take_le by lia. simpl. lia.
  - destruct (Z.leb_spec (Z.of_nat (length s)) maxLength); [lia |].
    replace (Z.to_nat (maxLength - 3)) with 0%nat by lia. reflexivity.
  - destruct (Z.leb_spec (Z.of_nat (length s)) maxLength); [lia |].
    replace (Z.to_nat (maxLength - 3)) with 0%nat by lia. simpl. lia.
Qed.

Lemma slice_chunk {A} (array : list A) (size i : Z) :
  0 <= i < Z.of_nat (length array) -> 1 <= size ->
  slice array i (i + size) = take (Z.to_nat size) (drop (Z.to_nat i) array).
Proof.
  intros Hi Hsize. unfold slice, relativeIndex.
  destruct (Z.ltb_spec i 0); [lia |]. destruct (Z.ltb_spec (i + size) 0); [lia |].
  replace (Nat.min (Z.to_nat i) (length array)) with (Z.to_nat i) by lia.
  destruct (Nat.le_gt_cases (Z.to_nat (i + size)) (length array)) as [Hfit | Hover].
  - rewrite Nat.min_l by assumption. f_equal. lia.
  - rewrite Nat.min_r by lia.
    rewrite (take_ge _ (Z.to_nat size)) by (rewrite length_drop; lia).
    apply take_ge. rewrite length_drop. lia.
Qed.

(** The loop from position [i] on: it ends, and what it adds are the
    pieces of the rest of the array. *)
Lemma chunkLoop_spec {A} (iterations : nat) (array : list A) (size i : Z)
  (chunks : list (list A)) :
  1 <= size -> 0 <= i ->
  (length array - Z.to_nat i < iterations)%nat \/ Z.of_nat (length array) <= i ->
  exists added,
    Helpers.chunkLoop iterations array size i chunks = Some (chunks ++ added) /\
    concat added = drop (Z.to_nat i) array /\
    Forall (fun chunk => (1 <= length chunk)%nat /\ Z.of_nat (length chunk) <= size) added /\
    (forall k chunk, added !! k = Some chunk -> (S k < length added)%nat ->
                     Z.of_nat (length chunk) = size).
Proof.
  intros Hsize. revert i chunks.
  induction iterations as [| n IH]; intros i chunks Hi Hfuel.
  - assert (Hend : Z.of_nat (length array) <= i) by lia.
    exists []. simpl. destruct (Z.ltb_spec i (Z.of_nat (length array))); [lia |].
    rewrite app_nil_r, drop_ge by lia. repeat split; auto. intros k chunk Hk. discriminate Hk.
  - simpl. destruct (Z.ltb_spec i (Z.of_nat (length array))) as [Hin | Hend].
    + destruct (IH (i + size) (chunks ++ [slice array i (i + size)])) as
        (added & Hrun & Hconcat & Hall & Hfull); [lia | lia |].
      exists (slice array i (i + size) :: added).
      rewrite Hrun, <- app_assoc. split; [reflexivity |].
      rewrite slice_chunk in * by lia.
      assert (Hlen : length (take (Z.to_nat size) (drop (Z.to_nat i) array)) =
                     Nat.min (Z.to_nat size) (length array - Z.to_nat i)).
      { rewrite length_take, length_drop. reflexivity. }
      split; [| split].
      * simpl. rewrite Hconcat.
        replace (Z.to_nat (i + size)) with (Z.to_nat i + Z.to_nat size)%nat by lia.
        rewrite <- drop_drop. apply take_drop.
      * constructor; [| assumption]. rewrite Hlen. lia.
      * intros [| k] chunk Hk Hnext; simpl in *.
        -- injection Hk as <-. rewrite Hlen.
           destruct added as [| next added']; [simpl in Hnext; lia |].
           assert (Hnonempty : drop (Z.to_nat (i + size)) array <> []).
           { rewrite <- Hconcat. inversion Hall as [| ? ? [Hpos _] _]; subst.
             destruct next; [simpl in Hpos; lia | discriminate]. }
           assert (Z.to_nat (i + size) < length array)%nat.
           { destruct (Nat.lt_ge_cases (Z.to_nat (i + size)) (length array)); [assumption |].
             rewrite drop_ge in Hnonempty by assumption. congruence. }
           lia.
        -- apply (Hfull k); [assumption | lia].
    + exists []. rewrite app_nil_r, drop_ge by lia.
      repeat split; auto. intros k chunk Hk. discriminate Hk.
Qed.

(** X9. For a size of at least 1, chunkArray ends within length + 1
    iterations; its chunks, put end to end, are the array; no chunk is
    empty or longer than the size, and every chunk but the last has
    exactly the size. *)
Theorem chunkArray_partitions {A} (array : list A) (size : Z) :
  1 <= size ->
  exists chunks,
    Helpers.chunkArray (S (length array)) array size = Some chunks /\
    concat chunks = array /\
    Forall (fun chunk => (1 <= length chunk)%nat /\ Z.of_nat (length chunk) <= size) chunks /\
    (forall k chunk, chunks !! k = Some chunk -> (S k < length chunks)%nat ->
                     Z.of_nat (length chunk) = size).
Proof.
  intros Hsize.
  destruct (chunkLoop_spec (S (length array)) array size 0 [] Hsize) as
    (added & Hrun & Hconcat & Hall & Hfull); [lia | left; simpl; lia |].
  exists added. unfold Helpers.chunkArray. rewrite Hrun. repeat split; auto.
Qed.

Lemma chunkLoop_stuck {A} (iterations : nat) (array : list A) (size i : Z)
  (chunks : list (list A)) :
  array <> [] -> size <= 0 -> i <= 0 ->
  Helpers.chunkLoop iterations array size i chunks = None.
Proof.
  intros Hne Hsize. revert i chunks.
  assert (Hlen : 0 < Z.of_nat (length array)) by (destruct array; [congruence | simpl; lia]).
  induction iterations as [| n IH]; intros i chunks Hi; simpl;
    destruct (Z.ltb_spec i (Z.of_nat (length array))); try lia; [reflexivity |].
  apply IH. lia.
Qed.

(** X10. For a size of 0 or less and an array that is not empty, the loop
    of chunkArray never ends: no number of iterations brings it to a
    result. The empty array gives no chunk, whatever the size. *)
Theorem chunkArray_needs_positive_size {A} (array : list A) (size : Z) (iterations : nat) :
  (array <> [] -> size <= 0 -> Helpers.chunkArray iterations array size = None) /\
  Helpers.chunkArray iterations (@nil A) size = Some [].
Proof.
  split.
  - intros Hne Hsize. apply chunkLoop_stuck; [assumption | assumption | lia].
  - destruct iterations; reflexivity.
Qed.

Lemma keepFirst_spec {T K} `{EqDecision K} (keyFn : T -> K) (seen : list K) (array : list T) :
  let kept := Helpers.keepFirst keyFn seen array in
  NoDup (keyFn <$> kept) /\
  (forall k, k ∈ keyFn <$> kept -> k ∉ seen) /\
  (forall item, item ∈ array -> keyFn item ∈ seen \/ keyFn item ∈ keyFn <$> kept) /\
  kept `sublist_of` array.
Proof.
  revert seen. induction array as [| item rest IH]; intros seen; simpl.
  - repeat split; [constructor | intros k Hk; inversion Hk | intros item Hin; inversion Hin
                  | constructor].
  - destruct (IH seen) as (Hnd & Hfresh & Hcover & Hsub).
    destruct (IH (keyFn item :: seen)) as (Hnd' & Hfresh' & Hcover' & Hsub').
    case_bool_decide as Hseen.
    + repeat split; auto.
      * intros x Hx. apply elem_of_cons in Hx as [-> | Hx]; auto.
      * now apply sublist_cons.
    + simpl. repeat split.
      * constructor; [| assumption]. intros Hin. apply Hfresh' in Hin.
        apply Hin. now left.
      * intros k Hk. apply elem_of_cons in Hk as [-> | Hk]; [assumption |].
        intros Hin. apply (Hfresh' k Hk). now right.
      * intros x Hx. apply elem_of_cons in Hx as [-> | Hx].
        -- right. now left.
        -- destruct (Hcover' x Hx) as [Hin | Hin].
           ++ apply elem_of_cons in Hin as [-> | Hin]; [right; now left | now left].
           ++ right. now right.
      * now apply sublist_skip.
Qed.

Lemma keepFirst_distinct {T K} `{EqDecision K} (keyFn : T -> K) (seen : list K)
  (array : list T) :
  NoDup (keyFn <$> array) -> (forall item, item ∈ array -> keyFn item ∉ seen) ->
  Helpers.keepFirst keyFn seen array = array.
Proof.
  revert seen. induction array as [| item rest IH]; intros seen Hnd Hfresh; simpl;
    [reflexivity |].
  simpl in Hnd. apply NoDup_cons in Hnd as [Hhead Hnd].
  rewrite bool_decide_eq_false_2 by (apply Hfresh; now left).
  f_equal. apply IH; [assumption |].
  intros x Hx Hin. apply elem_of_cons in Hin as [Heq | Hin].
  - apply Hhead. rewrite <- Heq. now apply list_elem_of_fmap_2.
  - apply (Hfresh x); [now right | assumption].
Qed.

(** X11. removeDuplicates with a key function keeps a subsequence of the
    array, in the order of the array, in which no key occurs twice and
    every key of the array occurs; an array without repeated keys is
    returned as it is, so removing duplicates a second time changes
    nothing. *)
Theorem removeDuplicatesBy_spec {T K} `{EqDecision K} (keyFn : T -> K) (array : list T) :
  let kept := Helpers.removeDuplicatesBy keyFn array in
  NoDup (keyFn <$> kept) /\
  kept `sublist_of` array /\
  (forall item, item ∈ array -> keyFn item ∈ keyFn <$> kept) /\
  (NoDup (keyFn <$> array) -> kept = array) /\
  Helpers.removeDuplicatesBy keyFn kept = kept.
Proof.
  unfold Helpers.removeDuplicatesBy.
  destruct (keepFirst_spec keyFn [] array) as (Hnd & _ & Hcover & Hsub).
  cbv zeta in *. repeat split; auto.
  - intros item Hin. destruct (Hcover item Hin) as [Hnil | Hk]; [inversion Hnil | assumption].
  - intros Hdistinct. apply keepFirst_distinct; [assumption |].
    intros item _ Hin. inversion Hin.
  - apply keepFirst_distinct; [assumption |]. intros item _ Hin. inversion Hin.
Qed.

(** X12. removeDuplicates without a key function keeps the first
    occurrence of every element: the result has no repeated element, has
    the same elements as the array, and is a subsequence of it. *)
Theorem removeDuplicates_spec {T} `{EqDecision T} (array : list T) :
  let kept := Helpers.removeDuplicates array in
  NoDup kept /\
  kept `sublist_of` array /\
  (forall item, item ∈ kept <-> item ∈ array).
Proof.
  unfold Helpers.removeDuplicates.
  destruct (keepFirst_spec (fun item : T => item) [] array) as (Hnd & _ & Hcover & Hsub).
  cbv zeta in *. rewrite list_fmap_id in *. repeat split; auto.
  - intros Hin. eapply elem_of_sublist; eassumption.
  - intros Hin. destruct (Hcover item Hin) as [Hnil | Hk]; [inversion Hnil |].
    exact Hk.
Qed.

(** ** helpers.ts: token names *)

Lemma startsWith_nil (s : jsstring) : startsWith s [] = true.
Proof. destruct s; reflexivity. Qed.

Lemma includes_app_false (a b sub : jsstring) :
  includes (a ++ b) sub = false -> includes a sub = false /\ includes b sub = false.
Proof.
  intros H. split.
  - destruct (includes a sub) eqn:E; [| reflexivity].
    apply (includes_app_l a b) in E. congruence.
  - destruct (includes b sub) eqn:E; [| reflexivity].
    apply (includes_app_r a b) in E. congruence.
Qed.

Lemma trimStart_suffix (s : jsstring) : exists before, s = before ++ Helpers.trimStart s.
Proof.
  induction s as [| c s [before IH]]; simpl.
  - now exists [].
  - destruct (Helpers.isSpace c).
    + exists (c :: before). simpl. now rewrite <- IH.
    + now exists [].
Qed.

Lemma trimEnd_prefix (s : jsstring) : exists after, s = Helpers.trimEnd s ++ after.
Proof.
  induction s as [| c s [after IH]]; simpl.
  - now exists [].
  - destruct (Helpers.trimEnd s) as [| d kept] eqn:E.
    + destruct (Helpers.isSpace c).
      * exists (c :: s). reflexivity.
      * exists after. simpl in *. now rewrite <- IH.
    + exists after. simpl in *. now rewrite <- IH.
Qed.

(** The trimmed string is a piece of the string. *)
Lemma trim_piece (s : jsstring) : exists before after, s = before ++ Helpers.trim s ++ after.
Proof.
  destruct (trimStart_suffix s) as [before Hb].
  destruct (trimEnd_prefix (Helpers.trimStart s)) as [after Ha].
  exists before, after. unfold Helpers.trim. now rewrite <- Ha.
Qed.

Lemma length_collapseRuns (inRun : bool) (s : jsstring) :
  (length (Helpers.collapseRuns inRun s) <= length s)%nat.
Proof.
  revert inRun. induction s as [| c s IH]; intros inRun; simpl; [lia |].
  pose proof (IH true). pose proof (IH false).
  destruct (Helpers.isSpace c); [destruct inRun |]; simpl; lia.
Qed.

Lemma length_List_filter (p : N -> bool) (s : jsstring) :
  (length (List.filter p s) <= length s)%nat.
Proof. induction s as [| c s IH]; simpl; [lia |]. destruct (p c); simpl; lia. Qed.

Lemma Forall_List_filter (p : N -> bool) (s : jsstring) :
  Forall (fun c => p c = true) (List.filter p s).
Proof.
  induction s as [| c s IH]; simpl; [constructor |].
  destruct (p c) eqn:E; [constructor |]; assumption.
Qed.

Lemma List_filter_none (p : N -> bool) (s : jsstring) :
  Forall (fun c => p c = false) s -> List.filter p s = [].
Proof.
  induction s as [| c s IH]; intros Hall; [reflexivity |].
  apply Forall_cons in Hall as [Hc Hall]. simpl. rewrite Hc. now apply IH.
Qed.

Lemma space_is_space : Helpers.isSpace 32 = true.
Proof. reflexivity. Qed.

Lemma collapseRuns_characters (inRun : bool) (s : jsstring) :
  Forall (fun c => Helpers.nameCharacter c = true) s ->
  Forall (fun c => Helpers.isWord c = true \/ c = 32%N \/ c = 45%N)
         (Helpers.collapseRuns inRun s).
Proof.
  revert inRun. induction s as [| c s IH]; intros inRun Hall; simpl; [constructor |].
  apply Forall_cons in Hall as [Hc Hall].
  destruct (Helpers.isSpace c) eqn:Hsp.
  - destruct inRun; [now apply IH |]. constructor; [auto | now apply IH].
  - constructor; [| now apply IH].
    unfold Helpers.nameCharacter in Hc. rewrite Hsp, orb_false_r in Hc.
    apply orb_true_iff in Hc as [Hw | Hh]; [now left |].
    right. right. now apply N.eqb_eq.
Qed.

(** After collapsing, no two spaces stand side by side, and a string
    collapsed inside a run does not begin with a space. *)
Lemma collapseRuns_single (inRun : bool) (s : jsstring) :
  includes (Helpers.collapseRuns inRun s) [32; 32]%N = false /\
  (inRun = true -> startsWith (Helpers.collapseRuns inRun s) [32]%N = false).
Proof.
  revert inRun. induction s as [| c s IH]; intros inRun; cbn [Helpers.collapseRuns].
  - split; [reflexivity | intros _; reflexivity].
  - destruct (Helpers.isSpace c) eqn:Hsp.
    + destruct inRun.
      * apply IH.
      * destruct (IH true) as [Hin Hhead]. split; [| discriminate].
        cbn [includes startsWith]. rewrite Hin, orb_false_r, N.eqb_refl.
        apply (Hhead eq_refl).
    + destruct (IH false) as [Hin _].
      assert (Hc : N.eqb 32 c = false).
      { apply N.eqb_neq. intros <-. rewrite space_is_space in Hsp. discriminate. }
      split.
      * cbn [includes startsWith]. rewrite Hc, Hin. reflexivity.
      * intros _. cbn [startsWith]. now rewrite Hc.
Qed.

(** X13. A formatted token name has at most 32 code units and is no
    longer than the name; it is made of letters, digits, underscores,
    hyphens and single spaces, never two spaces in a row. It may begin or
    end with a space, and it may be shorter than the 3 characters that
    validation asks of the name: a name made only of other characters,
    however long, formats to the empty string. *)
Theorem formatTokenName_shape (name : jsstring) :
  let formatted := Helpers.formatTokenName name in
  (length formatted <= 32)%nat /\
  (length formatted <= length name)%nat /\
  Forall (fun c => Helpers.isWord c = true \/ c = 32%N \/ c = 45%N) formatted /\
  includes formatted [32; 32]%N = false /\
  (Forall (fun c => Helpers.nameCharacter c = false) name -> formatted = []).
Proof.
  unfold Helpers.formatTokenName, Helpers.collapseSpaces, substring0.
  set (kept := List.filter Helpers.nameCharacter (Helpers.trim name)).
  destruct (trim_piece name) as (before & after & Hpiece).
  assert (Hlen : (length (Helpers.trim name) <= length name)%nat).
  { rewrite Hpiece at 2. rewrite !length_app. lia. }
  repeat split.
  - rewrite length_take. lia.
  - rewrite length_take.
    pose proof (length_collapseRuns false kept).
    pose proof (length_List_filter Helpers.nameCharacter (Helpers.trim name)).
    fold kept in H0. lia.
  - apply Forall_take, collapseRuns_characters, Forall_List_filter.
  - destruct (collapseRuns_single false kept) as [Hin _].
    rewrite <- (take_drop 32 (Helpers.collapseRuns false kept)) in Hin.
    now apply includes_app_false in Hin as [Hin _].
  - intros Hall.
    assert (Hkept : kept = []).
    { unfold kept. rewrite Hpiece in Hall.
      apply Forall_app in Hall as [_ Hall]. apply Forall_app in Hall as [Hall _].
      now apply List_filter_none. }
    rewrite Hkept. reflexivity.
Qed.

(** ** helpers.ts: sanitised content *)

Lemma lower_letter_match (p c : N) :
  (97 <= p <= 122)%N -> N.eqb (upper_unit p) (upper_unit c) = N.eqb p (lower_unit c).
Proof.
  intros Hp. unfold upper_unit, lower_unit.
  repeat match goal with
         | |- context [N.leb ?a ?b] => destruct (N.leb_spec a b)
         end; cbn [andb]; try lia;
  match goal with
  | |- N.eqb ?a ?b = N.eqb ?c ?d =>
      destruct (N.eqb_spec a b); destruct (N.eqb_spec c d); try reflexivity; lia
  end.
Qed.

Lemma matchesIgnoreCase_lower (word s : jsstring) :
  lowerLetters word ->
  Helpers.matchesIgnoreCase word s = startsWith (toLowerCase s) word.
Proof.
  revert s. induction word as [| p word IH]; intros s Hw.
  - simpl. now rewrite startsWith_nil.
  - apply Forall_cons in Hw as [Hp Hw]. destruct s as [| c s]; [reflexivity |].
    cbn [Helpers.matchesIgnoreCase toLowerCase map startsWith].
    rewrite lower_letter_match by assumption. f_equal. now apply IH.
Qed.

(** What follows a replacement text that opens with a bracket cannot
    complete a word of letters. *)
Lemma replaceLoop_head (matchLength : jsstring -> option nat) (text rest : jsstring)
  (steps : nat) (s w : jsstring) :
  text = 91%N :: rest -> lowerLetters w ->
  startsWith (toLowerCase (Helpers.replaceLoop matchLength text steps s)) w = true ->
  startsWith (toLowerCase s) w = true.
Proof.
  intros Htext. revert s w. induction steps as [| steps IH]; intros s w Hw; [trivial |].
  destruct s as [| c s]; [trivial |]. cbn [Helpers.replaceLoop].
  destruct w as [| x w]; [intros _; apply startsWith_nil |].
  apply Forall_cons in Hw as [Hx Hw].
  destruct (matchLength (c :: s)) as [n |].
  - rewrite Htext. cbn [app toLowerCase map startsWith]. intros H.
    apply andb_true_iff in H as [H _]. apply N.eqb_eq in H.
    unfold lower_unit in H. simpl in H. lia.
  - cbn [toLowerCase map startsWith]. intros H.
    apply andb_true_iff in H as [Hc H]. rewrite Hc. simpl.
    apply (IH s w Hw H).
Qed.

Lemma includes_tail_false (c : N) (s w : jsstring) :
  includes (c :: s) w = false -> includes s w = false.
Proof. cbn [includes]. intros H. now apply orb_false_iff in H as [_ H]. Qed.

Lemma absent_drop (w s : jsstring) (n : nat) : absent w s -> absent w (drop n s).
Proof.
  unfold absent. intros H. rewrite <- (take_drop n s) in H.
  unfold toLowerCase in *. rewrite map_app in H.
  now apply includes_app_false in H as [_ H].
Qed.

Lemma absent_take (w s : jsstring) (n : nat) : absent w s -> absent w (take n s).
Proof.
  unfold absent. intros H. rewrite <- (take_drop n s) in H.
  unfold toLowerCase in *. rewrite map_app in H.
  now apply includes_app_false in H as [H _].
Qed.

Lemma startsWith_includes (s w : jsstring) : startsWith s w = true -> includes s w = true.
Proof. intros H. destruct s; simpl in *; now rewrite H. Qed.

(** A replacement leaves absent a word that was absent, when the text put
    in opens with a bracket and hides the word. *)
Lemma replaceLoop_keeps_absent (matchLength : jsstring -> option nat) (text rest : jsstring)
  (steps : nat) (s w : jsstring) :
  text = 91%N :: rest -> lowerLetters w ->
  (forall after, includes (toLowerCase (text ++ after)) w = includes (toLowerCase after) w) ->
  absent w s -> absent w (Helpers.replaceLoop matchLength text steps s).
Proof.
  intros Htext Hw Hhide. revert s. induction steps as [| steps IH]; intros s Hs; [trivial |].
  destruct s as [| c s]; [trivial |].
  pose proof (replaceLoop_head matchLength text rest (S steps) (c :: s) w Htext Hw) as Hhead.
  cbn [Helpers.replaceLoop] in *.
  destruct (matchLength (c :: s)) as [n |].
  - unfold absent. rewrite Hhide. apply IH. now apply absent_drop.
  - unfold absent in *. cbn [toLowerCase map includes] in *.
    apply orb_false_iff in Hs as [Hs1 Hs2]. apply orb_false_iff. split.
    + apply not_true_is_false. intros E. apply Hhead in E. congruence.
    + now apply IH.
Qed.

(** A replacement of a word removes it. *)
Lemma replaceLoop_removes (text rest : jsstring) (steps : nat) (s word : jsstring) :
  text = 91%N :: rest -> lowerLetters word -> word <> [] ->
  (forall after, includes (toLowerCase (text ++ after)) word =
                 includes (toLowerCase after) word) ->
  (length s <= steps)%nat ->
  absent word (Helpers.replaceLoop (Helpers.wordIgnoreCase word) text steps s).
Proof.
  intros Htext Hw Hne Hhide. revert s. induction steps as [| steps IH]; intros s Hlen.
  - destruct s; [| simpl in Hlen; lia]. destruct word; [congruence | reflexivity].
  - destruct s as [| c s]; [destruct word; [congruence | reflexivity] |].
    pose proof (replaceLoop_head (Helpers.wordIgnoreCase word) text rest (S steps)
                  (c :: s) word Htext Hw) as Hhead.
    cbn [Helpers.replaceLoop] in *. unfold Helpers.wordIgnoreCase in *.
    rewrite matchesIgnoreCase_lower in * by assumption.
    destruct (startsWith (toLowerCase (c :: s)) word) eqn:Hmatch.
    + unfold absent. rewrite Hhide. apply IH.
      rewrite length_drop. simpl in Hlen. destruct word; [congruence | simpl; lia].
    + unfold absent. cbn [toLowerCase map includes].
      apply orb_false_iff. split.
      * apply not_true_is_false. intros E. apply Hhead in E. congruence.
      * apply IH. simpl in Hlen. lia.
Qed.

Lemma collapseRuns_head (s w : jsstring) :
  lowerLetters w ->
  startsWith (toLowerCase (Helpers.collapseRuns false s)) w = true ->
  startsWith (toLowerCase s) w = true.
Proof.
  revert w. induction s as [| c s IH]; intros w Hw; [trivial |].
  destruct w as [| x w]; [intros _; apply startsWith_nil |].
  apply Forall_cons in Hw as [Hx Hw]. cbn [Helpers.collapseRuns].
  destruct (Helpers.isSpace c).
  - cbn [toLowerCase map startsWith]. intros H.
    apply andb_true_iff in H as [H _]. apply N.eqb_eq in H.
    unfold lower_unit in H. simpl in H. lia.
  - cbn [toLowerCase map startsWith]. intros H.
    apply andb_true_iff in H as [Hc H]. rewrite Hc. simpl. now apply IH.
Qed.

Lemma collapseRuns_keeps_absent (inRun : bool) (s w : jsstring) :
  lowerLetters w -> w <> [] -> absent w s -> absent w (Helpers.collapseRuns inRun s).
Proof.
  intros Hw Hne. revert inRun. induction s as [| c s IH]; intros inRun Hs; [trivial |].
  pose proof (collapseRuns_head (c :: s) w Hw) as Hhead.
  pose proof (includes_tail_false _ _ _ Hs) as Htail.
  cbn [Helpers.collapseRuns] in *. destruct (Helpers.isSpace c).
  - destruct inRun; [now apply IH |].
    unfold absent. cbn [toLowerCase map includes]. apply orb_false_iff. split.
    + destruct w as [| x w]; [congruence |]. apply Forall_cons in Hw as [Hx _].
      cbn [startsWith]. apply andb_false_iff. left. apply N.eqb_neq.
      unfold lower_unit. simpl. lia.
    + now apply IH.
  - unfold absent in *. cbn [toLowerCase map includes] in *.
    apply orb_false_iff in Hs as [Hs1 _]. apply orb_false_iff. split.
    + apply not_true_is_false. intros E. apply Hhead in E. congruence.
    + now apply IH.
Qed.

Lemma trim_keeps_absent (w s : jsstring) : absent w s -> absent w (Helpers.trim s).
Proof.
  destruct (trim_piece s) as (before & after & Hpiece). unfold absent.
  rewrite Hpiece at 1. unfold toLowerCase. rewrite !map_app. intros H.
  apply includes_app_false in H as [_ H]. now apply includes_app_false in H as [H _].
Qed.

(** The banned words are words of letters, hidden by both replacement
    texts. *)
Lemma bannedWords_quiet (word : jsstring) :
  In word Helpers.bannedWords ->
  lowerLetters word /\ word <> [] /\
  (forall after, includes (toLowerCase (str "[REMOVED]" ++ after)) word =
                 includes (toLowerCase after) word) /\
  (forall after, includes (toLowerCase (str "[LONG_WORD]" ++ after)) word =
                 includes (toLowerCase after) word).
Proof.
  intros Hin. unfold Helpers.bannedWords in Hin.
  repeat (destruct Hin as [<- | Hin];
          [split; [unfold lowerLetters; cbv [str]; cbn;
                   repeat (apply Forall_cons; split; [lia |]); apply Forall_nil |];
           split; [discriminate |]; split; intros after; reflexivity |]).
  destruct Hin.
Qed.

Lemma removal_keeps_absent (words : list jsstring) (content w : jsstring) :
  (In w Helpers.bannedWords) -> absent w content ->
  absent w (fold_left (fun sanitized word =>
                         Helpers.replaceGlobal (Helpers.wordIgnoreCase word)
                           (str "[REMOVED]") sanitized) words content).
Proof.
  intros Hin. destruct (bannedWords_quiet w Hin) as (Hw & _ & Hhide & _).
  revert content. induction words as [| word words IH]; intros content Hc; [trivial |].
  cbn [fold_left]. apply IH. unfold Helpers.replaceGlobal.
  now apply (replaceLoop_keeps_absent _ _ (str "REMOVED]")).
Qed.

Lemma removal_removes (words : list jsstring) (content w : jsstring) :
  (forall word, In word words -> In word Helpers.bannedWords) -> In w words ->
  absent w (fold_left (fun sanitized word =>
                         Helpers.replaceGlobal (Helpers.wordIgnoreCase word)
                           (str "[REMOVED]") sanitized) words content).
Proof.
  revert content. induction words as [| word words IH]; intros content Hall Hin.
  - destruct Hin.
  - cbn [fold_left]. destruct Hin as [-> | Hin].
    + apply removal_keeps_absent; [apply Hall; now left |].
      destruct (bannedWords_quiet w (Hall w (or_introl eq_refl))) as (Hw & Hne & Hhide & _).
      unfold Helpers.replaceGlobal.
      now apply (replaceLoop_removes _ (str "REMOVED]")).
    + apply IH; [| assumption]. intros word' H. apply Hall. now right.
Qed.

(** X14. The content sanitised by sanitizeContent has at most
    500 code units, and none of the five banned words occurs in it, in
    whatever case its letters a to z are written: each replacement text
    opens with a bracket, so that no replacement, and no later step,
    puts a removed word together again. *)
Theorem sanitizeContent_removes_banned_words (content : jsstring) :
  (length (Helpers.sanitizeContent content) <= 500)%nat /\
  forall word, In word Helpers.bannedWords ->
    absent word (Helpers.sanitizeContent content).
Proof.
  split.
  - unfold Helpers.sanitizeContent, substring0. rewrite length_take. lia.
  - intros word Hin. destruct (bannedWords_quiet word Hin) as (Hw & Hne & _ & Hhide).
    unfold Helpers.sanitizeContent, substring0. apply absent_take.
    unfold Helpers.replaceGlobal at 1.
    apply (replaceLoop_keeps_absent _ _ (str "LONG_WORD]")); [reflexivity | assumption.. |].
    apply trim_keeps_absent. unfold Helpers.collapseSpaces.
    apply collapseRuns_keeps_absent; [assumption.. |].
    now apply removal_removes.
Qed.

(** ** helpers.ts: retry *)

(** The pauses before the calls m+1 .. m+n: baseDelay * 2^m, ... *)
Lemma retryLoop_success {A E} (fn : nat -> A + E) (maxAttempts baseDelay : Z)
  (k : nat) (value : A) :
  Z.of_nat k < maxAttempts -> fn k = inl value ->
  forall (iterations m : nat) (lastError : option E) (slept : list Z),
    (m <= k)%nat -> (k - m < iterations)%nat ->
    (forall j, (m <= j < k)%nat -> exists error, fn j = inr error) ->
    Helpers.retryLoop fn maxAttempts baseDelay iterations (Z.of_nat m + 1) lastError m slept =
    Some {| Helpers.Retried.outcome := inl value;
            Helpers.Retried.attempts := S k;
            Helpers.Retried.delays :=
              slept ++ map (fun j => baseDelay * 2 ^ Z.of_nat j) (seq m (k - m)) |}.
Proof.
  intros Hk Hvalue. induction iterations as [| iterations IH];
    intros m lastError slept Hm Hfuel Hfail; [lia |].
  cbn [Helpers.retryLoop].
  destruct (Z.leb_spec (Z.of_nat m + 1) maxAttempts) as [_ | H]; [| lia].
  destruct (Nat.eq_dec m k) as [-> | Hne].
  - rewrite Hvalue. replace (k - k)%nat with O by lia. simpl. now rewrite app_nil_r.
  - destruct (Hfail m) as [error ->]; [lia |].
    destruct (Z.eqb_spec (Z.of_nat m + 1) maxAttempts) as [H | _]; [lia |].
    replace (Z.of_nat m + 1 + 1) with (Z.of_nat (S m) + 1) by lia.
    rewrite IH; [| lia | lia | intros j Hj; apply Hfail; lia].
    replace (k - m)%nat with (S (k - S m)) by lia. cbn [seq map].
    rewrite <- app_assoc. cbn [app].
    replace (Z.of_nat m + 1 - 1) with (Z.of_nat m) by lia. reflexivity.
Qed.

Lemma retryLoop_failure {A E} (fn : nat -> A + E) (maxAttempts baseDelay : Z)
  (n : nat) (final : E) :
  maxAttempts = Z.of_nat (S n) -> fn n = inr final ->
  forall (iterations m : nat) (lastError : option E) (slept : list Z),
    (m <= n)%nat -> (n - m < iterations)%nat ->
    (forall j, (m <= j < n)%nat -> exists error, fn j = inr error) ->
    Helpers.retryLoop fn maxAttempts baseDelay iterations (Z.of_nat m + 1) lastError m slept =
    Some {| Helpers.Retried.outcome := inr (Some final);
            Helpers.Retried.attempts := S n;
            Helpers.Retried.delays :=
              slept ++ map (fun j => baseDelay * 2 ^ Z.of_nat j) (seq m (n - m)) |}.
Proof.
  intros Hmax Hfinal. induction iterations as [| iterations IH];
    intros m lastError slept Hm Hfuel Hfail; [lia |].
  cbn [Helpers.retryLoop].
  destruct (Z.leb_spec (Z.of_nat m + 1) maxAttempts) as [_ | H]; [| lia].
  destruct (Nat.eq_dec m n) as [-> | Hne].
  - rewrite Hfinal.
    destruct (Z.eqb_spec (Z.of_nat n + 1) maxAttempts) as [_ | H]; [| lia].
    replace (n - n)%nat with O by lia. simpl. now rewrite app_nil_r.
  - destruct (Hfail m) as [error ->]; [lia |].
    destruct (Z.eqb_spec (Z.of_nat m + 1) maxAttempts) as [H | _]; [lia |].
    replace (Z.of_nat m + 1 + 1) with (Z.of_nat (S m) + 1) by lia.
    rewrite IH; [| lia | lia | intros j Hj; apply Hfail; lia].
    replace (n - m)%nat with (S (n - S m)) by lia. cbn [seq map].
    rewrite <- app_assoc. cbn [app].
    replace (Z.of_nat m + 1 - 1) with (Z.of_nat m) by lia. reflexivity.
Qed.

(** X15. retry, given iterations enough for maxAttempts attempts, comes
    to an end. With maxAttempts below 1 it never calls fn and throws
    undefined. Otherwise it returns the first value that fn returns
    within maxAttempts calls, having called fn no more than needed and
    paused baseDelay * 2^j after the failed call number j; when all
    maxAttempts calls fail it throws the error of the last call, having
    paused after every call but the last. *)
Theorem retry_attempts_and_delays {A E} (fn : nat -> A + E) (maxAttempts baseDelay : Z)
  (iterations : nat) :
  (Z.to_nat maxAttempts <= iterations)%nat ->
  (maxAttempts < 1 ->
     Helpers.retry iterations fn maxAttempts baseDelay =
     Some {| Helpers.Retried.outcome := inr None; Helpers.Retried.attempts := 0;
             Helpers.Retried.delays := [] |}) /\
  (forall k value,
     Z.of_nat k < maxAttempts ->
     (forall j, (j < k)%nat -> exists error, fn j = inr error) ->
     fn k = inl value ->
     Helpers.retry iterations fn maxAttempts baseDelay =
     Some {| Helpers.Retried.outcome := inl value; Helpers.Retried.attempts := S k;
             Helpers.Retried.delays :=
               map (fun j => baseDelay * 2 ^ Z.of_nat j) (seq 0 k) |}) /\
  (forall n final,
     maxAttempts = Z.of_nat (S n) ->
     (forall j, (j < n)%nat -> exists error, fn j = inr error) ->
     fn n = inr final ->
     Helpers.retry iterations fn maxAttempts baseDelay =
     Some {| Helpers.Retried.outcome := inr (Some final); Helpers.Retried.attempts := S n;
             Helpers.Retried.delays :=
               map (fun j => baseDelay * 2 ^ Z.of_nat j) (seq 0 n) |}).
Proof.
  intros Hfuel. unfold Helpers.retry. split; [| split].
  - intros Hmax. destruct iterations; cbn [Helpers.retryLoop];
      destruct (Z.leb_spec 1 maxAttempts); try lia; reflexivity.
  - intros k value Hk Hfail Hvalue.
    pose proof (retryLoop_success fn maxAttempts baseDelay k value Hk Hvalue
                  iterations 0%nat None []) as Hrun.
    change (Z.of_nat 0 + 1) with 1 in Hrun.
    rewrite Hrun; [now rewrite Nat.sub_0_r | lia | lia | intros j Hj; apply Hfail; lia].
  - intros n final Hmax Hfail Hfinal.
    pose proof (retryLoop_failure fn maxAttempts baseDelay n final Hmax Hfinal
                  iterations 0%nat None []) as Hrun.
    change (Z.of_nat 0 + 1) with 1 in Hrun.
    rewrite Hrun; [now rewrite Nat.sub_0_r | lia | lia | intros j Hj; apply Hfail; lia].
Qed.

(** ** helpers.ts: percentages *)

Lemma Qeq_bool_positive (q : Q) : (0 < q)%Q -> Qeq_bool q 0 = false.
Proof.
  intros Hq. destruct (Qeq_bool q 0) eqn:E; [| reflexivity].
  apply Qeq_bool_eq in E. rewrite E in Hq. now apply Qlt_irrefl in Hq.
Qed.

(** With the rounding of doubles, 23 out of 160 is 14.37 per cent: the
    scaled quotient is rounded to a double just below 1437.5. With exact
    arithmetic it would be 14.38. *)
Lemma calculatePercentage_of_doubles :
  Helpers.calculatePercentage Helpers.binary64 (Num 23) (Num 160) =
    Num (Helpers.binary64 (inject_Z 1437 / 100)) /\
  Helpers.calculatePercentage (fun q => q) (Num 23) (Num 160) = Num (inject_Z 1438 / 100).
Proof. split; vm_compute; reflexivity. Qed.

(** X16. calculatePercentage is 0 for the total 0, whatever the value (NaN
    and the infinities included). For 0 <= value <= total with total
    positive, and for every rounding of the results of the arithmetic
    that is monotone and exact at 0, 1, 100 and 10000, as the rounding to
    the nearest double is, the result is the rounded quotient by 100 of
    an integer between 0 and 10000, and lies between 0 and 100. *)
Theorem calculatePercentage_range (rnd : Q -> Q) :
  (forall x y, (x <= y)%Q -> (rnd x <= rnd y)%Q) ->
  (rnd 0 == 0)%Q -> (rnd 1 == 1)%Q -> (rnd 100 == 100)%Q -> (rnd 10000 == 10000)%Q ->
  (forall value total, (total == 0)%Q ->
     Helpers.calculatePercentage rnd value (Num total) = Num 0) /\
  (forall value total : Q,
     (0 <= value)%Q -> (value <= total)%Q -> (0 < total)%Q ->
     exists hundredths : Z,
       0 <= hundredths <= 10000 /\
       Helpers.calculatePercentage rnd (Num value) (Num total) =
         Num (rnd (inject_Z hundredths / 100)%Q) /\
       (0 <= rnd (inject_Z hundredths / 100)%Q)%Q /\
       (rnd (inject_Z hundredths / 100)%Q <= 100)%Q).
Proof.
  intros Hmono H0 H1 H100 H10000. split.
  - intros value total Hzero. unfold Helpers.calculatePercentage, Helpers.isZero.
    apply Qeq_bool_iff in Hzero. now rewrite Hzero.
  - intros value total Hvalue Hle Htotal.
    unfold Helpers.calculatePercentage, Helpers.isZero, js_div.
    rewrite (Qeq_bool_positive total Htotal).
    cbn [Helpers.rounded Helpers.js_mul Helpers.Math_round of_Z].
    change (Qeq_bool 100 0) with false. cbv iota.
    assert (Hup : forall x b, (x <= b)%Q -> (rnd b == b)%Q -> (rnd x <= b)%Q).
    { intros x b Hx Hb. apply Qle_trans with (rnd b); [apply Hmono, Hx |].
      apply Qle_lteq. right. exact Hb. }
    assert (Hdown : forall x, (0 <= x)%Q -> (0 <= rnd x)%Q).
    { intros x Hx. apply Qle_trans with (rnd 0%Q); [| apply Hmono, Hx].
      apply Qle_lteq. right. apply Qeq_sym, H0. }
    assert (Hratio : (0 <= value / total <= 1)%Q).
    { split.
      - apply Qle_shift_div_l; [assumption |]. now rewrite Qmult_0_l.
      - apply Qle_shift_div_r; [assumption |]. now rewrite Qmult_1_l. }
    set (ratio := rnd (value / total)%Q).
    assert (Hr : (0 <= ratio <= 1)%Q).
    { split; [apply Hdown | apply Hup]; try assumption; apply Hratio. }
    set (percent := rnd (ratio * 100)%Q).
    assert (Hp : (0 <= percent <= 100)%Q).
    { split; [apply Hdown | apply Hup]; try assumption; lra. }
    set (scaled := rnd (percent * 100)%Q).
    assert (Hs : (0 <= scaled <= 10000)%Q).
    { split; [apply Hdown | apply Hup]; try assumption; lra. }
    assert (Hh : 0 <= Qfloor (scaled + (1 # 2)) <= 10000).
    { split.
      - change 0 with (Qfloor 0). apply Qfloor_resp_le. lra.
      - change 10000 with (Qfloor (10000 + (1 # 2))). apply Qfloor_resp_le. lra. }
    exists (Qfloor (scaled + (1 # 2))). split; [exact Hh |]. split; [reflexivity |].
    assert (Hq : (0 <= inject_Z (Qfloor (scaled + (1 # 2))) / 100 <= 100)%Q).
    { destruct Hh as [Hlow Hhigh].
      rewrite Zle_Qle in Hlow, Hhigh. change (inject_Z 0) with 0%Q in Hlow.
      change (inject_Z 10000) with 10000%Q in Hhigh.
      split.
      - apply Qle_shift_div_l; [reflexivity | lra].
      - apply Qle_shift_div_r; [reflexivity | lra]. }
    split; [apply Hdown | apply Hup]; try assumption; apply Hq.
Qed.

(** ** helpers.ts: the symbol made from a text *)

Lemma capital_not_space (c : N) : (65 <= c <= 90)%N -> Helpers.isSpace c = false.
Proof.
  intros Hc. unfold Helpers.isSpace. cbn [existsb].
  repeat match goal with
         | |- context [N.eqb c ?k] =>
             replace (N.eqb c k) with false by (symmetry; apply N.eqb_neq; lia)
         end.
  replace (N.leb 8192 c) with false by (symmetry; apply N.leb_gt; lia). reflexivity.
Qed.

Lemma splitRuns_pieces (P : N -> Prop) (inRun : bool) (current s : jsstring) :
  Forall P current -> Forall (fun c => Helpers.isSpace c = false -> P c) s ->
  Forall (Forall P) (Helpers.splitRuns inRun current s).
Proof.
  revert inRun current. induction s as [| c s IH]; intros inRun current Hcur Hs.
  - simpl. apply Forall_cons. split; [assumption | constructor].
  - apply Forall_cons in Hs as [Hc Hs]. cbn [Helpers.splitRuns].
    destruct (Helpers.isSpace c) eqn:Hsp.
    + destruct inRun; [now apply IH |].
      apply Forall_cons. split; [assumption |]. apply IH; [constructor | assumption].
    + apply IH; [| assumption]. apply Forall_app. split; [assumption |].
      apply Forall_cons. split; [now apply Hc | constructor].
Qed.

Lemma splitRuns_spaces (inRun : bool) (current s : jsstring) :
  Forall (fun c => Helpers.isSpace c = true) s ->
  Forall (fun word => word = current \/ word = []) (Helpers.splitRuns inRun current s).
Proof.
  revert inRun current. induction s as [| c s IH]; intros inRun current Hs.
  - simpl. apply Forall_cons. split; [now left | constructor].
  - apply Forall_cons in Hs as [Hc Hs]. cbn [Helpers.splitRuns]. rewrite Hc.
    destruct inRun; [now apply IH |].
    apply Forall_cons. split; [now left |].
    eapply Forall_impl; [apply (IH true [] Hs) |]. intros word [-> | ->]; now right.
Qed.

Lemma splitRuns_word (inRun : bool) (current s : jsstring) :
  current <> [] \/ Exists (fun c => Helpers.isSpace c = false) s ->
  Exists (fun word => word <> []) (Helpers.splitRuns inRun current s).
Proof.
  revert inRun current. induction s as [| c s IH]; intros inRun current H.
  - destruct H as [H | H]; [| now apply Exists_nil in H].
    simpl. now apply Exists_cons_hd.
  - cbn [Helpers.splitRuns]. destruct (Helpers.isSpace c) eqn:Hsp.
    + destruct inRun.
      * apply IH. destruct H as [H | H]; [now left |].
        apply Exists_cons in H as [H | H]; [congruence | now right].
      * destruct H as [H | H]; [now apply Exists_cons_hd |].
        apply Exists_cons_tl, IH. right.
        apply Exists_cons in H as [H | H]; [congruence | assumption].
    + apply IH. left. destruct current; discriminate.
Qed.

Lemma filter_nonempty_nil (pieces : list jsstring) :
  List.filter (fun word => Nat.ltb 0 (length word)) pieces = [] <->
  Forall (fun word => word = []) pieces.
Proof.
  induction pieces as [| word pieces IH]; simpl.
  - split; [intros _; constructor | reflexivity].
  - rewrite Forall_cons. destruct word as [| c word]; simpl.
    + rewrite IH. tauto.
    + split; [discriminate | intros [H _]; discriminate H].
Qed.

(** The words are made of capital letters, and none is empty. *)
Lemma symbolWords_letters (upper : jsstring -> jsstring) (text : jsstring) :
  Forall (fun word => Forall (fun c => (65 <= c <= 90)%N) word /\ (0 < length word)%nat)
         (Helpers.symbolWords upper text).
Proof.
  unfold Helpers.symbolWords, Helpers.splitSpaces.
  assert (Hpieces : Forall (Forall (fun c => (65 <= c <= 90)%N))
            (Helpers.splitRuns false []
               (List.filter Helpers.symbolCharacter (upper text)))).
  { apply splitRuns_pieces; [constructor |].
    eapply Forall_impl; [apply Forall_List_filter |].
    intros c Hc Hsp. unfold Helpers.symbolCharacter in Hc. rewrite Hsp, orb_false_r in Hc.
    apply andb_true_iff in Hc as [Ha Hz]. apply N.leb_le in Ha, Hz. lia. }
  induction Hpieces as [| word pieces Hword _ IH]; simpl; [constructor |].
  destruct (Nat.ltb_spec 0 (length word)); [| assumption].
  apply Forall_cons. repeat split; assumption.
Qed.

(** The fallback is taken exactly when the upper-cased text has no letter
    A to Z. *)
Lemma symbolWords_none (upper : jsstring -> jsstring) (text : jsstring) :
  Helpers.symbolWords upper text = [] <->
  Forall (fun c => ~ (65 <= c <= 90)%N) (upper text).
Proof.
  unfold Helpers.symbolWords, Helpers.splitSpaces. rewrite filter_nonempty_nil. split.
  - intros Hall. apply Forall_forall. intros c Hin Hc.
    assert (Hex : Exists (fun word => word <> [])
              (Helpers.splitRuns false []
                 (List.filter Helpers.symbolCharacter (upper text)))).
    { apply splitRuns_word. right. apply Exists_exists. exists c. split.
      - apply list_elem_of_In, filter_In. split; [now apply list_elem_of_In |].
        unfold Helpers.symbolCharacter.
        replace (N.leb 65 c) with true by (symmetry; apply N.leb_le; lia).
        replace (N.leb c 90) with true by (symmetry; apply N.leb_le; lia). reflexivity.
      - now apply capital_not_space. }
    apply Exists_exists in Hex as (word & Hin' & Hne).
    rewrite Forall_forall in Hall. now apply Hall in Hin'.
  - intros Hnone.
    eapply Forall_impl; [apply splitRuns_spaces |].
    + apply Forall_forall. intros c Hin.
      apply list_elem_of_In, filter_In in Hin as [Hin Hc].
      apply list_elem_of_In in Hin. rewrite Forall_forall in Hnone.
      specialize (Hnone c Hin). unfold Helpers.symbolCharacter in Hc.
      apply orb_true_iff in Hc as [Hc | Hc]; [| assumption].
      apply andb_true_iff in Hc as [Ha Hz]. apply N.leb_le in Ha, Hz. lia.
    + intros word [-> | ->]; reflexivity.
Qed.

Lemma initials_letters (words : list jsstring) :
  Forall (fun word => Forall (fun c => (65 <= c <= 90)%N) word /\ (0 < length word)%nat)
         words ->
  Forall (fun c => (65 <= c <= 90)%N) (concat (map (take 1) words)) /\
  length (concat (map (take 1) words)) = length words.
Proof.
  induction 1 as [| word words [Hword Hlen] _ [IH1 IH2]]; simpl.
  - split; [constructor | reflexivity].
  - split.
    + apply Forall_app. split; [now apply Forall_take | assumption].
    + rewrite length_app, length_take, IH2. lia.
Qed.

Lemma decimalLoop_written (digits n : nat) (written : jsstring) :
  Forall (fun c => (48 <= c <= 57)%N) written ->
  Forall (fun c => (48 <= c <= 57)%N) (Helpers.decimalLoop digits n written) /\
  (written <> [] \/ digits <> O -> Helpers.decimalLoop digits n written <> []).
Proof.
  revert n written. induction digits as [| digits IH]; intros n written Hw.
  - simpl. split; [assumption |]. intros [H | H]; congruence.
  - cbn [Helpers.decimalLoop].
    assert (Hd : Forall (fun c => (48 <= c <= 57)%N)
                   ((48 + N.of_nat (n mod 10))%N :: written)).
    { apply Forall_cons. split; [| assumption].
      pose proof (Nat.mod_upper_bound n 10). lia. }
    destruct (Nat.eqb (n / 10) 0).
    + split; [assumption | discriminate].
    + destruct (IH (n / 10)%nat _ Hd) as [H1 H2]. split; [assumption |].
      intros _. apply H2. left. discriminate.
Qed.

(** X17. generateTokenSymbol and the format /^[A-Z]{3,6}$/ that createToken
    asks of a symbol. When the upper-cased text has no letter A to Z the
    result is 'MEME' followed by a number, which is not of the format.
    Otherwise the result is made of 1 to 6 capital letters, and it is of
    the format exactly when the text has 3 to 6 words or its first word
    has at least 3 letters: a short first word is not padded. *)
Theorem generateTokenSymbol_format (upper : jsstring -> jsstring) (random : Q)
  (text : jsstring) :
  (Forall (fun c => ~ (65 <= c <= 90)%N) (upper text) ->
     startsWith (Helpers.generateTokenSymbol upper random text) (str "MEME") = true /\
     MemeCoinCreator.symbolFormat (Helpers.generateTokenSymbol upper random text) = false) /\
  (forall first rest,
     Helpers.symbolWords upper text = first :: rest ->
     Forall (fun c => (65 <= c <= 90)%N) (Helpers.generateTokenSymbol upper random text) /\
     (1 <= length (Helpers.generateTokenSymbol upper random text) <= 6)%nat /\
     (MemeCoinCreator.symbolFormat (Helpers.generateTokenSymbol upper random text) = true <->
      (3 <= length (first :: rest) <= 6)%nat \/ (3 <= length first)%nat)).
Proof.
  split.
  - intros Hnone. apply symbolWords_none in Hnone.
    unfold Helpers.generateTokenSymbol. rewrite Hnone.
    split; [apply startsWith_prefix |].
    apply not_true_is_false. intros Hformat.
    apply symbolFormat_spec in Hformat as [_ Hall].
    apply Forall_app in Hall as [_ Hall].
    destruct (decimalLoop_written (S (Z.to_nat (Qfloor (random * 100))))
                (Z.to_nat (Qfloor (random * 100))) [] (List.Forall_nil _)) as [Hdigits Hne].
    fold (Helpers.decimal (Z.to_nat (Qfloor (random * 100)))) in Hdigits, Hne.
    destruct (Helpers.decimal (Z.to_nat (Qfloor (random * 100)))) as [| c digits].
    + apply Hne; [now right | reflexivity].
    + apply Forall_cons in Hall as [Hc _]. apply Forall_cons in Hdigits as [Hd _]. lia.
  - intros first rest Hwords.
    pose proof (symbolWords_letters upper text) as Hletters. rewrite Hwords in Hletters.
    destruct (initials_letters _ Hletters) as [Hini Hlen].
    apply Forall_cons in Hletters as [[Hfirst Hpos] _].
    unfold Helpers.generateTokenSymbol. rewrite Hwords.
    set (initials := concat (map (take 1) (first :: rest))) in *.
    destruct first as [| c first]; [simpl in Hpos; lia |].
    set (word := c :: first) in *. unfold substring0.
    assert (Htake : forall n, Forall (fun c => (65 <= c <= 90)%N) (take n word))
      by (intros n; now apply Forall_take).
    rewrite symbolFormat_spec.
    destruct (Nat.ltb_spec 6 (length initials)) as [Hlong | Hshort].
    + destruct (Nat.ltb_spec (length (take 6 word)) 3) as [Hpad | Hfit];
        rewrite ?length_take in *.
      * split; [apply Htake |]. split; [lia |]. split; [intros [? _]; lia |].
        intros [H | H]; [lia |]. split; [lia | apply Htake].
      * split; [apply Htake |]. split; [lia |]. split; [intros _; lia |].
        intros _. split; [lia | apply Htake].
    + destruct (Nat.ltb_spec (length initials) 3) as [Hpad | Hfit];
        rewrite ?length_take in *.
      * split; [apply Htake |]. split; [lia |]. split; [intros [? _]; lia |].
        intros [H | H]; [lia |]. split; [lia | apply Htake].
      * split; [assumption |]. split; [lia |]. split; [intros _; lia |].
        intros _. split; [lia | assumption].
Qed.

(** ** helpers.ts: the configuration *)

Lemma outside_false (x : jsnum) (low high : Z) :
  Helpers.outside x low high = false <-> nan_or_between low high x.
Proof.
  unfold Helpers.outside, nan_or_between, js_gt, of_Z. rewrite orb_false_iff.
  destruct x as [q | | |]; simpl.
  - rewrite !Qltb_ge. split.
    + intros [H1 H2]. right. exists q. repeat split; assumption.
    + intros [H | (q' & [= <-] & H1 & H2)]; [discriminate | split; assumption].
  - split; [now left | split; reflexivity].
  - split; [intros [_ H]; discriminate H | intros [H | (q & H & _)]; discriminate H].
  - split; [intros [H _]; discriminate H | intros [H | (q & H & _)]; discriminate H].
Qed.

(** X18. What validateConfig accepts. The strings it checks are not empty
    and the cluster is one of the three names; each number is within its
    bounds or is NaN, which no comparison rejects: a configuration
    whose four numbers are NaN passes as soon as its strings do. *)
Theorem validateConfig_accepts (config : Helpers.Config.t) :
  (Helpers.validateConfig config = Return tt ->
     Helpers.Config.modelProvider config <> [] /\
     Helpers.Config.programId config <> [] /\
     Helpers.Config.username config <> [] /\
     Helpers.Config.password config <> [] /\
     In (Helpers.Config.cluster config) Helpers.clusters /\
     nan_or_between 0 1 (Helpers.Config.temperature config) /\
     nan_or_between 1 100 (Helpers.Config.maxRepliesPerHour config) /\
     nan_or_between 0 1 (Helpers.Config.minSentimentScore config) /\
     nan_or_between 1000000 1000000000000 (Helpers.Config.maxSupply config)) /\
  (Helpers.Config.modelProvider config <> [] ->
   Helpers.Config.programId config <> [] ->
   Helpers.Config.username config <> [] ->
   Helpers.Config.password config <> [] ->
   In (Helpers.Config.cluster config) Helpers.clusters ->
   Helpers.Config.temperature config = NaN ->
   Helpers.Config.maxRepliesPerHour config = NaN ->
   Helpers.Config.minSentimentScore config = NaN ->
   Helpers.Config.maxSupply config = NaN ->
   Helpers.validateConfig config = Return tt).
Proof.
  unfold Helpers.validateConfig. split.
  - destruct (Helpers.Config.modelProvider config) as [| c1 s1]; [discriminate |].
    destruct (Helpers.outside (Helpers.Config.temperature config) 0 1) eqn:Ht; [discriminate |].
    destruct (Helpers.Config.programId config) as [| c2 s2]; [discriminate |].
    cbn [Helpers.isEmpty].
    destruct (existsb _ Helpers.clusters) eqn:Hc; [| discriminate]. cbn [negb].
    destruct (Helpers.Config.username config) as [| c3 s3]; [discriminate |].
    destruct (Helpers.Config.password config) as [| c4 s4]; [discriminate |].
    cbn [Helpers.isEmpty orb].
    destruct (Helpers.outside (Helpers.Config.maxRepliesPerHour config) 1 100) eqn:Hr;
      [discriminate |].
    destruct (Helpers.outside (Helpers.Config.minSentimentScore config) 0 1) eqn:Hs;
      [discriminate |].
    destruct (Helpers.outside (Helpers.Config.maxSupply config) 1000000 1000000000000) eqn:Hm;
      [discriminate |].
    intros _. apply outside_false in Ht, Hr, Hs, Hm.
    apply existsb_exists in Hc as (name & Hin & Hname).
    apply bool_decide_eq_true in Hname. subst name.
    repeat split; try discriminate; assumption.
  - intros Hp Hi Hu Hw Hc -> -> -> ->.
    destruct (Helpers.Config.modelProvider config); [congruence |].
    destruct (Helpers.Config.programId config); [congruence |].
    destruct (Helpers.Config.username config); [congruence |].
    destruct (Helpers.Config.password config); [congruence |].
    cbn [Helpers.isEmpty orb]. change (Helpers.outside NaN 0 1) with false. cbv iota.
    replace (existsb _ Helpers.clusters) with true.
    + reflexivity.
    + symmetry. apply existsb_exists. exists (Helpers.Config.cluster config).
      split; [assumption | now apply bool_decide_eq_true].
Qed.

(** ** ElizaSolanaSDK: the decisions when a collaborator is down *)

Lemma env_ret {A} (a : A) : keeps_env (ret a).
Proof. intros w. reflexivity. Qed.

Lemma env_throw {A} (e : jsstring) : keeps_env (@throw A e).
Proof. intros w. reflexivity. Qed.

Lemma env_lift {A} (o : outcome A) : keeps_env (lift o).
Proof. intros w. reflexivity. Qed.

Lemma env_external {A} (c : Call) (answer : Env -> nat -> outcome A) :
  keeps_env (external c answer).
Proof. intros w. reflexivity. Qed.

Lemma env_Date_now : keeps_env Date_now.
Proof. intros w. reflexivity. Qed.

Lemma env_getHours : keeps_env getHours.
Proof. intros w. reflexivity. Qed.

Lemma env_bind {A B} (c : M A) (k : A -> M B) :
  keeps_env c -> (forall a, keeps_env (k a)) -> keeps_env (bind c k).
Proof.
  intros Hc Hk w. unfold bind. specialize (Hc w).
  destruct (c w) as [[a | e] w1]; simpl in *; [| assumption].
  rewrite Hk. assumption.
Qed.

Lemma env_try_catch {A} (c : M A) (h : jsstring -> M A) :
  keeps_env c -> (forall e, keeps_env (h e)) -> keeps_env (try_catch c h).
Proof.
  intros Hc Hh w. unfold try_catch. specialize (Hc w).
  destruct (c w) as [[a | e] w1]; simpl in *; [assumption |].
  rewrite Hh. assumption.
Qed.

Lemma env_clamp01 (v : jsval) : keeps_env (clamp01 v).
Proof.
  intros w. rewrite clamp01_run. destruct (fst (ToNumber v w)); reflexivity.
Qed.

Create HintDb envs.
#[local] Hint Resolve env_ret env_throw env_lift env_external env_Date_now
  env_getHours env_clamp01 env_bind env_try_catch : envs.
#[local] Hint Extern 2 (keeps_env (if ?b then _ else _)) => destruct b : envs.
#[local] Hint Extern 2 (keeps_env (match ?x with _ => _ end)) => destruct x : envs.

Lemma env_analyzeTrend (message : TwitterMessage) :
  keeps_env (SentimentAnalyzer.analyzeTrend message).
Proof.
  unfold SentimentAnalyzer.analyzeTrend, SentimentAnalyzer.analyzeSentiment,
    SentimentAnalyzer.analyzeSentiment_try, SentimentAnalyzer.analyzeViralPotential,
    SentimentAnalyzer.isInTrendingTime, SentimentAnalyzer.extractKeywords,
    SentimentAnalyzer.generateTokenSuggestion.
  auto 30 with envs.
Qed.

(** The course of processTwitterMessage on a message not seen before: the
    id is recorded, and the analysis is built from the trend analysis and
    the answer of the agent unless the log line after the recording
    throws, which gives the analysis of the [catch]. *)
Lemma processTwitterMessage_new (config : SDKConfig) (message : TwitterMessage) (w : World) :
  tweetId message ∉ processedTweets w ->
  exists ta w1 r a w',
    SentimentAnalyzer.analyzeTrend message w = (Return ta, w1) /\
    ElizaAgent.processMessage (text message) w1 = (Return r, w') /\
    ElizaSolanaSDK.processTwitterMessage config message w =
      (Return a, set_processed ({[ tweetId message ]} ∪ processedTweets w') w') /\
    (forall e,
       interpolate [ElizaSolanaSDK.action r replyToTweet;
                    ElizaSolanaSDK.action r createToken] = Throw e ->
       AIAnalysis.tokenConcept a = None /\
       AIAnalysis.shouldReply a = JBool false /\
       AIAnalysis.shouldCreateToken a = JBool false) /\
    (interpolate [ElizaSolanaSDK.action r replyToTweet;
                  ElizaSolanaSDK.action r createToken] = Return tt ->
     AIAnalysis.shouldReply a = ElizaSolanaSDK.action r replyToTweet /\
     AIAnalysis.shouldCreateToken a = ElizaSolanaSDK.action r createToken /\
     AIAnalysis.replyContent a = Some (ElizaResponse.text r) /\
     AIAnalysis.confidence a = ElizaResponse.confidence r /\
     AIAnalysis.reasoning a =
       AIConfidence (ElizaResponse.confidence r) (Sentiment.score (sentiment ta)) /\
     AIAnalysis.tokenConcept a =
       match tokenSuggestion ta with
       | Some suggestion =>
           if truthy (ElizaSolanaSDK.action r createToken) then
             Some {| TokenConcept.name := TokenSuggestion.name suggestion;
                     TokenConcept.symbol := TokenSuggestion.symbol suggestion;
                     TokenConcept.description := TokenSuggestion.concept suggestion;
                     TokenConcept.metadata :=
                       {| twitterContext := message;
                          sentimentScore := Sentiment.score (sentiment ta);
                          viralScore := Viral.score (viralPotential ta);
                          createdBy := username config;
                          inspiration := text message |} |}
           else None
       | None => None
       end).
Proof.
  intros Hnew. unfold ElizaSolanaSDK.processTwitterMessage at 1. unfold bind at 1. unfold get.
  rewrite bool_decide_eq_false_2 by assumption.
  unfold try_catch, ElizaSolanaSDK.processTwitterMessage_try, bind.
  destruct (analyzeTrend_run message w) as (ta & w1 & Hrun & _). rewrite Hrun.
  destruct (processMessage_returns (text message) w1) as [r Hr].
  destruct (ElizaAgent.processMessage (text message) w1) as [o w'] eqn:Hpm.
  simpl in Hr. injection Hr as ->.
  unfold get, modify, ret, lift.
  destruct (interpolate _) as [[] | e] eqn:Hlog;
    (eexists ta, w1, r, _, w';
     split; [reflexivity |]; split; [exact Hpm |]; split; [reflexivity |]; split);
    intros; try congruence; repeat split; reflexivity.
Qed.


(** X20. In processTwitterMessage,
    while the agent runtime fails, a message not seen before is answered
    with no reply, no token, no token concept and confidence 0.1, the
    reasoning built from that confidence; after the trend analysis the
    runtime is the only collaborator called (the language model is not
    asked for the structured analysis), and the message is recorded as
    processed all the same, so that it is not analysed again. *)
Theorem processTwitterMessage_runtime_down
  (config : SDKConfig) (message : TwitterMessage) (w : World) (e : jsstring) :
  tweetId message ∉ processedTweets w ->
  (forall k, processActions (env w) k = Throw e) ->
  exists a w',
    ElizaSolanaSDK.processTwitterMessage config message w = (Return a, w') /\
    AIAnalysis.shouldReply a = JBool false /\
    AIAnalysis.shouldCreateToken a = JBool false /\
    AIAnalysis.tokenConcept a = None /\
    AIAnalysis.confidence a = Num 0.1 /\
    (exists sentimentScore, AIAnalysis.reasoning a = AIConfidence (Num 0.1) sentimentScore) /\
    calls w' = RuntimeProcessActions (text message) ::
               calls (snd (SentimentAnalyzer.analyzeTrend message w)) /\
    tweetId message ∈ processedTweets w'.
Proof.
  intros Hnew Hdown.
  unfold ElizaSolanaSDK.processTwitterMessage at 1. unfold bind at 1. unfold get.
  rewrite bool_decide_eq_false_2 by assumption.
  unfold try_catch, ElizaSolanaSDK.processTwitterMessage_try, bind.
  pose proof (env_analyzeTrend message w) as Henv.
  destruct (analyzeTrend_run message w) as (ta & w1 & Hrun & _).
  rewrite Hrun in *. simpl in Henv.
  assert (Hr : ElizaAgent.processMessage (text message) w1 =
               (Return ElizaAgent.confusedResponse,
                record_call (RuntimeProcessActions (text message)) (step w1))).
  { unfold ElizaAgent.processMessage, try_catch, bind, external.
    rewrite Henv, Hdown. reflexivity. }
  rewrite Hr. unfold get, modify, ret. eexists _, _. split; [reflexivity |]. simpl.
  destruct (tokenSuggestion ta); repeat split; eauto;
    apply elem_of_union; left; now apply elem_of_singleton.
Qed.

(** ** ElizaAgent: the structured analysis *)

Lemma defaultAnalysis_in_unit : in_unit (ElizaAgent.confidence ElizaAgent.defaultAnalysis).
Proof. simpl. split; discriminate. Qed.

Lemma clamp_nan_or_unit (x : jsnum) : clamp x = NaN \/ in_unit (clamp x).
Proof. destruct x; try (right; apply clamp_in_unit; discriminate). now left. Qed.

Lemma getStructuredAnalysis_fallback (text : jsstring) (w : World) (e : jsstring) :
  completion (env w) (tick w) = Throw e ->
  ElizaAgent.getStructuredAnalysis text w =
    (Return ElizaAgent.defaultAnalysis,
     record_call (StructuredAnalysisCompletion text) (step w)) /\
  replyToTweet (ElizaAgent.actions ElizaAgent.defaultAnalysis) = JBool true.
Proof.
  intros Hc. unfold ElizaAgent.getStructuredAnalysis, try_catch, bind, external.
  rewrite Hc. split; reflexivity.
Qed.

(** X21. The structured analysis of ElizaAgent never
    throws and asks the language model once. Its confidence is NaN or a
    number of [0, 1]. When the completion fails the analysis is the
    default one, which asks for a reply; when the completion arrives
    without an actions field, or with a null one, and its confidence
    converts to a number, no action is asked for, the reply included. *)
Theorem getStructuredAnalysis_defaults (text : jsstring) (w : World) :
  exists r,
    ElizaAgent.getStructuredAnalysis text w =
      (Return r, record_call (StructuredAnalysisCompletion text) (step w)) /\
    (ElizaAgent.confidence r = NaN \/ in_unit (ElizaAgent.confidence r)) /\
    (forall e, completion (env w) (tick w) = Throw e ->
       r = ElizaAgent.defaultAnalysis /\
       replyToTweet (ElizaAgent.actions r) = JBool true) /\
    (forall analysis a x,
       completion (env w) (tick w) = Return analysis ->
       get_prop analysis "actions" = Return a -> a = JUndefined \/ a = JNull ->
       get_prop analysis "confidence" = Return x -> plain x ->
       ElizaAgent.actions r =
         {| createToken := JBool false; replyToTweet := JBool false;
            analyzeMore := JBool false |}).
Proof.
  unfold ElizaAgent.getStructuredAnalysis, try_catch, bind, external, lift.
  set (w1 := record_call (StructuredAnalysisCompletion text) (step w)).
  assert (He : env w1 = env w) by reflexivity.
  destruct (completion (env w) (tick w)) as [analysis | e] eqn:Hc.
  2: { eexists. split; [reflexivity |]. split; [right; apply defaultAnalysis_in_unit |].
       split; [intros; split; reflexivity | intros; discriminate]. }
  destruct (get_prop analysis "confidence") as [c | e] eqn:Hcf.
  2: { eexists. split; [reflexivity |]. split; [right; apply defaultAnalysis_in_unit |].
       split; [intros; discriminate | intros analysis' a x [= <-] _ _ Hx; congruence]. }
  rewrite clamp01_run, (ToNumber_env _ w w1 He).
  destruct (fst (ToNumber (js_or c (JNum (Num 0.5))) w)) as [y | e] eqn:Hy.
  2: { eexists. split; [reflexivity |]. split; [right; apply defaultAnalysis_in_unit |].
       split; [intros; discriminate |].
       intros analysis' a x [= <-] _ _ Hx Hplain. exfalso.
       rewrite Hcf in Hx. injection Hx as <-.
       unfold js_or in Hy. destruct c as [| | b | n | | |]; simpl in Hplain, Hy;
         try easy; try destruct b; try destruct (num_truthy n); simpl in Hy; discriminate. }
  destruct (get_prop_again analysis "confidence" "mood" c Hcf) as [m ->].
  destruct (get_prop_again analysis "confidence" "topics" c Hcf) as [t ->].
  destruct (get_prop_again analysis "confidence" "actions" c Hcf) as [a Ha]. rewrite Ha.
  destruct (get_prop_opt_returns a "createToken") as [create Hcreate]. rewrite Hcreate.
  destruct (get_prop_opt_returns a "replyToTweet") as [reply Hreply]. rewrite Hreply.
  destruct (get_prop_opt_returns a "analyzeMore") as [more Hmore]. rewrite Hmore.
  unfold ret. eexists. split; [reflexivity |]. simpl.
  split; [apply clamp_nan_or_unit |]. split; [intros; discriminate |].
  intros analysis' a' x [= <-] Ha' Hnone _ _.
  rewrite Ha in Ha'. injection Ha' as <-.
  destruct Hnone as [-> | ->]; simpl in Hcreate, Hreply, Hmore;
    injection Hcreate as <-; injection Hreply as <-; injection Hmore as <-; reflexivity.
Qed.

(** X22. In processTwitterMessage, while the language model fails and
    the agent runtime answers with a value other than null and undefined,
    a message not seen before gets the decision to reply, with confidence
    0.5, and never a token: the fallback of the structured analysis asks
    for a reply, and the neutral sentiment keeps the suggestion gate shut. *)
Theorem processTwitterMessage_model_down
  (config : SDKConfig) (message : TwitterMessage) (w : World) (e : jsstring) (answer : jsval) :
  tweetId message ∉ processedTweets w ->
  (forall k, completion (env w) k = Throw e) ->
  (forall k, processActions (env w) k = Return answer) ->
  answer <> JUndefined -> answer <> JNull ->
  exists a w',
    ElizaSolanaSDK.processTwitterMessage config message w = (Return a, w') /\
    AIAnalysis.shouldReply a = JBool true /\
    AIAnalysis.shouldCreateToken a = JBool false /\
    AIAnalysis.tokenConcept a = None /\
    AIAnalysis.confidence a = Num 0.5 /\
    AIAnalysis.reasoning a = AIConfidence (Num 0.5) (Num 0.5) /\
    (exists reply, AIAnalysis.replyContent a = Some reply /\ truthy reply = true).
Proof.
  intros Hnew Hdown Hup Hu Hn.
  destruct (processTwitterMessage_new config message w Hnew)
    as (ta & w1 & r & a & w' & Htrend & Hpm & -> & _ & Hlogged).
  pose proof (env_analyzeTrend message w) as Henv. rewrite Htrend in Henv. simpl in Henv.
  assert (Hta : sentiment ta = SentimentAnalyzer.neutralSentiment /\ tokenSuggestion ta = None).
  { destruct (analyzeTrend_run message w) as (ta' & w1' & Hrun & Hgate).
    rewrite Htrend in Hrun. injection Hrun as <- <-.
    assert (Hs : sentiment ta = SentimentAnalyzer.neutralSentiment).
    { revert Htrend. unfold SentimentAnalyzer.analyzeTrend, try_catch, bind.
      unfold SentimentAnalyzer.analyzeSentiment at 1.
      unfold try_catch, SentimentAnalyzer.analyzeSentiment_try, bind, external.
      rewrite Hdown. unfold ret at 1. rewrite analyzeViralPotential_run.
      match goal with
      | |- context [SentimentAnalyzer.extractKeywords ?t ?w2] =>
          destruct (extractKeywords_run t w2) as [k ->]
      end.
      match goal with
      | |- context [if ?g then _ else _] => replace g with false by reflexivity
      end.
      unfold ret. intros [= <- _]. reflexivity. }
    split; [assumption |]. rewrite Hs in Hgate.
    unfold SentimentAnalyzer.suggestionGate in Hgate. simpl in Hgate. apply Hgate. }
  destruct Hta as [Hs Hnone].
  assert (Hr : ElizaResponse.confidence r = Num 0.5 /\
               ElizaResponse.actions r = Some (ElizaAgent.actions ElizaAgent.defaultAnalysis) /\
               truthy (ElizaResponse.text r) = true).
  { revert Hpm. unfold ElizaAgent.processMessage, try_catch, bind, external.
    rewrite Henv, Hup.
    match goal with
    | |- context [ElizaAgent.getStructuredAnalysis ?t ?w2] =>
        destruct (getStructuredAnalysis_fallback t w2 e) as [Hsa _]
    end.
    { simpl. rewrite Henv. apply Hdown. }
    rewrite Hsa. unfold lift.
    destruct (get_prop_returns answer "content" Hu Hn) as [content ->].
    destruct (get_prop_opt_returns content "text") as [t ->].
    unfold ret. intros [= <- _]. simpl. repeat split.
    unfold js_or. destruct (truthy t) eqn:E; [assumption | reflexivity]. }
  destruct Hr as (Hrc & Hra & Hrt).
  destruct Hlogged as (Hreply & Hcreate & Hcontent & Hconf & Hreason & Hconcept).
  { unfold ElizaSolanaSDK.action. rewrite Hra. reflexivity. }
  eexists _, _. split; [reflexivity |].
  rewrite Hreply, Hcreate, Hconcept, Hconf, Hcontent, Hreason, Hnone, Hrc, Hs.
  unfold ElizaSolanaSDK.action. rewrite Hra. simpl.
  repeat split; eauto.
Qed.

(** ** SentimentAnalyzer: analysis in batches *)

Lemma analyzeTrend_calls (message : TwitterMessage) (w : World) :
  exists ta w',
    SentimentAnalyzer.analyzeTrend message w = (Return ta, w') /\
    (length (calls w) + 2 <= length (calls w') <= length (calls w) + 3)%nat.
Proof.
  destruct (analyzeTrend_run message w) as (ta & w' & Hrun & Hgate).
  exists ta, w'. split; [assumption |]. cbv zeta in Hgate.
  destruct (SentimentAnalyzer.suggestionGate _ _).
  - rewrite Hgate. simpl. lia.
  - destruct Hgate as [_ ->]. simpl. lia.
Qed.

Lemma analyzeEach_run (messages : list TwitterMessage) (analyses : list TrendAnalysis)
  (w : World) :
  exists added w',
    SentimentAnalyzer.analyzeEach messages analyses w = (Return (analyses ++ added), w') /\
    length added = length messages /\
    (length (calls w) + 2 * length messages <= length (calls w')
     <= length (calls w) + 3 * length messages)%nat.
Proof.
  revert analyses w. induction messages as [| message rest IH]; intros analyses w.
  - exists [], w. rewrite app_nil_r. split; [reflexivity |]. simpl. lia.
  - cbn [SentimentAnalyzer.analyzeEach]. unfold bind at 1. unfold try_catch, bind at 1.
    destruct (analyzeTrend_calls message w) as (ta & w1 & -> & Hcalls).
    unfold ret at 1.
    destruct (IH (analyses ++ [ta]) w1) as (added & w' & -> & Hlen & Hcalls').
    exists (ta :: added), w'. rewrite <- app_assoc. split; [reflexivity |].
    simpl. split; lia.
Qed.

(** X23. batchAnalyze never throws and analyses the first ten messages
    only: it returns one analysis for each of them, so
    min(10, n) analyses for n messages, and asks the language model
    between two and three times per analysis, at most 30 times in all. *)
Theorem batchAnalyze_first_ten (messages : list TwitterMessage) (w : World) :
  exists analyses w',
    SentimentAnalyzer.batchAnalyze messages w = (Return analyses, w') /\
    length analyses = Nat.min 10 (length messages) /\
    (length (calls w) + 2 * length analyses <= length (calls w')
     <= length (calls w) + 3 * length analyses)%nat /\
    (length (calls w') <= length (calls w) + 30)%nat.
Proof.
  unfold SentimentAnalyzer.batchAnalyze.
  destruct (analyzeEach_run (take 10 messages) [] w) as (added & w' & Hrun & Hlen & Hcalls).
  exists added, w'. rewrite length_take in Hlen, Hcalls.
  split; [exact Hrun |]. rewrite Hlen. split; [reflexivity |]. split; lia.
Qed.

(** ** logger.ts *)

Lemma sliceFrom_last {A} (array : list A) (k : Z) :
  0 < k -> sliceFrom array (- k) = drop (length array - Z.to_nat k) array.
Proof.
  intros Hk. unfold sliceFrom, relativeIndex.
  destruct (Z.ltb_spec (- k) 0) as [_ | H]; [| lia].
  f_equal. lia.
Qed.

(** X24. A call of log below the level of the logger changes nothing. Any
    other call appends the entry and keeps the newest 1000 entries: the
    new entry is the last one, the entries before it are the most recent
    of the old ones in their order, and the log holds
    min(1000, previous length + 1) entries, never more than 1000. *)
Theorem log_keeps_newest (now : jsstring) (level : Logger.LogLevel) (message : jsstring)
  (data : jsval) (logger : Logger.t) :
  let entry := {| Logger.timestamp := now; Logger.level := level;
                  Logger.message := message; Logger.data := data |} in
  let logger' := Logger.log now level message data logger in
  Logger.logLevel logger' = Logger.logLevel logger /\
  (Logger.rank level < Logger.rank (Logger.logLevel logger) -> logger' = logger) /\
  (Logger.rank (Logger.logLevel logger) <= Logger.rank level ->
     (exists dropped kept,
        Logger.logs logger = dropped ++ kept /\
        Logger.logs logger' = kept ++ [entry]) /\
     length (Logger.logs logger') = Nat.min 1000 (S (length (Logger.logs logger))) /\
     (length (Logger.logs logger') <= 1000)%nat).
Proof.
  intros entry logger'. unfold logger', Logger.log. fold entry.
  destruct (Z.ltb_spec (Logger.rank level) (Logger.rank (Logger.logLevel logger))) as [Hlow | Hok].
  - split; [reflexivity |]. split; [reflexivity | lia].
  - split; [reflexivity |]. split; [lia |]. intros _. cbn [Logger.logs].
    rewrite length_app. cbn [length]. unfold Logger.maxLogs.
    destruct (Z.ltb_spec 1000 (Z.of_nat (length (Logger.logs logger) + 1))) as [Hfull | Hroom].
    + rewrite sliceFrom_last by lia. rewrite length_app. cbn [length].
      rewrite drop_app_le by lia.
      split; [| rewrite length_app, length_drop; cbn [length]; lia].
      eexists _, _. split; [| reflexivity]. symmetry. apply take_drop.
    + split; [| rewrite length_app; cbn [length]; lia].
      exists [], (Logger.logs logger). split; reflexivity.
Qed.

(** X25. getRecentLogs(count) returns the last min(count, n) of the n
    entries for a count of at least 1. For the count 0 it returns the
    whole log, not the empty list, since slice(-0) is slice(0); for a
    negative count it drops the first -count entries. *)
Theorem getRecentLogs_counts (count : Z) (logger : Logger.t) :
  (1 <= count ->
     (exists older, Logger.logs logger = older ++ Logger.getRecentLogs count logger) /\
     length (Logger.getRecentLogs count logger) =
       Nat.min (Z.to_nat count) (length (Logger.logs logger))) /\
  (count = 0 -> Logger.getRecentLogs count logger = Logger.logs logger) /\
  (count < 0 ->
     Logger.getRecentLogs count logger = drop (Z.to_nat (- count)) (Logger.logs logger)).
Proof.
  unfold Logger.getRecentLogs, sliceFrom, relativeIndex. split; [| split].
  - intros Hpos. destruct (Z.ltb_spec (- count) 0) as [_ | H]; [| lia]. split.
    + eexists. symmetry. apply take_drop.
    + rewrite length_drop. lia.
  - intros ->. reflexivity.
  - intros Hneg. destruct (Z.ltb_spec (- count) 0) as [H | _]; [lia |].
    destruct (Nat.le_ge_cases (Z.to_nat (- count)) (length (Logger.logs logger))) as [Hle | Hge].
    + now rewrite Nat.min_l.
    + rewrite Nat.min_r by assumption. now rewrite !drop_ge.
Qed.

Lemma count_fold (entries : list Logger.LogEntry) (counts : Logger.Stats.t) :
  let ofLevel level := length (List.filter (fun log => Logger.sameLevel (Logger.level log) level)
                                      entries) in
  let final := fold_left Logger.count entries counts in
  Logger.Stats.totalLogs final = Logger.Stats.totalLogs counts /\
  Logger.Stats.debugCount final = (Logger.Stats.debugCount counts + ofLevel Logger.DEBUG)%nat /\
  Logger.Stats.infoCount final = (Logger.Stats.infoCount counts + ofLevel Logger.INFO)%nat /\
  Logger.Stats.warnCount final = (Logger.Stats.warnCount counts + ofLevel Logger.WARN)%nat /\
  Logger.Stats.errorCount final = (Logger.Stats.errorCount counts + ofLevel Logger.ERROR)%nat /\
  (ofLevel Logger.DEBUG + ofLevel Logger.INFO + ofLevel Logger.WARN + ofLevel Logger.ERROR = length entries)%nat.
Proof.
  cbv zeta. revert counts. induction entries as [| entry entries IH]; intros counts.
  - simpl. repeat split; lia.
  - cbn [fold_left]. specialize (IH (Logger.count counts entry)).
    destruct IH as (Ht & Hd & Hi & Hw & He & Hsum).
    rewrite Ht, Hd, Hi, Hw, He. unfold Logger.count. cbn [List.filter length].
    destruct (Logger.level entry); cbn -[List.filter]; repeat split; lia.
Qed.

(** X26. The statistics of the logger: each count is the number of
    entries of its level, getLogsByLevel with a count of at least that
    number returns exactly those entries, and the four counts add up to
    totalLogs, the length of the log. *)
Theorem getStats_counts (logger : Logger.t) :
  let stats := Logger.getStats logger in
  let ofLevel level := Logger.getLogsByLevel level (Z.of_nat (S (length (Logger.logs logger))))
                    logger in
  Logger.Stats.totalLogs stats = length (Logger.logs logger) /\
  Logger.Stats.debugCount stats = length (ofLevel Logger.DEBUG) /\
  Logger.Stats.infoCount stats = length (ofLevel Logger.INFO) /\
  Logger.Stats.warnCount stats = length (ofLevel Logger.WARN) /\
  Logger.Stats.errorCount stats = length (ofLevel Logger.ERROR) /\
  (Logger.Stats.debugCount stats + Logger.Stats.infoCount stats +
   Logger.Stats.warnCount stats + Logger.Stats.errorCount stats =
   Logger.Stats.totalLogs stats)%nat /\
  (forall level entry, In entry (ofLevel level) -> Logger.level entry = level).
Proof.
  cbv zeta. unfold Logger.getStats, Logger.getLogsByLevel.
  assert (Hall : forall level,
            sliceFrom (List.filter (fun log => Logger.sameLevel (Logger.level log) level)
                         (Logger.logs logger))
                      (- Z.of_nat (S (length (Logger.logs logger)))) =
            List.filter (fun log => Logger.sameLevel (Logger.level log) level)
              (Logger.logs logger)).
  { intros level. rewrite sliceFrom_last by lia.
    pose proof (filter_length_le (fun log => Logger.sameLevel (Logger.level log) level)
                  (Logger.logs logger)) as Hle.
    replace (_ - _)%nat with O by lia. reflexivity. }
  rewrite !Hall.
  match goal with
  | |- context [fold_left Logger.count ?l ?c] =>
      destruct (count_fold l c) as (Ht & Hd & Hi & Hw & He & Hsum)
  end.
  rewrite Ht, Hd, Hi, Hw, He. cbn [Logger.Stats.totalLogs Logger.Stats.debugCount
    Logger.Stats.infoCount Logger.Stats.warnCount Logger.Stats.errorCount].
  repeat split; try lia.
  intros level entry Hin. rewrite Hall in Hin. apply filter_In in Hin as [_ Hsame].
  unfold Logger.sameLevel in Hsame. apply Z.eqb_eq in Hsame.
  destruct (Logger.level entry), level; simpl in Hsame; congruence.
Qed.

(** ** The further statements at concrete inputs *)

(** Alice, replied to a second ago, is not replied to again. *)
Lemma replyToTweet_refuses_recent_author_witness :
  let alice := exampleMessage "1" "alice" scenarioText scenarioMetrics in
  exists r w',
    MessageReplyHandler.replyToTweet (exampleConfig 10) alice (str "gm") repliedWorld =
      (Return r, w') /\
    success r = false /\
    error r = Some (str "Recent reply to this user") /\
    calls w' = [].
Proof.
  intros alice.
  destruct (replyToTweet_refuses_recent_author (exampleConfig 10) alice (str "gm")
              repliedWorld 1000) as (r & w' & Hrun & Hs & _ & _ & Hcalls & _).
  - apply lookup_insert_eq.
  - discriminate.
  - intros k. reflexivity.
  - exists r, w'. split; [exact Hrun |]. split; [exact Hs |]. split; [| exact Hcalls].
    pose proof Hrun as E. vm_compute in E. injection E as <- _. reflexivity.
Defined.

(** Before the client is initialised a reply fails with the message of
    TwitterBot, and nothing is posted. *)
Lemma replyToTweet_without_client_witness :
  let alice := exampleMessage "1" "alice" scenarioText scenarioMetrics in
  let w := uninitialisedWorld (exampleEnv (fun _ => 1000) modelDown postedThenFailing) in
  exists r w',
    MessageReplyHandler.replyToTweet (exampleConfig 10) alice (str "gm") w = (Return r, w') /\
    success r = false /\
    content r = str "gm" /\
    error r = Some (str "Twitter client not initialized").
Proof.
  intros alice w.
  destruct (replyToTweet_without_client (exampleConfig 10) alice (str "gm") w eq_refl)
    as (r & w' & Hrun & Hs & _ & Hc & _).
  exists r, w'. split; [exact Hrun |]. split; [exact Hs |]. split; [exact Hc |].
  pose proof Hrun as E. vm_compute in E. injection E as <- _. reflexivity.
Defined.

(** Five items in chunks of two. *)
Lemma chunkArray_partitions_witness :
  exists chunks,
    Helpers.chunkArray 6 [1; 2; 3; 4; 5] 2 = Some chunks /\
    concat chunks = [1; 2; 3; 4; 5].
Proof.
  destruct (chunkArray_partitions [1; 2; 3; 4; 5] 2) as (chunks & Hrun & Hall & _).
  - lia.
  - exists chunks. split; [exact Hrun | exact Hall].
Defined.

(** Three attempts at most, the third of which succeeds: two pauses, of
    1000 and 2000 milliseconds. *)
Lemma retry_attempts_and_delays_witness :
  Helpers.retry 3 thirdTimeLucky 3 1000 =
  Some {| Helpers.Retried.outcome := inl 2%nat;
          Helpers.Retried.attempts := 3;
          Helpers.Retried.delays := [1000; 2000] |}.
Proof.
  destruct (retry_attempts_and_delays thirdTimeLucky 3 1000 3) as (_ & Hvalue & _).
  - simpl. lia.
  - apply (Hvalue 2%nat 2%nat).
    + lia.
    + intros j Hj. exists (str "503"). destruct j as [| [| j]]; [reflexivity.. | lia].
    + reflexivity.
Defined.

(** With the agent runtime down the scenario message gets no reply and
    no token, and is marked as processed. *)
Lemma processTwitterMessage_runtime_down_witness :
  let alice := exampleMessage "1" "alice" scenarioText scenarioMetrics in
  let w := freshWorld (exampleEnv (fun _ => 1000) modelDown postedThenFailing) in
  exists a w',
    ElizaSolanaSDK.processTwitterMessage (exampleConfig 10) alice w = (Return a, w') /\
    AIAnalysis.shouldReply a = JBool false /\
    AIAnalysis.shouldCreateToken a = JBool false /\
    AIAnalysis.confidence a = Num 0.1 /\
    str "1" ∈ processedTweets w'.
Proof.
  intros alice w.
  destruct (processTwitterMessage_runtime_down (exampleConfig 10) alice w
              (str "runtime unavailable"))
    as (a & w' & Hrun & Hreply & Hcreate & _ & Hconf & _ & _ & Hin).
  - apply not_elem_of_empty.
  - intros k. reflexivity.
  - exists a, w'. repeat split; assumption.
Defined.

(** With the language model down and the runtime answering, the scenario
    message gets the decision to reply. *)
Lemma processTwitterMessage_model_down_witness :
  let alice := exampleMessage "1" "alice" scenarioText scenarioMetrics in
  let w := freshWorld (runtimeOnly runtimeAnswer) in
  exists a w',
    ElizaSolanaSDK.processTwitterMessage (exampleConfig 10) alice w = (Return a, w') /\
    AIAnalysis.shouldReply a = JBool true /\
    AIAnalysis.shouldCreateToken a = JBool false /\
    AIAnalysis.confidence a = Num 0.5.
Proof.
  intros alice w.
  destruct (processTwitterMessage_model_down (exampleConfig 10) alice w
              (str "timeout") runtimeAnswer)
    as (a & w' & Hrun & Hreply & Hcreate & _ & Hconf & _).
  - apply not_elem_of_empty.
  - intros k. reflexivity.
  - intros k. reflexivity.
  - discriminate.
  - discriminate.
  - exists a, w'. repeat split; assumption.
Defined.


(** The completion {} asks for no action; a failed completion asks for a
    reply. *)
Lemma getStructuredAnalysis_defaults_witness :
  let empty := freshWorld (exampleEnv (fun _ => 1000) (fun _ => Return (JObj []))
                                      postedThenFailing) in
  let down := freshWorld (exampleEnv (fun _ => 1000) modelDown postedThenFailing) in
  (exists r w',
     ElizaAgent.getStructuredAnalysis scenarioText empty = (Return r, w') /\
     replyToTweet (ElizaAgent.actions r) = JBool false) /\
  (exists r w',
     ElizaAgent.getStructuredAnalysis scenarioText down = (Return r, w') /\
     replyToTweet (ElizaAgent.actions r) = JBool true).
Proof.
  intros empty down. split.
  - destruct (getStructuredAnalysis_defaults scenarioText empty) as (r & Hrun & _ & _ & Hnone).
    exists r. eexists. split; [exact Hrun |].
    rewrite (Hnone (JObj []) JUndefined JUndefined eq_refl eq_refl (or_introl eq_refl) eq_refl I).
    reflexivity.
  - destruct (getStructuredAnalysis_defaults scenarioText down) as (r & Hrun & _ & Hdown & _).
    exists r. eexists. split; [exact Hrun |].
    destruct (Hdown (str "timeout")) as [_ Hreply]; [reflexivity | exact Hreply].
Defined.

(** Exact arithmetic is one rounding of the kind: with it one third is
    33.33 per cent. *)
Lemma calculatePercentage_range_witness :
  exists hundredths : Z,
    0 <= hundredths <= 10000 /\
    Helpers.calculatePercentage (fun q => q) (Num 1) (Num 3) =
      Num (inject_Z hundredths / 100).
Proof.
  destruct (calculatePercentage_range (fun q => q)) as [_ Hrange].
  - intros x y Hxy. exact Hxy.
  - reflexivity.
  - reflexivity.
  - reflexivity.
  - reflexivity.
  - destruct (Hrange 1%Q 3%Q) as (hundredths & Hbounds & Hrun & _).
    + discriminate.
    + discriminate.
    + reflexivity.
    + exists hundredths. split; [exact Hbounds | exact Hrun].
Defined.

(** With a payer and the chain down, a concept of ASCII texts that passes
    the validation comes back as a failure carrying the error of the
    chain, after the request. *)
Lemma createToken_never_throws_witness :
  let w := freshWorld (exampleEnv (fun _ => 1000) modelDown postedThenFailing) in
  exists r w' chain,
    MemeCoinCreator.createToken (exampleConfig 10) plainCoin w = (Return r, w') /\
    calls w' = chain ++ [CreateTokenWithBondingCurve (str "WAGMI") (Num 1000000000) (Num 1)] /\
    TokenCreationResult.success r = false /\
    exists e, TokenCreationResult.error r = Some (Msg e).
Proof.
  intros w.
  destruct (createToken_never_throws (exampleConfig 10) plainCoin w)
    as (r & w' & Hrun & _ & Hvalid).
  destruct Hvalid as ([chain Hcalls] & _ & Hpayer); try reflexivity.
  assert (Hs : TokenCreationResult.success r = false).
  { pose proof Hrun as E. vm_compute in E. injection E as <- _. reflexivity. }
  destruct (Hpayer eq_refl) as [_ Hfailed].
  exists r, w', chain. split; [exact Hrun |]. split; [exact Hcalls |].
  split; [exact Hs | exact (Hfailed Hs)].
Defined.

(** A configuration of NaN numbers is accepted. *)
Lemma validateConfig_accepts_witness :
  Helpers.validateConfig nanConfig = Return tt.
Proof.
  destruct (validateConfig_accepts nanConfig) as [_ Haccepted].
  apply Haccepted; try discriminate; try reflexivity.
  left. reflexivity.
Defined.

(** 'to the moon' gives TTM; 'a' gives A, which createToken refuses. *)
Lemma generateTokenSymbol_format_witness :
  MemeCoinCreator.symbolFormat
    (Helpers.generateTokenSymbol toUpperCase (1 # 2) (str "to the moon")) = true /\
  MemeCoinCreator.symbolFormat
    (Helpers.generateTokenSymbol toUpperCase (1 # 2) (str "a")) = false /\
  MemeCoinCreator.symbolFormat
    (Helpers.generateTokenSymbol toUpperCase (1 # 2) (str "123")) = false.
Proof.
  split; [| split].
  - destruct (generateTokenSymbol_format toUpperCase (1 # 2) (str "to the moon")) as [_ Hwords].
    destruct (Hwords (str "TO") [str "THE"; str "MOON"] eq_refl) as (_ & _ & Hformat).
    apply Hformat. left. simpl. lia.
  - destruct (generateTokenSymbol_format toUpperCase (1 # 2) (str "a")) as [_ Hwords].
    destruct (Hwords (str "A") [] eq_refl) as (_ & _ & Hformat).
    apply not_true_is_false. intros H. apply Hformat in H. simpl in H. lia.
  - destruct (generateTokenSymbol_format toUpperCase (1 # 2) (str "123")) as [Hnone _].
    apply Hnone. repeat (apply Forall_cons; split; [cbv; intros [H _]; now apply H |]).
    constructor.
Defined.
